(** * openweb-frontend: wizard and cart orchestration

A shallow embedding of the cart store, the two wizards, the
confirmation modal and the fingerprint generator of the Angular
front end, with the properties of their state transitions.

Conventions.
- A JavaScript string is a [string]: the bytes of its UTF-8 encoding.
  White space, for [trim] and the class [\s], is that of ECMAScript,
  tested on the characters the bytes encode.
- A JavaScript number holding an integer (an index, a step, a
  timestamp) is a [Z]; a number holding an amount of money is the
  rational it denotes in decimal notation, a [Q].
- A signal is a field of the record of its component or service.
- A method that may throw is a computation in the monad [M] of
  module [Effects]; a method that waits for the backend is a [Task]
  of module [Async]. *)

From Stdlib Require Import ZArith QArith String Ascii List Bool Lia.
From stdpp Require Import base option list gmap strings pretty.

Local Open Scope string_scope.
Local Open Scope Z_scope.

(** ** JavaScript values *)

Module JS.

(** An array whose slots may be empty: [None] is a hole, read as
    [undefined]. *)
Definition array (A : Type) : Type := list (option A).

Definition of_list {A} (l : list A) : array A := Some <$> l.

(** [a[i]] for an integer [i]. *)
Definition get {A} (a : array A) (i : Z) : option A :=
  if i <? 0 then None else mjoin (a !! Z.to_nat i).

(** [a[i] = v]. Inside the array the slot is overwritten; at or past
    the end the array grows to [i + 1] slots and the slots in between
    stay empty; a negative [i] names a property that is not an element,
    so the elements are untouched. *)
Definition set {A} (a : array A) (i : Z) (v : A) : array A :=
  if i <? 0 then a
  else if i <? Z.of_nat (List.length a) then <[Z.to_nat i := Some v]> a
  else (a ++ replicate (Z.to_nat i - List.length a) None ++ [Some v])%list.

(** Truthiness of a slot holding a boolean. *)
Definition truthy (s : option bool) : bool := default false s.

(** *** Strings

A string is kept as the bytes of its UTF-8 form. [code_points]
reads the characters back; a byte that starts no well-formed
sequence is read as U+FFFD, as a decoder does. None of the
characters tested below lies outside the basic plane, so a test
on the code points is the test on the UTF-16 units. *)
Definition continuation (a : ascii) : option N :=
let x := N_of_ascii a in
if (128 <=? x)%N && (x <? 192)%N then Some (x - 128)%N else None.

Fixpoint code_points (s : string) : list N :=
  match s with
  | EmptyString => []
  | String a s1 =>
      let x := N_of_ascii a in
      if (x <? 128)%N then x :: code_points s1
      else if (192 <=? x)%N && (x <? 224)%N then
        match s1 with
        | String b s2 =>
            match continuation b with
            | Some y => ((x - 192) * 64 + y)%N :: code_points s2
            | None => 65533%N :: code_points s1
            end
        | EmptyString => 65533%N :: code_points s1
        end
      else if (224 <=? x)%N && (x <? 240)%N then
        match s1 with
        | String b (String c s3) =>
            match continuation b, continuation c with
            | Some y, Some z => ((x - 224) * 4096 + y * 64 + z)%N :: code_points s3
            | _, _ => 65533%N :: code_points s1
            end
        | _ => 65533%N :: code_points s1
        end
      else if (240 <=? x)%N && (x <? 248)%N then
        match s1 with
        | String b (String c (String d s4)) =>
            match continuation b, continuation c, continuation d with
            | Some y, Some z, Some t =>
                ((x - 240) * 262144 + y * 4096 + z * 64 + t)%N :: code_points s4
            | _, _, _ => 65533%N :: code_points s1
            end
        | _ => 65533%N :: code_points s1
        end
      else 65533%N :: code_points s1
  end.

(** The UTF-8 form of a character. *)
Definition encode (n : N) : string :=
  if (n <? 128)%N then String (ascii_of_N n) EmptyString
  else if (n <? 2048)%N then
    String (ascii_of_N (192 + n / 64))
      (String (ascii_of_N (128 + n mod 64)) EmptyString)
  else if (n <? 65536)%N then
    String (ascii_of_N (224 + n / 4096))
      (String (ascii_of_N (128 + (n / 64) mod 64))
         (String (ascii_of_N (128 + n mod 64)) EmptyString))
  else
    String (ascii_of_N (240 + n / 262144))
      (String (ascii_of_N (128 + (n / 4096) mod 64))
         (String (ascii_of_N (128 + (n / 64) mod 64))
            (String (ascii_of_N (128 + n mod 64)) EmptyString))).

Definition of_code_points (l : list N) : string :=
  fold_right (fun n s => String.append (encode n) s) EmptyString l.

(** White space and line terminators, what [trim] strips and what
    the class [\s] of a regular expression matches: TAB, LF, VT, FF,
    CR, SP, NBSP, U+1680, U+2000 to U+200A, LS, PS, U+202F, U+205F,
    U+3000 and U+FEFF. *)
Definition is_space (n : N) : bool :=
  ((9 <=? n)%N && (n <=? 13)%N) || (n =? 32)%N || (n =? 160)%N || (n =? 5760)%N
  || ((8192 <=? n)%N && (n <=? 8202)%N) || (n =? 8232)%N || (n =? 8233)%N
  || (n =? 8239)%N || (n =? 8287)%N || (n =? 12288)%N || (n =? 65279)%N.

Fixpoint trim_start_points (l : list N) : list N :=
  match l with
  | n :: l' => if is_space n then trim_start_points l' else l
  | [] => []
  end.

Definition trim_points (l : list N) : list N :=
  List.rev (trim_start_points (List.rev (trim_start_points l))).

Definition trim (s : string) : string :=
  of_code_points (trim_points (code_points s)).

(** [!s] for a string. *)
Definition falsy (s : string) : bool :=
  match s with EmptyString => true | _ => false end.

End JS.

(** ** Object literals with string values *)

Module Obj.

(** A [Record<string, string>]: the keys in insertion order. *)
Definition t : Type := list (string * string).

Fixpoint set (o : t) (k v : string) : t :=
  match o with
  | [] => [(k, v)]
  | (k', v') :: o' =>
      if String.eqb k' k then (k', v) :: o' else (k', v') :: set o' k v
  end.

(** [{ ...a, ...b }]. *)
Definition spread (a b : t) : t :=
  fold_left (fun acc kv => set acc (fst kv) (snd kv)) b a.

End Obj.

(** ** Backend calls

An HTTP call of the API service is an observable that emits one
response and completes, or fails. A method that subscribes to one is
a [Task]: the state it leaves when it returns, the request it has
issued, and what its callbacks do with the outcome, applied to the
state at the time the outcome arrives. *)

Module Async.

(** The body of a failed call as the error modal reads it: the
    [type] of the envelope, when there is one, is any string. *)
Record ApiErrorResponse : Type := {
  err_type : string;
  err_code : option string;
  err_message : option string;
  err_details : option Obj.t }.

(** What a failed observable carries ([error: unknown]). *)
Inductive Thrown : Type :=
| HttpErrorResponse (body : option ApiErrorResponse)
| Direct (e : ApiErrorResponse)
| Other.

Inductive Outcome (A : Type) : Type :=
| Next (a : A)
| Error (e : Thrown).
Arguments Next {A} a.
Arguments Error {A} e.

Inductive Task (Req : Type) (Resp : Req -> Type) (S : Type) : Type :=
| Done (s : S)
| Await (s : S) (r : Req) (k : Outcome (Resp r) -> S -> Task Req Resp S).
Arguments Done {Req Resp S} s.
Arguments Await {Req Resp S} s r k.

Section Run.
  Context {Req : Type} {Resp : Req -> Type} {S : Type}.
  Variable backend : forall r : Req, Outcome (Resp r).

(** The task run to its end against a backend, with nothing else
    touching the state while a call is in flight. *)
Fixpoint run (t : Task Req Resp S) : S :=
  match t with
  | Done s => s
  | Await s r k => run (k (backend r) s)
  end.

(** The requests issued on the way, in order. *)
Fixpoint requests (t : Task Req Resp S) : list Req :=
  match t with
  | Done _ => []
  | Await s r k => r :: requests (k (backend r) s)
  end.

(** The states the component goes through: one per return to the
    event loop. *)
Fixpoint states (t : Task Req Resp S) : list S :=
  match t with
  | Done s => [s]
  | Await s r k => s :: states (k (backend r) s)
  end.
End Run.

Section RunWith.
  Context {Req : Type} {Resp : Req -> Type} {S : Type}.
  (** A handler answers a request from the state it finds and may
      change that state: a local service answers this way. *)
  Variable handler : forall r : Req, S -> Outcome (Resp r) * S.

Fixpoint run_with (t : Task Req Resp S) : S :=
  match t with
  | Done s => s
  | Await s r k => run_with (k (fst (handler r s)) (snd (handler r s)))
  end.

Fixpoint requests_with (t : Task Req Resp S) : list Req :=
  match t with
  | Done _ => []
  | Await s r k => r :: requests_with (k (fst (handler r s)) (snd (handler r s)))
  end.
End RunWith.

End Async.

(** ** Error modal service (error-modal.service.ts) *)

Module ErrorModal.
  Import Async.

Inductive ErrorType : Type := error | warning | alert | info.

Record ErrorModalConfig : Type := {
  type : ErrorType;
  code : option string;
  message : option string;
  details : Obj.t;
  buttonText : string;
  redirectToMain : bool;
  headerClass : string;
  iconClass : string;
  buttonClass : string;
  borderClass : string }.

(** The part of [Partial<ErrorModalConfig>] the callers of this file
    pass. The outer [None] is an absent property; a property present
    with the value [undefined] is [Some None] and overrides. *)
Record ErrorModalInput : Type := {
  in_code : option (option string);
  in_message : option (option string);
  in_details : option (option Obj.t);
  in_buttonText : option string;
  in_redirectToMain : option bool }.

Definition DEFAULT_CONFIGS (t : ErrorType) : ErrorModalConfig :=
  match t with
  | error =>
      {| type := error; code := Some "ERR_500";
         message := Some "Se ha producido un error crítico en el sistema que impide continuar con la operación actual.";
         details := []; buttonText := "Volver al inicio"; redirectToMain := true;
         headerClass := "bg-red-50 dark:bg-red-900"; iconClass := "bg-red-600 text-white";
         buttonClass := "bg-red-600 hover:bg-red-700";
         borderClass := "border-red-300 dark:border-red-700" |}
  | warning =>
      {| type := warning; code := Some "WARN_400";
         message := Some "Se ha detectado una situación que requiere su atención antes de continuar.";
         details := []; buttonText := "Entendido"; redirectToMain := false;
         headerClass := "bg-amber-50 dark:bg-amber-900"; iconClass := "bg-amber-500 text-white";
         buttonClass := "bg-amber-500 hover:bg-amber-600";
         borderClass := "border-amber-300 dark:border-amber-700" |}
  | alert =>
      {| type := alert; code := Some "ALERT_300";
         message := Some "El sistema ha detectado una actividad inusual que debe ser revisada.";
         details := []; buttonText := "Continuar"; redirectToMain := false;
         headerClass := "bg-gray-50 dark:bg-gray-800"; iconClass := "bg-gray-600 text-white";
         buttonClass := "bg-gray-600 hover:bg-gray-700";
         borderClass := "border-gray-300 dark:border-gray-600" |}
  | info =>
      {| type := info; code := Some "INFO_100";
         message := Some "Le informamos sobre una circunstancia importante del sistema.";
         details := []; buttonText := "Aceptar"; redirectToMain := false;
         headerClass := "bg-blue-50 dark:bg-blue-900"; iconClass := "bg-blue-600 text-white";
         buttonClass := "bg-blue-600 hover:bg-blue-700";
         borderClass := "border-blue-300 dark:border-blue-700" |}
  end.

Record t : Type := {
  isVisible : bool;
  config : ErrorModalConfig }.

Definition initial : t := {| isVisible := false; config := DEFAULT_CONFIGS error |}.

Definition show (ty : ErrorType) (custom : ErrorModalInput) (m : t) : t :=
  let base := DEFAULT_CONFIGS ty in
  {| isVisible := true;
     config :=
       {| type := ty;
          code := default (code base) (in_code custom);
          message := default (message base) (in_message custom);
          details := Obj.spread (details base) (default [] (mjoin (in_details custom)));
          buttonText := default (buttonText base) (in_buttonText custom);
          redirectToMain := default (redirectToMain base) (in_redirectToMain custom);
          headerClass := headerClass base;
          iconClass := iconClass base;
          buttonClass := buttonClass base;
          borderClass := borderClass base |} |}.

Definition error_type_of (s : string) : option ErrorType :=
  if String.eqb s "error" then Some error
  else if String.eqb s "warning" then Some warning
  else if String.eqb s "alert" then Some alert
  else if String.eqb s "info" then Some info
  else None.

Definition isApiError (e : ApiErrorResponse) : bool :=
  bool_decide (is_Some (error_type_of (err_type e))).

Definition extractApiError (e : Thrown) : option ApiErrorResponse :=
  match e with
  | HttpErrorResponse (Some body) => if isApiError body then Some body else None
  | HttpErrorResponse None => None
  | Direct d => if isApiError d then Some d else None
  | Other => None
  end.

Definition handleHttpError (e : Thrown) (m : t) : bool * t :=
  match extractApiError e with
  | Some apiError =>
      match error_type_of (err_type apiError) with
      | Some ty =>
          (true, show ty {| in_code := Some (err_code apiError);
                            in_message := Some (err_message apiError);
                            in_details := Some (err_details apiError);
                            in_buttonText := None;
                            in_redirectToMain := None |} m)
      | None => (false, m)
      end
  | None => (false, m)
  end.

End ErrorModal.

(** ** Models (core/models) *)

Module Models.

Record DatosFacturacion : Type := {
  df_tipoDocumento : Z;
  df_complementoDocumento : string;
  df_numeroDocumento : string;
  df_nombreRazonsocial : string;
  df_correoElectronico : string;
  df_numeroTelefono : string }.

Record DeudaSeleccionada : Type := {
  documentoPago : string;
  periodoGestion : Z;
  periodoMes : Z;
  periodoCobro : string;
  periodoServicio : Q;
  periodoComision : Q;
  periodoTotal : Q;
  periodoCode : string }.

(** [PagoPendiente] has the fields of [DeudaSeleccionada]. *)
Definition PagoPendiente : Type := DeudaSeleccionada.

(** A cart item; [C] is the type of its currency field: a [string] in
    the store, an [option string] in a persisted blob, whose older
    records have none. *)
Record ItemCarritoOf (C : Type) : Type := {
  fechaAdicion : Z;
  aliasServicio : string;
  nombreServicio : string;
  abreviacionMoneda : C;
  descripcionDocOficial : string;
  codigoDeuda : string;
  codigoContrato : string;
  nombreAsociado : string;
  datosFacturacion : DatosFacturacion;
  totalServicio : Q;
  totalComision : Q;
  totalGeneral : Q;
  deudasSeleccionadas : list DeudaSeleccionada }.
Arguments fechaAdicion {C} _.
Arguments aliasServicio {C} _.
Arguments nombreServicio {C} _.
Arguments abreviacionMoneda {C} _.
Arguments descripcionDocOficial {C} _.
Arguments codigoDeuda {C} _.
Arguments codigoContrato {C} _.
Arguments nombreAsociado {C} _.
Arguments datosFacturacion {C} _.
Arguments totalServicio {C} _.
Arguments totalComision {C} _.
Arguments totalGeneral {C} _.
Arguments deudasSeleccionadas {C} _.

Definition ItemCarrito : Type := ItemCarritoOf string.

Record CarritoOf (C : Type) : Type := {
  sessionId : string;
  items : list (ItemCarritoOf C);
  createdAt : Z;
  updatedAt : Z }.
Arguments sessionId {C} _.
Arguments items {C} _.
Arguments createdAt {C} _.
Arguments updatedAt {C} _.

Definition Carrito : Type := CarritoOf string.

Record DatosAsociado : Type := {
  da_codigoDeuda : string;
  da_codigoAsociado : string;
  da_nombreAsociado : string;
  da_tipoDocumento : Z;
  da_numeroDocumento : string;
  da_complementoDocumento : string;
  da_nombreRazonsocial : string;
  da_correoElectronico : string;
  da_numeroTelefono : string }.

Record Contrato : Type := {
  c_codigoContrato : string;
  checksumContrato : string;
  datosAsociado : DatosAsociado }.

Record DatosServicio : Type := {
  ds_aliasServicio : string;
  ds_nombreServicio : string }.

(** Response envelopes. The wizards read them with optional chaining,
    so the body, [data] and the list inside may each be missing. *)
Record ContratosData : Type := {
  cd_datosServicio : option DatosServicio;
  contratosAsociado : option (list Contrato) }.

Record ContratosResponse : Type := {
  cr_success : bool;
  cr_data : option ContratosData }.

Record DeudasData : Type := {
  dd_datosServicio : option DatosServicio;
  pagosPendientes : option (list PagoPendiente) }.

Record DeudasResponse : Type := {
  dr_success : bool;
  dr_data : option DeudasData }.

Record ConsultarContratosRequest : Type := {
  codigoEncriptado : string;
  ccr_medioPago : string;
  ccr_codigoDeuda : string }.

Record ConsultarDeudasRequest : Type := {
  cdr_codigoContrato : string;
  cdr_checksumContrato : string }.

End Models.

(** ** Debt-collection wizard (cobranza-wizard) *)

Module CobranzaWizard.
  Import Models Async.

Record t : Type := {
  aliasServicio : string;
  currentStep : Z;
  loading : bool;
  errors : list string;
  searchForm_codigoDeuda : option string;
  contracts : list Contrato;
  selectedContract : option Contrato;
  outstandingDebts : list PagoPendiente;
  selectedDebts : JS.array bool;
  associateData : option DatosAsociado }.

Definition totalSteps : Z := 3.

Definition initial : t :=
  {| aliasServicio := ""; currentStep := 1; loading := false; errors := [];
     searchForm_codigoDeuda := Some ""; contracts := []; selectedContract := None;
     outstandingDebts := []; selectedDebts := []; associateData := None |}.

(** The component together with the error modal it reports to. *)
Definition State : Type := t * ErrorModal.t.

Definition set_currentStep (n : Z) (w : t) : t :=
  {| aliasServicio := aliasServicio w; currentStep := n; loading := loading w;
     errors := errors w; searchForm_codigoDeuda := searchForm_codigoDeuda w;
     contracts := contracts w; selectedContract := selectedContract w;
     outstandingDebts := outstandingDebts w; selectedDebts := selectedDebts w;
     associateData := associateData w |}.

Definition set_loading (b : bool) (w : t) : t :=
  {| aliasServicio := aliasServicio w; currentStep := currentStep w; loading := b;
     errors := errors w; searchForm_codigoDeuda := searchForm_codigoDeuda w;
     contracts := contracts w; selectedContract := selectedContract w;
     outstandingDebts := outstandingDebts w; selectedDebts := selectedDebts w;
     associateData := associateData w |}.

Definition set_errors (e : list string) (w : t) : t :=
  {| aliasServicio := aliasServicio w; currentStep := currentStep w; loading := loading w;
     errors := e; searchForm_codigoDeuda := searchForm_codigoDeuda w;
     contracts := contracts w; selectedContract := selectedContract w;
     outstandingDebts := outstandingDebts w; selectedDebts := selectedDebts w;
     associateData := associateData w |}.

Definition set_contracts (c : list Contrato) (w : t) : t :=
  {| aliasServicio := aliasServicio w; currentStep := currentStep w; loading := loading w;
     errors := errors w; searchForm_codigoDeuda := searchForm_codigoDeuda w;
     contracts := c; selectedContract := selectedContract w;
     outstandingDebts := outstandingDebts w; selectedDebts := selectedDebts w;
     associateData := associateData w |}.

Definition set_selectedContract (c : option Contrato) (w : t) : t :=
  {| aliasServicio := aliasServicio w; currentStep := currentStep w; loading := loading w;
     errors := errors w; searchForm_codigoDeuda := searchForm_codigoDeuda w;
     contracts := contracts w; selectedContract := c;
     outstandingDebts := outstandingDebts w; selectedDebts := selectedDebts w;
     associateData := associateData w |}.

Definition set_outstandingDebts (d : list PagoPendiente) (w : t) : t :=
  {| aliasServicio := aliasServicio w; currentStep := currentStep w; loading := loading w;
     errors := errors w; searchForm_codigoDeuda := searchForm_codigoDeuda w;
     contracts := contracts w; selectedContract := selectedContract w;
     outstandingDebts := d; selectedDebts := selectedDebts w;
     associateData := associateData w |}.

Definition set_selectedDebts (f : JS.array bool) (w : t) : t :=
  {| aliasServicio := aliasServicio w; currentStep := currentStep w; loading := loading w;
     errors := errors w; searchForm_codigoDeuda := searchForm_codigoDeuda w;
     contracts := contracts w; selectedContract := selectedContract w;
     outstandingDebts := outstandingDebts w; selectedDebts := f;
     associateData := associateData w |}.

Definition set_associateData (a : option DatosAsociado) (w : t) : t :=
  {| aliasServicio := aliasServicio w; currentStep := currentStep w; loading := loading w;
     errors := errors w; searchForm_codigoDeuda := searchForm_codigoDeuda w;
     contracts := contracts w; selectedContract := selectedContract w;
     outstandingDebts := outstandingDebts w; selectedDebts := selectedDebts w;
     associateData := a |}.

Definition addError (msg : string) (w : t) : t := set_errors (errors w ++ [msg])%list w.
Definition clearErrors (w : t) : t := set_errors [] w.

Definition handleApiError (e : Thrown) (fallbackMessage : string) (s : State) : State :=
  let '(handled, m) := ErrorModal.handleHttpError e (snd s) in
  if handled then (fst s, m) else (addError fallbackMessage (fst s), m).

Definition quantitySelectedDebts (w : t) : nat :=
  List.length (List.filter JS.truthy (selectedDebts w)).

Definition canAdvance (w : t) : bool :=
  if currentStep w =? 1 then
    negb (JS.falsy (JS.trim (default "" (searchForm_codigoDeuda w))))
  else if currentStep w =? 2 then bool_decide (is_Some (selectedContract w))
  else if currentStep w =? 3 then (0 <? quantitySelectedDebts w)%nat
  else false.

(** *** Step 3: the cascading selection *)

(** [for (let i = from; i <= index; i++) a[i] = true]. Each turn tests
    the condition; [fuel] bounds the number of turns. *)
Fixpoint select_loop (fuel : nat) (i index : Z) (a : JS.array bool) : JS.array bool :=
  match fuel with
  | O => a
  | S fuel' =>
      if i <=? index then select_loop fuel' (i + 1) index (JS.set a i true) else a
  end.

(** [for (let i = from; i < a.length; i++) a[i] = false]. *)
Fixpoint deselect_loop (fuel : nat) (i : Z) (a : JS.array bool) : JS.array bool :=
  match fuel with
  | O => a
  | S fuel' =>
      if i <? Z.of_nat (List.length a) then deselect_loop fuel' (i + 1) (JS.set a i false)
      else a
  end.

(** The new contents of the [selectedDebts] signal. The fuel is the
    number of turns either loop takes. *)
Definition applyToggle (flags : JS.array bool) (index : Z) (checked : bool) : JS.array bool :=
  if checked then select_loop (Z.to_nat (index + 1)) 0 index flags
  else deselect_loop (Z.to_nat (Z.of_nat (List.length flags) - index)) index flags.

Definition toggleDeuda (index : Z) (checked : bool) (w : t) : t :=
  set_selectedDebts (applyToggle (selectedDebts w) index checked) w.

Definition toggleTodasDeudas (checked : bool) (w : t) : t :=
  set_selectedDebts (JS.of_list (List.map (fun _ => checked) (outstandingDebts w))) w.

(** *** Steps 1 and 2: the queries *)

Inductive Req : Type :=
| consultCollectionContracts (params : ConsultarContratosRequest) (alias : string)
| consultCollectionDebts (params : ConsultarDeudasRequest) (alias : string).

Definition Resp (r : Req) : Type :=
  match r with
  | consultCollectionContracts _ _ => option ContratosResponse
  | consultCollectionDebts _ _ => option DeudasResponse
  end.

Definition Task : Type := Async.Task Req Resp State.

Definition on_ui (f : t -> t) (s : State) : State := (f (fst s), snd s).

(** The [tap] of [consultDebts$]. *)
Definition consultDebts_tap (contract : Contrato) (response : option DeudasResponse)
    (w : t) : t :=
  match response with
  | Some {| dr_success := true; dr_data := Some {| pagosPendientes := Some debts |} |} =>
      set_currentStep 3
        (set_selectedDebts (JS.of_list (List.map (fun _ => true) debts))
           (set_associateData (Some (datosAsociado contract))
              (set_outstandingDebts debts w)))
  | _ =>
      set_currentStep 3 (set_selectedDebts [] (set_outstandingDebts [] w))
  end.

Definition consultDebts_request (contract : Contrato) (w : t) : Req :=
  consultCollectionDebts
    {| cdr_codigoContrato := c_codigoContrato contract;
       cdr_checksumContrato := checksumContrato contract |}
    (aliasServicio w).

(** The contracts a response carries when the wizard accepts it:
    [response?.success] and a non-empty [contratosAsociado]. *)
Definition accepted_contracts (response : option ContratosResponse) : option (list Contrato) :=
  match response with
  | Some {| cr_success := true; cr_data := Some {| contratosAsociado := Some (c :: cs) |} |} =>
      Some (c :: cs)
  | _ => None
  end.

Definition finalize (s : State) : State := on_ui (set_loading false) s.

Definition consultContracts (s : State) : Task :=
  if loading (fst s) then Done s
  else
    let debtCode := default "" (searchForm_codigoDeuda (fst s)) in
    if JS.falsy (JS.trim debtCode) then Done (on_ui (addError "Ingrese el código de socio") s)
    else
      let s := on_ui clearErrors (on_ui (set_loading true) s) in
      Await s
        (consultCollectionContracts
           {| codigoEncriptado := ""; ccr_medioPago := "Q"; ccr_codigoDeuda := debtCode |}
           (aliasServicio (fst s)))
        (fun out s =>
           match out with
           | Error e => Done (finalize (handleApiError e "Error al consultar contratos" s))
           | Next response =>
               match accepted_contracts response with
               | None => Done (finalize (on_ui (addError "No se encontraron contratos") s))
               | Some cs =>
                   let s := on_ui (set_contracts cs) s in
                   match cs with
                   | [c] =>
                       let s := on_ui (set_selectedContract (Some c)) s in
                       Await s (consultDebts_request c (fst s))
                         (fun out s =>
                            match out with
                            | Next r => Done (finalize (on_ui (consultDebts_tap c r) s))
                            | Error e =>
                                Done (finalize
                                        (handleApiError e "Error al consultar contratos" s))
                            end)
                   | _ => Done (finalize (on_ui (set_currentStep 2) s))
                   end
               end
           end).

Definition selectContract (contract : Contrato) (w : t) : t :=
  set_selectedContract (Some contract) w.

Definition confirmContract (s : State) : Task :=
  match selectedContract (fst s) with
  | None => Done (on_ui (addError "Seleccione un contrato") s)
  | Some contract =>
      let s := on_ui clearErrors (on_ui (set_loading true) s) in
      Await s (consultDebts_request contract (fst s))
        (fun out s =>
           match out with
           | Next r => Done (finalize (on_ui (consultDebts_tap contract r) s))
           | Error e => Done (finalize (handleApiError e "Error al consultar deudas" s))
           end)
  end.

Definition prevStep (w : t) : t :=
  if 1 <? currentStep w then set_currentStep (currentStep w - 1) (clearErrors w) else w.

End CobranzaWizard.

(** ** The browser and the effects of the services

What the services read from the browser, and cannot compute
themselves, is a [Platform]. The session storage and the signals of
the root services make up the [World]. *)

Module Effects.
  Import Models.

Record FingerprintCache : Type := {
  fc_fingerprint : string;
  fc_timestamp : Z }.

Record Platform : Type := {
  (** the [n]-th reading of [Date.now()] *)
  Date_now_at : nat -> Z;
  (** the [n]-th value of [Math.random().toString(36).substring(2, 11)] *)
  Math_random_at : nat -> string;
  (** whether [sessionStorage.setItem(key, value)] is accepted; when
      it is not, the call throws (the quota is exceeded) *)
  setItem_accepts : gmap string string -> string -> string -> bool;
  (** [JSON.parse(stored) as Carrito]: [None] when the text does not
      parse, or parses to a value on which reading [items] throws;
      otherwise a cart of the declared shape, whose items may lack the
      currency field *)
  JSON_parse_Carrito : string -> option (CarritoOf (option string));
  JSON_stringify_Carrito : Carrito -> string;
  (** [JSON.parse(cached) as FingerprintCache] *)
  JSON_parse_FingerprintCache : string -> option FingerprintCache;
  JSON_stringify_FingerprintCache : FingerprintCache -> string;
  (** the components [collectComponents] gathers from the screen, the
      navigator, WebGL, the canvas and the fonts, already serialised;
      [None] when gathering throws *)
  collected_components : option string;
  (** the SHA-256 digest of a text in hexadecimal; [None] when
      [crypto.subtle] is missing or the digest fails *)
  sha256_hex : string -> option string }.

Record World : Type := {
  sessionStorage : gmap string string;
  (** the [cart] signal of the cart service *)
  cart : option Carrito;
  (** the [fingerprint] signal of the fingerprint service *)
  fingerprint : string;
  (** how many times the clock and the random generator were read *)
  clock_reads : nat;
  random_reads : nat }.

Definition set_sessionStorage (st : gmap string string) (w : World) : World :=
  {| sessionStorage := st; cart := cart w; fingerprint := fingerprint w;
     clock_reads := clock_reads w; random_reads := random_reads w |}.

Definition set_cart (c : option Carrito) (w : World) : World :=
  {| sessionStorage := sessionStorage w; cart := c; fingerprint := fingerprint w;
     clock_reads := clock_reads w; random_reads := random_reads w |}.

Definition set_fingerprint (f : string) (w : World) : World :=
  {| sessionStorage := sessionStorage w; cart := cart w; fingerprint := f;
     clock_reads := clock_reads w; random_reads := random_reads w |}.

Definition set_clock_reads (n : nat) (w : World) : World :=
  {| sessionStorage := sessionStorage w; cart := cart w; fingerprint := fingerprint w;
     clock_reads := n; random_reads := random_reads w |}.

Definition set_random_reads (n : nat) (w : World) : World :=
  {| sessionStorage := sessionStorage w; cart := cart w; fingerprint := fingerprint w;
     clock_reads := clock_reads w; random_reads := n |}.

(** A computation returns a value or throws; either way it leaves a
    world behind, and what it did before throwing stays done. *)
Inductive Result (A : Type) : Type :=
| Ok (a : A) (w : World)
| Throw (w : World).
Arguments Ok {A} a w.
Arguments Throw {A} w.

Definition M (A : Type) : Type := World -> Result A.

#[export] Instance M_ret : MRet M := fun A a w => Ok a w.
#[export] Instance M_bind : MBind M := fun A B f m w =>
  match m w with
  | Ok a w' => f a w'
  | Throw w' => Throw w'
  end.

Definition throw {A} : M A := fun w => Throw w.

(** [try { m } catch { h }] *)
Definition try_catch {A} (m h : M A) : M A := fun w =>
  match m w with
  | Ok a w' => Ok a w'
  | Throw w' => h w'
  end.

Definition world_of {A} (r : Result A) : World :=
  match r with Ok _ w => w | Throw w => w end.

Definition returned {A} (r : Result A) : option A :=
  match r with Ok a _ => Some a | Throw _ => None end.

(** Whether the browser lets the page use the session storage. When
    it does not (the storage is disabled, or the page runs in a frame
    without an origin), every call on [sessionStorage] throws a
    SecurityError. *)
Inductive Access : Type := granted | denied.

(** A call on [sessionStorage] under that access. *)
Definition accessing {A} (access : Access) (m : M A) : M A :=
  match access with
  | granted => m
  | denied => throw
  end.

Definition read {A} (f : World -> A) : M A := fun w => Ok (f w) w.
Definition write (f : World -> World) : M unit := fun w => Ok tt (f w).

Section WithPlatform.
  Variable P : Platform.

Definition getItem (key : string) : M (option string) :=
  read (fun w => sessionStorage w !! key).

Definition setItem (key value : string) : M unit := fun w =>
  if setItem_accepts P (sessionStorage w) key value
  then Ok tt (set_sessionStorage (<[key := value]> (sessionStorage w)) w)
  else Throw w.

Definition removeItem (key : string) : M unit :=
  write (fun w => set_sessionStorage (delete key (sessionStorage w)) w).

Definition Date_now : M Z := fun w =>
  Ok (Date_now_at P (clock_reads w)) (set_clock_reads (S (clock_reads w)) w).

Definition Math_random36 : M string := fun w =>
  Ok (Math_random_at P (random_reads w)) (set_random_reads (S (random_reads w)) w).
End WithPlatform.

End Effects.

(** ** Cart store (core/services/cart.service.ts) *)

Module CartService.
  Import Models Effects.

Definition STORAGE_KEY : string := "redis_cart_items".
Definition SESSION_KEY : string := "redis_session_id".

(** [items = computed(() => this.cart()?.items ?? [])] *)
Definition items (w : World) : list ItemCarrito :=
  match cart w with
  | Some c => Models.items c
  | None => []
  end.

Definition itemCount (w : World) : nat := List.length (items w).

Definition isEmpty (w : World) : bool := (itemCount w =? 0)%nat.

Definition cartCurrency (w : World) : option string :=
  match items w with
  | it :: _ => Some (abreviacionMoneda it)
  | [] => None
  end.

(** The migration of [loadCart]: an item without a currency, or with
    an empty one, gets ['Bs.']. *)
Definition migrate (item : ItemCarritoOf (option string)) : ItemCarrito :=
  {| fechaAdicion := fechaAdicion item;
     aliasServicio := aliasServicio item;
     nombreServicio := nombreServicio item;
     abreviacionMoneda :=
       match abreviacionMoneda item with
       | Some c => if JS.falsy c then "Bs." else c
       | None => "Bs."
       end;
     descripcionDocOficial := descripcionDocOficial item;
     codigoDeuda := codigoDeuda item;
     codigoContrato := codigoContrato item;
     nombreAsociado := nombreAsociado item;
     datosFacturacion := datosFacturacion item;
     totalServicio := totalServicio item;
     totalComision := totalComision item;
     totalGeneral := totalGeneral item;
     deudasSeleccionadas := deudasSeleccionadas item |}.

Definition with_items (c : Carrito) (l : list ItemCarrito) (now : Z) : Carrito :=
  {| sessionId := sessionId c; Models.items := l; createdAt := createdAt c; updatedAt := now |}.

(** [l.filter((_, i) => i !== index)], [i] counting from [from]. *)
Fixpoint filter_index {A} (from index : Z) (l : list A) : list A :=
  match l with
  | [] => []
  | x :: l' =>
      if from =? index then filter_index (from + 1) index l'
      else x :: filter_index (from + 1) index l'
  end.

(** [l.findIndex(p)], [-1] when no element satisfies [p]. *)
Fixpoint findIndex {A} (p : A -> bool) (from : Z) (l : list A) : Z :=
  match l with
  | [] => -1
  | x :: l' => if p x then from else findIndex p (from + 1) l'
  end.

(** The invariant of the cart: every item has the currency of the
    first one. *)
Definition same_currency (l : list ItemCarrito) : bool :=
  match l with
  | [] => true
  | first :: rest =>
      forallb (fun item => String.eqb (abreviacionMoneda first) (abreviacionMoneda item)) rest
  end.

Definition generateSessionId (P : Platform) : M string :=
  now ← Date_now P;
  rnd ← Math_random36 P;
  mret (pretty now +:+ "-" +:+ rnd).

(** The methods of the store, for a browser [P] and the access it
    gives to the session storage. *)
Module On.
  Section WithPlatform.
    Variable P : Platform.
    Variable access : Access.

Definition clearCart : M unit :=
  write (set_cart None);;
  accessing access (removeItem STORAGE_KEY).

Definition saveCart : M unit :=
  currentCart ← read cart;
  match currentCart with
  | Some c => accessing access (setItem P STORAGE_KEY (JSON_stringify_Carrito P c))
  | None => mret tt
  end.

Definition getOrCreateSessionId : M string :=
  stored ← accessing access (getItem SESSION_KEY);
  match stored with
  | Some sessionId =>
      if JS.falsy sessionId then
        fresh ← generateSessionId P;
        accessing access (setItem P SESSION_KEY fresh);;
        mret fresh
      else mret sessionId
  | None =>
      fresh ← generateSessionId P;
      accessing access (setItem P SESSION_KEY fresh);;
      mret fresh
  end.

Definition validateSession (cartSessionId : string) : M bool :=
  currentSessionId ← accessing access (getItem SESSION_KEY);
  mret (bool_decide (currentSessionId = Some cartSessionId)).

Definition loadCart : M unit :=
  try_catch
    (stored ← accessing access (getItem STORAGE_KEY);
     match stored with
     | Some text =>
         if JS.falsy text then mret tt
         else
           match JSON_parse_Carrito P text with
           | None => @throw unit
           | Some parsed =>
               let loaded : Carrito :=
                 {| sessionId := sessionId parsed;
                    Models.items := List.map migrate (Models.items parsed);
                    createdAt := createdAt parsed;
                    updatedAt := updatedAt parsed |} in
               valid ← validateSession (sessionId loaded);
               if valid : bool then write (set_cart (Some loaded)) else clearCart
           end
     | None => mret tt
     end)
    clearCart.

Definition addItem (item : ItemCarrito) : M bool :=
  try_catch
    (currentCart ← read cart;
     sessionId ← getOrCreateSessionId;
     created ← match currentCart with
               | Some c => mret (createdAt c)
               | None => Date_now P
               end;
     updated ← Date_now P;
     write (set_cart (Some
       {| sessionId := sessionId;
          Models.items := match currentCart with
                   | Some c => (Models.items c ++ [item])%list
                   | None => [item]
                   end;
          createdAt := created;
          updatedAt := updated |}));;
     saveCart;;
     mret true)
    (mret false).

Definition removeItem (index : Z) : M unit :=
  currentCart ← read cart;
  match currentCart with
  | None => mret tt
  | Some c =>
      let newItems := filter_index 0 index (Models.items c) in
      if (List.length newItems =? 0)%nat then clearCart
      else
        now ← Date_now P;
        write (set_cart (Some (with_items c newItems now)));;
        saveCart
  end.

Definition replaceItem (index : Z) (newItem : ItemCarrito) : M bool :=
  try_catch
    (currentCart ← read cart;
     match currentCart with
     | None => mret false
     | Some c =>
         if (index <? 0) || (Z.of_nat (List.length (Models.items c)) <=? index)
         then mret false
         else
           let newItems := <[Z.to_nat index := newItem]> (Models.items c) in
           now ← Date_now P;
           write (set_cart (Some (with_items c newItems now)));;
           saveCart;;
           mret true
     end)
    (mret false).
End WithPlatform.
End On.

(** The methods in a browser that lets the page use the storage.
    The constructor of the store calls [loadCart], which throws when
    the storage is denied: a store that was constructed has had
    access to it. *)
Section WithPlatform.
  Variable P : Platform.

Definition clearCart : M unit := On.clearCart granted.
Definition saveCart : M unit := On.saveCart P granted.
Definition getOrCreateSessionId : M string := On.getOrCreateSessionId P granted.
Definition validateSession (cartSessionId : string) : M bool :=
  On.validateSession granted cartSessionId.
Definition loadCart : M unit := On.loadCart P granted.
Definition addItem (item : ItemCarrito) : M bool := On.addItem P granted item.
Definition removeItem (index : Z) : M unit := On.removeItem P granted index.
Definition replaceItem (index : Z) (newItem : ItemCarrito) : M bool :=
  On.replaceItem P granted index newItem.
End WithPlatform.

Definition findDuplicateIndex (alias contrato : string) : M Z :=
  read (fun w =>
    findIndex (fun item => String.eqb (aliasServicio item) alias
                           && String.eqb (codigoContrato item) contrato) 0 (items w)).

Definition canAddItemWithCurrency (moneda : string) : M (bool * option string) :=
  read (fun w =>
    match items w with
    | [] => (true, None)
    | first :: _ =>
        let existingCurrency := abreviacionMoneda first in
        (String.eqb existingCurrency moneda, Some existingCurrency)
    end).

End CartService.

(** ** Confirmation modal service (confirmation-modal.service.ts)

A promise is a number, given out by [new Promise] in order; the
service records which promises are settled and with what value.
The resolver of a promise settles it if it is still pending and
does nothing otherwise. *)

Module ConfirmationModal.

Record ConfirmationModalConfig : Type := {
  title : string;
  message : string;
  details : Obj.t;
  confirmText : string;
  cancelText : string;
  headerClass : string;
  iconClass : string;
  confirmButtonClass : string;
  cancelButtonClass : string;
  borderClass : string }.

(** [Partial<ConfirmationModalConfig>]: [None] is an absent property. *)
Record ConfirmationModalInput : Type := {
  in_title : option string;
  in_message : option string;
  in_details : option Obj.t;
  in_confirmText : option string;
  in_cancelText : option string;
  in_headerClass : option string;
  in_iconClass : option string;
  in_confirmButtonClass : option string;
  in_cancelButtonClass : option string;
  in_borderClass : option string }.

Definition DEFAULT_CONFIG : ConfirmationModalConfig :=
  {| title := "Confirmar acción";
     message := "¿Está seguro que desea continuar con esta operación?";
     confirmText := "Continuar";
     cancelText := "Cancelar";
     details := [];
     headerClass := "bg-amber-50 dark:bg-amber-900";
     iconClass := "bg-amber-500 text-white";
     confirmButtonClass := "bg-amber-500 hover:bg-amber-600";
     cancelButtonClass :=
       "bg-gray-200 hover:bg-gray-300 text-gray-800 dark:bg-gray-700 dark:hover:bg-gray-600 dark:text-gray-100";
     borderClass := "border-amber-300 dark:border-amber-700" |}.

Abbreviation Promise := nat (only parsing).

Record t : Type := {
  isVisible : bool;
  config : ConfirmationModalConfig;
  (** the [_resolveCallback] signal: the promise whose resolver it holds *)
  resolveCallback : option Promise;
  (** the settled promises and their values *)
  settled : gmap Promise bool;
  (** the next promise [new Promise] gives out *)
  next_promise : Promise }.

Definition initial : t :=
  {| isVisible := false; config := DEFAULT_CONFIG; resolveCallback := None;
     settled := ∅; next_promise := 0%nat |}.

(** [{ ...DEFAULT_CONFIG, ...customConfig, details: { ... } }] *)
Definition merge (customConfig : option ConfirmationModalInput) : ConfirmationModalConfig :=
  match customConfig with
  | None => DEFAULT_CONFIG
  | Some c =>
      {| title := default (title DEFAULT_CONFIG) (in_title c);
         message := default (message DEFAULT_CONFIG) (in_message c);
         details := Obj.spread (details DEFAULT_CONFIG) (default [] (in_details c));
         confirmText := default (confirmText DEFAULT_CONFIG) (in_confirmText c);
         cancelText := default (cancelText DEFAULT_CONFIG) (in_cancelText c);
         headerClass := default (headerClass DEFAULT_CONFIG) (in_headerClass c);
         iconClass := default (iconClass DEFAULT_CONFIG) (in_iconClass c);
         confirmButtonClass :=
           default (confirmButtonClass DEFAULT_CONFIG) (in_confirmButtonClass c);
         cancelButtonClass :=
           default (cancelButtonClass DEFAULT_CONFIG) (in_cancelButtonClass c);
         borderClass := default (borderClass DEFAULT_CONFIG) (in_borderClass c) |}
  end.

Definition show (customConfig : option ConfirmationModalInput) (m : t) : t :=
  {| isVisible := true; config := merge customConfig;
     resolveCallback := resolveCallback m; settled := settled m;
     next_promise := next_promise m |}.

Definition hide (m : t) : t :=
  {| isVisible := false; config := config m;
     resolveCallback := resolveCallback m; settled := settled m;
     next_promise := next_promise m |}.

Definition set_resolveCallback (r : option Promise) (m : t) : t :=
  {| isVisible := isVisible m; config := config m;
     resolveCallback := r; settled := settled m;
     next_promise := next_promise m |}.

(** Calling the resolver of [p] with [value]. *)
Definition resolve (p : Promise) (value : bool) (m : t) : t :=
  {| isVisible := isVisible m; config := config m;
     resolveCallback := resolveCallback m;
     settled := match settled m !! p with
                | Some _ => settled m
                | None => <[p := value]> (settled m)
                end;
     next_promise := next_promise m |}.

(** [confirm(customConfig)]: the promise returned and the new state. *)
Definition confirm (customConfig : option ConfirmationModalInput) (m : t) : Promise * t :=
  let p := next_promise m in
  let m := {| isVisible := isVisible m; config := config m;
              resolveCallback := resolveCallback m; settled := settled m;
              next_promise := S p |} in
  (p, show customConfig (set_resolveCallback (Some p) m)).

Definition handleConfirm (m : t) : t :=
  let resolver := resolveCallback m in
  let m := hide m in
  match resolver with
  | Some p => set_resolveCallback None (resolve p true m)
  | None => m
  end.

Definition handleCancel (m : t) : t :=
  let resolver := resolveCallback m in
  let m := hide m in
  match resolver with
  | Some p => set_resolveCallback None (resolve p false m)
  | None => m
  end.

(** The state of a promise: [None] while it is pending. *)
Definition outcome (p : Promise) (m : t) : option bool := settled m !! p.

(** What can happen to the modal. *)
Inductive Event : Type :=
| Confirm (customConfig : option ConfirmationModalInput)
| ClickConfirm
| ClickCancel.

Definition step (m : t) (e : Event) : t :=
  match e with
  | Confirm c => snd (confirm c m)
  | ClickConfirm => handleConfirm m
  | ClickCancel => handleCancel m
  end.

Definition steps (m : t) (es : list Event) : t := fold_left step es m.

(** Promises not yet given out are not settled, and a held resolver
    belongs to a promise given out. *)
Definition well_formed (m : t) : Prop :=
  (forall p, (next_promise m <= p)%nat -> settled m !! p = None)
  /\ (forall p, resolveCallback m = Some p -> (p < next_promise m)%nat).

End ConfirmationModal.

(** ** Fingerprint service (fingerprint.service.ts) *)

Module FingerprintService.
  Import Effects.

Definition CACHE_KEY : string := "browser_fingerprint_cache".
Definition CACHE_DURATION : Z := 5 * 60 * 1000.

Section WithPlatform.
  Variable P : Platform.

Definition getCached : M (option string) :=
  try_catch
    (cached ← getItem CACHE_KEY;
     match cached with
     | None => mret None
     | Some text =>
         if JS.falsy text then mret None
         else
           match JSON_parse_FingerprintCache P text with
           | None => throw
           | Some entry =>
               now ← Date_now P;
               if CACHE_DURATION <? now - fc_timestamp entry
               then removeItem CACHE_KEY;; mret None
               else mret (Some (fc_fingerprint entry))
           end
     end)
    (mret None).

Definition setCached (fp : string) : M unit :=
  try_catch
    (now ← Date_now P;
     setItem P CACHE_KEY
       (JSON_stringify_FingerprintCache P {| fc_fingerprint := fp; fc_timestamp := now |}))
    (mret tt).

(** [collectComponents]: the components as the browser gives them. *)
Definition collectComponents : M string :=
  match collected_components P with
  | Some components => mret components
  | None => throw
  end.

(** [hashComponents]: the digest in hexadecimal, or the empty string
    when there is none to be had. *)
Definition hashComponents (components : string) : M string :=
  try_catch
    (match sha256_hex P components with
     | Some digest => mret digest
     | None => mret ""
     end)
    (mret "").

Definition fresh : M string :=
  components ← collectComponents;
  fp ← hashComponents components;
  (if JS.falsy fp then mret tt
   else setCached fp;; write (set_fingerprint fp));;
  mret fp.

Definition generate : M string :=
  try_catch
    (cached ← getCached;
     match cached with
     | Some fp =>
         if JS.falsy fp then fresh
         else write (set_fingerprint fp);; mret fp
     | None => fresh
     end)
    (mret "").
End WithPlatform.

End FingerprintService.

(** ** Decimal arithmetic (decimal.js-light, rounding half up)

Within the 20 significant digits the application configures, the
sums of the library are exact. *)

Module Decimal.

(** [toDecimalPlaces(2)]: the nearest multiple of 1/100, a tie going
    away from zero. *)
Definition toDecimalPlaces2 (q : Q) : Q :=
  let n := Qnum q * 100 in
  let d := Z.pos (Qden q) in
  (Z.sgn n * ((2 * Z.abs n + d) / (2 * d))) # 100.

(** [l.reduce((sum, x) => sum.plus(x), new Decimal(0))] *)
Definition sum (l : list Q) : Q := fold_left Qplus l (0 # 1).

(** [x > 0] *)
Definition positive (q : Q) : bool := 0 <? Qnum q.

End Decimal.

(** ** Checkout wizard (features/cart/pages/checkout-wizard) *)

Module CheckoutWizard.
  Import Models Async Effects.

Record QRData : Type := {
  validity : string;
  qrImage : string }.

(** The reactive form. No control is ever reset, so each holds a
    value of the type it was created with. *)
Record Form : Type := {
  medioPago : string;
  sinNombre : string;
  razonSocial : string;
  tipoDocumento : Z;
  documentoSIN : string;
  complementoSIN : string;
  excepcionNIT : string;
  correoElectronico : string;
  numeroTelefono : string }.

Record t : Type := {
  currentStep : Z;
  loading : bool;
  errors : list string;
  showExceptionNIT : bool;
  itemsCart : list ItemCarrito;
  form : Form;
  qrData : QRData }.

Definition processCardPayments : bool := true.
Definition totalSteps : Z := 5.

Definition initial_form : Form :=
  {| medioPago := ""; sinNombre := "SI"; razonSocial := "CONTROL TRIBUTARIO";
     tipoDocumento := 5; documentoSIN := "99002"; complementoSIN := "";
     excepcionNIT := "false"; correoElectronico := ""; numeroTelefono := "" |}.

Definition initial : t :=
  {| currentStep := 1; loading := false; errors := []; showExceptionNIT := false;
     itemsCart := []; form := initial_form;
     qrData := {| validity := ""; qrImage := "" |} |}.

(** The component with the services it uses: the cart store and the
    fingerprint generator in the [World], and the error modal. *)
Record Sys : Type := {
  ui : t;
  world : World;
  errorModal : ErrorModal.t }.

Definition set_currentStep (n : Z) (c : t) : t :=
  {| currentStep := n; loading := loading c; errors := errors c;
     showExceptionNIT := showExceptionNIT c; itemsCart := itemsCart c;
     form := form c; qrData := qrData c |}.

Definition set_loading (b : bool) (c : t) : t :=
  {| currentStep := currentStep c; loading := b; errors := errors c;
     showExceptionNIT := showExceptionNIT c; itemsCart := itemsCart c;
     form := form c; qrData := qrData c |}.

Definition set_errors (e : list string) (c : t) : t :=
  {| currentStep := currentStep c; loading := loading c; errors := e;
     showExceptionNIT := showExceptionNIT c; itemsCart := itemsCart c;
     form := form c; qrData := qrData c |}.

Definition set_showExceptionNIT (b : bool) (c : t) : t :=
  {| currentStep := currentStep c; loading := loading c; errors := errors c;
     showExceptionNIT := b; itemsCart := itemsCart c;
     form := form c; qrData := qrData c |}.

Definition set_itemsCart (l : list ItemCarrito) (c : t) : t :=
  {| currentStep := currentStep c; loading := loading c; errors := errors c;
     showExceptionNIT := showExceptionNIT c; itemsCart := l;
     form := form c; qrData := qrData c |}.

Definition set_form (f : Form) (c : t) : t :=
  {| currentStep := currentStep c; loading := loading c; errors := errors c;
     showExceptionNIT := showExceptionNIT c; itemsCart := itemsCart c;
     form := f; qrData := qrData c |}.

Definition set_qrData (q : QRData) (c : t) : t :=
  {| currentStep := currentStep c; loading := loading c; errors := errors c;
     showExceptionNIT := showExceptionNIT c; itemsCart := itemsCart c;
     form := form c; qrData := q |}.

Definition on_ui (f : t -> t) (s : Sys) : Sys :=
  {| ui := f (ui s); world := world s; errorModal := errorModal s |}.

Definition set_world (w : World) (s : Sys) : Sys :=
  {| ui := ui s; world := w; errorModal := errorModal s |}.

Definition addError (msg : string) (c : t) : t := set_errors (errors c ++ [msg])%list c.
Definition clearErrors (c : t) : t := set_errors [] c.

Definition handleApiError (e : Thrown) (fallbackMessage : string) (s : Sys) : Sys :=
  let '(handled, m) := ErrorModal.handleHttpError e (errorModal s) in
  if handled then {| ui := ui s; world := world s; errorModal := m |}
  else {| ui := addError fallbackMessage (ui s); world := world s; errorModal := m |}.

(** *** Totals *)

Definition hasItems (c : t) : bool := (0 <? List.length (itemsCart c))%nat.

Definition totalServices (c : t) : Q :=
  Decimal.toDecimalPlaces2 (Decimal.sum (List.map totalServicio (itemsCart c))).

Definition totalCommissions (c : t) : Q :=
  Decimal.toDecimalPlaces2 (Decimal.sum (List.map totalComision (itemsCart c))).

Definition totalGeneral (c : t) : Q :=
  Decimal.toDecimalPlaces2 (Qplus (totalServices c) (totalCommissions c)).

Definition hasCommissions (c : t) : bool := Decimal.positive (totalCommissions c).

Definition canAdvance (c : t) : bool :=
  if currentStep c =? 1 then hasItems c
  else if currentStep c =? 2 then negb (String.eqb (medioPago (form c)) "")
  else if currentStep c =? 3 then negb (String.eqb (JS.trim (correoElectronico (form c))) "")
  else if currentStep c =? 4 then true
  else false.

(** *** Navigation *)

Definition nextStep (c : t) : t :=
  let c := clearErrors c in
  if currentStep c <? totalSteps then set_currentStep (currentStep c + 1) c else c.

Definition prevStep (c : t) : t :=
  if currentStep c =? 5 then c
  else
    let c := clearErrors c in
    if 1 <? currentStep c then set_currentStep (currentStep c - 1) c else c.

Definition setPaymentMethod (value : string) (c : t) : t :=
  set_form
    {| medioPago := value; sinNombre := sinNombre (form c);
       razonSocial := razonSocial (form c); tipoDocumento := tipoDocumento (form c);
       documentoSIN := documentoSIN (form c); complementoSIN := complementoSIN (form c);
       excepcionNIT := excepcionNIT (form c);
       correoElectronico := correoElectronico (form c);
       numeroTelefono := numeroTelefono (form c) |} c.

Definition setExceptionNIT (value : string) (c : t) : t :=
  set_form
    {| medioPago := medioPago (form c); sinNombre := sinNombre (form c);
       razonSocial := razonSocial (form c); tipoDocumento := tipoDocumento (form c);
       documentoSIN := documentoSIN (form c); complementoSIN := complementoSIN (form c);
       excepcionNIT := value;
       correoElectronico := correoElectronico (form c);
       numeroTelefono := numeroTelefono (form c) |} c.

Definition changeBillingDataMode (unNamed : bool) (c : t) : t :=
  if unNamed then
    set_showExceptionNIT false
      (set_form
         {| medioPago := medioPago (form c); sinNombre := "SI";
            razonSocial := "CONTROL TRIBUTARIO"; tipoDocumento := 5;
            documentoSIN := "99002"; complementoSIN := ""; excepcionNIT := "false";
            correoElectronico := correoElectronico (form c);
            numeroTelefono := numeroTelefono (form c) |} c)
  else
    set_form
      {| medioPago := medioPago (form c); sinNombre := "NO";
         razonSocial := ""; tipoDocumento := tipoDocumento (form c);
         documentoSIN := ""; complementoSIN := "";
         excepcionNIT := excepcionNIT (form c);
         correoElectronico := correoElectronico (form c);
         numeroTelefono := numeroTelefono (form c) |} c.

Definition handleProcessPaymentClick (c : t) : t :=
  if processCardPayments then nextStep c
  else nextStep (setPaymentMethod "Q" c).

(** *** Validation *)

(** The pattern [/^[^\s@]+@[^\s@]+\.[^\s@]+$/]: a sequence of pieces,
    each one character or a run of one or more characters of a class,
    matched against the whole string with backtracking. The pattern
    reads the string by 16-bit units; a character outside the basic
    plane is two units, both of the class [[^\s@]] and neither a
    character of the pattern, so that matching by characters gives
    the same result. *)
Inductive piece : Type :=
| Plus (class : N -> bool)
| Char (c : N).

Fixpoint regex_match (pattern : list piece) (l : list N) : bool :=
  match l with
  | [] => match pattern with [] => true | _ => false end
  | a :: l' =>
      match pattern with
      | [] => false
      | Char c :: rest => (a =? c)%N && regex_match rest l'
      | Plus class :: rest =>
          class a && (regex_match (Plus class :: rest) l' || regex_match rest l')
      end
  end.

Definition regex_test (pattern : list piece) (s : string) : bool :=
  regex_match pattern (JS.code_points s).

Definition not_space_nor_at (a : N) : bool :=
  negb (JS.is_space a) && negb (a =? 64)%N.

(** 64 is the commercial at, 46 the full stop. *)
Definition emailRegex : list piece :=
  [Plus not_space_nor_at; Char 64%N; Plus not_space_nor_at; Char 46%N;
   Plus not_space_nor_at].

(** The result, and the component with the message it added. *)
Definition validateBillingShipping (c : t) : bool * t :=
  let email := correoElectronico (form c) in
  let companyName := razonSocial (form c) in
  let documentSIN := documentoSIN (form c) in
  if JS.falsy (JS.trim email) then
    (false, addError "El correo electronico es obligatorio" c)
  else if negb (regex_test emailRegex email) then
    (false, addError "El correo electronico no tiene un formato valido" c)
  else if hasCommissions c then
    if JS.falsy (JS.trim companyName) then
      (false, addError "La Razon Social es obligatoria" c)
    else if JS.falsy (JS.trim documentSIN) then
      (false, addError "El numero de documento es obligatorio" c)
    else (true, c)
  else (true, c).

Definition validateCurrentStep (c : t) : bool * t :=
  let c := clearErrors c in
  if currentStep c =? 1 then
    if hasItems c then (true, c) else (false, addError "El carrito esta vacio" c)
  else if currentStep c =? 2 then
    if JS.falsy (medioPago (form c))
    then (false, addError "Debe seleccionar un metodo de pago" c)
    else (true, c)
  else if currentStep c =? 3 then validateBillingShipping c
  else (true, c).

(** *** Backend calls *)

Record PagoRequest : Type := {
  pr_medioPago : string;
  pr_itemsCarrito : list ItemCarrito;
  pr_totalServicios : Q;
  pr_totalComisiones : Q;
  pr_totalGeneral : Q;
  pr_tipoDocumento : Z;
  pr_documentoSIN : string;
  pr_complementoSIN : string;
  pr_excepcionNIT : string;
  pr_razonSocial : string;
  pr_correoElectronico : string;
  pr_numeroTelefono : string;
  browserFingerprint : string }.

Record PagoResponse : Type := {
  pago_success : bool;
  pago_data : option QRData }.

Record NITData : Type := { estadoDocumento : string }.

Record NITResponse : Type := {
  nit_success : bool;
  nit_data : option NITData }.

Inductive Req : Type :=
| fingerprint_generate
| generateQRcode (payment : PagoRequest)
| verifyNIT (documentoSIN : string).

Definition Resp (r : Req) : Type :=
  match r with
  | fingerprint_generate => string
  | generateQRcode _ => option PagoResponse
  | verifyNIT _ => option NITResponse
  end.

Definition Task : Type := Async.Task Req Resp Sys.

Definition finalize (s : Sys) : Sys := on_ui (set_loading false) s.

(** [response?.success && response.data?.estadoDocumento === 'true'] *)
Definition nit_valid (response : option NITResponse) : bool :=
  match response with
  | Some {| nit_success := true; nit_data := Some d |} => String.eqb (estadoDocumento d) "true"
  | _ => false
  end.

Definition special_NITs : list string := ["99001"; "99002"; "99003"].

Definition includes (l : list string) (x : string) : bool :=
  existsb (String.eqb x) l.

Definition validateNIT (s : Sys) : Task :=
  let documentType := tipoDocumento (form (ui s)) in
  let documentSIN := documentoSIN (form (ui s)) in
  let exceptionNIT := excepcionNIT (form (ui s)) in
  if negb (documentType =? 5) then Done (on_ui nextStep s)
  else if includes special_NITs documentSIN then Done (on_ui nextStep s)
  else if String.eqb exceptionNIT "true" then Done (on_ui nextStep s)
  else
    Await (on_ui (set_loading true) s) (verifyNIT documentSIN)
      (fun out s =>
         match out with
         | Next response =>
             if nit_valid response then Done (on_ui nextStep (on_ui (set_loading false) s))
             else
               let s := on_ui (set_showExceptionNIT true) s in
               let s := on_ui (addError
                 "NIT invalido. Confirme si se realiza Excepcion de registro con ese NIT") s in
               let s := on_ui (set_loading false) s in
               if String.eqb (excepcionNIT (form (ui s))) "true"
               then Done (on_ui nextStep s)
               else Done s
         | Error e =>
             Done (on_ui (set_loading false) (handleApiError e "Error al validar NIT" s))
         end).

Definition handleNextStep (s : Sys) : Task :=
  let '(isValid, c) := validateCurrentStep (ui s) in
  let s := {| ui := c; world := world s; errorModal := errorModal s |} in
  if negb isValid then Done s
  else if (currentStep (ui s) =? 3) && hasCommissions (ui s)
          && (tipoDocumento (form (ui s)) =? 5)
  then validateNIT s
  else Done (on_ui nextStep s).

(** *** Payment *)

Definition payment_request (formValue : Form) (c : t) (fp : string) : PagoRequest :=
  {| pr_medioPago := medioPago formValue;
     pr_itemsCarrito := itemsCart c;
     pr_totalServicios := totalServices c;
     pr_totalComisiones := totalCommissions c;
     pr_totalGeneral := totalGeneral c;
     pr_tipoDocumento := tipoDocumento formValue;
     pr_documentoSIN := documentoSIN formValue;
     pr_complementoSIN := complementoSIN formValue;
     pr_excepcionNIT := if String.eqb (excepcionNIT formValue) "true" then "1" else "0";
     pr_razonSocial := razonSocial formValue;
     pr_correoElectronico := correoElectronico formValue;
     pr_numeroTelefono :=
       if JS.falsy (numeroTelefono formValue) then "0" else numeroTelefono formValue;
     browserFingerprint := fp |}.

(** The [tap] of the payment pipeline. *)
Definition payment_tap (response : option PagoResponse) (s : Sys) : Sys :=
  match response with
  | Some {| pago_success := true; pago_data := Some data |} =>
      let s := on_ui (set_qrData {| validity := validity data; qrImage := qrImage data |}) s in
      let s := set_world (world_of (CartService.clearCart (world s))) s in
      on_ui (set_currentStep 5) s
  | _ => on_ui (addError "Error al procesar el pago") s
  end.

Definition processPayment (s : Sys) : Task :=
  if loading (ui s) then Done s
  else
    let formValue := form (ui s) in
    if JS.falsy (JS.trim (correoElectronico formValue)) then
      Done (on_ui (addError "Debe ingresar un correo electronico") s)
    else if negb (String.eqb (medioPago formValue) "Q") then
      Done (on_ui (addError "Metodo de pago no implementado") s)
    else
      Await (on_ui (set_loading true) s) fingerprint_generate
        (fun out s =>
           match out with
           | Next fp =>
               Await s (generateQRcode (payment_request formValue (ui s) fp))
                 (fun out s =>
                    match out with
                    | Next response => Done (finalize (payment_tap response s))
                    | Error e =>
                        Done (finalize (handleApiError e
                                "Error al procesar el pago. Intente nuevamente." s))
                    end)
           | Error e =>
               Done (finalize (handleApiError e
                       "Error al procesar el pago. Intente nuevamente." s))
           end).

(** *** The cart of the wizard *)

Definition loadCart (s : Sys) : Sys :=
  let items := CartService.items (world s) in
  let s := on_ui (set_itemsCart items) s in
  match items with
  | first :: _ =>
      if JS.falsy (df_correoElectronico (datosFacturacion first)) then s
      else
        on_ui (fun c =>
          set_form
            {| medioPago := medioPago (form c); sinNombre := sinNombre (form c);
               razonSocial := razonSocial (form c); tipoDocumento := tipoDocumento (form c);
               documentoSIN := documentoSIN (form c);
               complementoSIN := complementoSIN (form c);
               excepcionNIT := excepcionNIT (form c);
               correoElectronico := df_correoElectronico (datosFacturacion first);
               numeroTelefono := numeroTelefono (form c) |} c) s
  | [] => s
  end.

(** [removeItem(index)]; when the store throws, the local copy of the
    items is not refreshed. *)
Definition removeItem (P : Platform) (index : Z) (s : Sys) : Sys :=
  if (index <? 0) || (Z.of_nat (List.length (itemsCart (ui s))) <=? index) then s
  else
    match CartService.removeItem P index (world s) with
    | Ok _ w => on_ui (set_itemsCart (CartService.items w)) (set_world w s)
    | Throw w => set_world w s
    end.

(** How the wizard answers its own requests: the fingerprint comes
    from the fingerprint service, run on the world of the moment; the
    rest comes from the backend. *)
Definition handler (P : Platform) (backend : forall r : Req, Outcome (Resp r))
    (r : Req) (s : Sys) : Outcome (Resp r) * Sys :=
  match r return Outcome (Resp r) * Sys with
  | fingerprint_generate =>
      match FingerprintService.generate P (world s) with
      | Ok fp w => (Next fp, set_world w s)
      | Throw w => (Error Other, set_world w s)
      end
  | generateQRcode payment => (backend (generateQRcode payment), s)
  | verifyNIT documentoSIN => (backend (verifyNIT documentoSIN), s)
  end.

End CheckoutWizard.

(** ** Auxiliary definitions for the statements *)

Section SearchDefs.
  Import Models Async CobranzaWizard.

(** The request [consultContracts] issues from a state. *)
Definition contracts_request (w : CobranzaWizard.t) : Req :=
  consultCollectionContracts
    {| codigoEncriptado := ""; ccr_medioPago := "Q";
       ccr_codigoDeuda := default "" (searchForm_codigoDeuda w) |}
    (aliasServicio w).

(** A successful response carrying the contracts [cs]. *)
Definition contracts_found (ds : option DatosServicio) (cs : list Contrato)
  : option ContratosResponse :=
  Some {| cr_success := true;
          cr_data := Some {| cd_datosServicio := ds; contratosAsociado := Some cs |} |}.

(** The wizard is on step 1, idle, with a search code that is not
    blank. *)
Definition searching (w : CobranzaWizard.t) : Prop :=
  currentStep w = 1 /\ loading w = false
  /\ JS.falsy (JS.trim (default "" (searchForm_codigoDeuda w))) = false.
End SearchDefs.

Section CartDefs.
  Import Models.

(** Every item of [l] is in the currency [cur]. *)
Definition currency_is (cur : string) (l : list ItemCarrito) : Prop :=
  Forall (fun item => abreviacionMoneda item = cur) l.
End CartDefs.

(** A browser for the examples: the clock starts at 1700000000000 and
    advances by one millisecond per reading, the storage accepts every
    write, and no stored text parses. *)
Definition demo_platform : Effects.Platform :=
  {| Effects.Date_now_at := fun n => 1700000000000 + Z.of_nat n;
     Effects.Math_random_at := fun n => "k3j9x0q" +:+ pretty n;
     Effects.setItem_accepts := fun _ _ _ => true;
     Effects.JSON_parse_Carrito := fun _ => None;
     Effects.JSON_stringify_Carrito := fun c => "{cart " +:+ Models.sessionId c +:+ "}";
     Effects.JSON_parse_FingerprintCache := fun _ => None;
     Effects.JSON_stringify_FingerprintCache := fun c => Effects.fc_fingerprint c;
     Effects.collected_components := Some "{components}";
     Effects.sha256_hex := fun _ => Some "9f86d081884c7d659a2feaa0c55ad015a3bf4f1b2b0b822cd15d6c15b0f00a08" |}.

(** The same browser with a storage that rejects every write. *)
Definition full_platform : Effects.Platform :=
  {| Effects.Date_now_at := Effects.Date_now_at demo_platform;
     Effects.Math_random_at := Effects.Math_random_at demo_platform;
     Effects.setItem_accepts := fun _ _ _ => false;
     Effects.JSON_parse_Carrito := Effects.JSON_parse_Carrito demo_platform;
     Effects.JSON_stringify_Carrito := Effects.JSON_stringify_Carrito demo_platform;
     Effects.JSON_parse_FingerprintCache := Effects.JSON_parse_FingerprintCache demo_platform;
     Effects.JSON_stringify_FingerprintCache :=
       Effects.JSON_stringify_FingerprintCache demo_platform;
     Effects.collected_components := Effects.collected_components demo_platform;
     Effects.sha256_hex := Effects.sha256_hex demo_platform |}.

Definition empty_world : Effects.World :=
  {| Effects.sessionStorage := ∅; Effects.cart := None; Effects.fingerprint := "";
     Effects.clock_reads := 0; Effects.random_reads := 0 |}.

Definition demo_item (alias contrato moneda : string) : Models.ItemCarrito :=
  {| Models.fechaAdicion := 1700000000000;
     Models.aliasServicio := alias;
     Models.nombreServicio := "COOPAPPI";
     Models.abreviacionMoneda := moneda;
     Models.descripcionDocOficial := "Factura";
     Models.codigoDeuda := "12345";
     Models.codigoContrato := contrato;
     Models.nombreAsociado := "Ana";
     Models.datosFacturacion :=
       {| Models.df_tipoDocumento := 1; Models.df_complementoDocumento := "";
          Models.df_numeroDocumento := "777"; Models.df_nombreRazonsocial := "Ana";
          Models.df_correoElectronico := "ana@example.com"; Models.df_numeroTelefono := "" |};
     Models.totalServicio := 150 # 1;
     Models.totalComision := 5 # 2;
     Models.totalGeneral := 305 # 2;
     Models.deudasSeleccionadas := [] |}.

(** A browser whose storage holds a cart written by an older version:
    the text ["legacy"] parses to a cart of the session ["s1"] with one
    item that has no currency and one in dollars. *)
Definition legacy_item (moneda : option string) : Models.ItemCarritoOf (option string) :=
  {| Models.fechaAdicion := 1690000000000;
     Models.aliasServicio := "coopappi";
     Models.nombreServicio := "COOPAPPI";
     Models.abreviacionMoneda := moneda;
     Models.descripcionDocOficial := "Factura";
     Models.codigoDeuda := "12345";
     Models.codigoContrato := "CT-1";
     Models.nombreAsociado := "Ana";
     Models.datosFacturacion :=
       {| Models.df_tipoDocumento := 1; Models.df_complementoDocumento := "";
          Models.df_numeroDocumento := "777"; Models.df_nombreRazonsocial := "Ana";
          Models.df_correoElectronico := "ana@example.com"; Models.df_numeroTelefono := "" |};
     Models.totalServicio := 150 # 1;
     Models.totalComision := 0 # 1;
     Models.totalGeneral := 150 # 1;
     Models.deudasSeleccionadas := [] |}.

Definition legacy_platform : Effects.Platform :=
  {| Effects.Date_now_at := Effects.Date_now_at demo_platform;
     Effects.Math_random_at := Effects.Math_random_at demo_platform;
     Effects.setItem_accepts := fun _ _ _ => true;
     Effects.JSON_parse_Carrito := fun text =>
       if String.eqb text "legacy"
       then Some {| Models.sessionId := "s1";
                    Models.items := [legacy_item None; legacy_item (Some "USD")];
                    Models.createdAt := 1690000000000;
                    Models.updatedAt := 1690000000000 |}
       else None;
     Effects.JSON_stringify_Carrito := Effects.JSON_stringify_Carrito demo_platform;
     Effects.JSON_parse_FingerprintCache := Effects.JSON_parse_FingerprintCache demo_platform;
     Effects.JSON_stringify_FingerprintCache :=
       Effects.JSON_stringify_FingerprintCache demo_platform;
     Effects.collected_components := Effects.collected_components demo_platform;
     Effects.sha256_hex := Effects.sha256_hex demo_platform |}.

Definition stored_world (blob session : string) : Effects.World :=
  {| Effects.sessionStorage :=
       <[CartService.STORAGE_KEY := blob]> (<[CartService.SESSION_KEY := session]> ∅);
     Effects.cart := None; Effects.fingerprint := "";
     Effects.clock_reads := 0; Effects.random_reads := 0 |}.

(** The persisted blob is thrown away: nothing in the cart, nothing
    under the cart's key. *)
Definition discarded (w : Effects.World) : Prop :=
  CartService.items w = []
  /\ Effects.sessionStorage w !! CartService.STORAGE_KEY = None.

Definition duplicate_dialog : option ConfirmationModal.ConfirmationModalInput :=
  Some {| ConfirmationModal.in_title := Some "Pago duplicado detectado";
          ConfirmationModal.in_message := Some "Ya existe un pago pendiente";
          ConfirmationModal.in_details := Some [("Contrato", "CT-1")];
          ConfirmationModal.in_confirmText := Some "Continuar y reemplazar";
          ConfirmationModal.in_cancelText := Some "Cancelar";
          ConfirmationModal.in_headerClass := None;
          ConfirmationModal.in_iconClass := None;
          ConfirmationModal.in_confirmButtonClass := None;
          ConfirmationModal.in_cancelButtonClass := None;
          ConfirmationModal.in_borderClass := None |}.

(** A promise that no later event can settle: it was given out, it is
    pending, and its resolver is not the one the service holds. *)
Definition orphaned (p : ConfirmationModal.Promise) (m : ConfirmationModal.t) : Prop :=
  (p < ConfirmationModal.next_promise m)%nat
  /\ ConfirmationModal.resolveCallback m <> Some p
  /\ ConfirmationModal.outcome p m = None.

(** What the fingerprint generator may change of a world: its own
    signal, its own key of the storage, and the clock. *)
Definition untouched_by_fingerprint (w w' : Effects.World) : Prop :=
  Effects.cart w' = Effects.cart w
  /\ forall key, key <> FingerprintService.CACHE_KEY ->
       Effects.sessionStorage w' !! key = Effects.sessionStorage w !! key.

Section CheckoutDefs.
  Import Async CheckoutWizard.

(** The QR data of a payment response the wizard accepts:
    [response?.success && response.data]. *)
Definition payment_accepted (out : Outcome (option PagoResponse)) : option QRData :=
  match out with
  | Next (Some {| pago_success := true; pago_data := Some data |}) => Some data
  | _ => None
  end.

(** [processPayment] goes past its guards: the wizard is idle, the
    e-mail is not blank and the payment method is QR. *)
Definition submittable (c : CheckoutWizard.t) : bool :=
  negb (loading c)
  && negb (JS.falsy (JS.trim (correoElectronico (form c))))
  && String.eqb (medioPago (form c)) "Q".

(** The document numbers that stand for no taxpayer. *)
Definition reserved_NIT (doc : string) : bool :=
  String.eqb doc "99001" || String.eqb doc "99002" || String.eqb doc "99003".

(** The NIT check is skipped: a reserved number, or the exception
    already accepted. *)
Definition nit_bypass (c : CheckoutWizard.t) : bool :=
  reserved_NIT (documentoSIN (form c))
  || String.eqb (excepcionNIT (form c)) "true".

(** The billing step, with commissions in the cart and a NIT as the
    tax document. *)
Definition billing_with_NIT (c : CheckoutWizard.t) : Prop :=
  currentStep c = 3 /\ hasCommissions c = true
  /\ tipoDocumento (form c) = 5.

(** An error is on display: a message of the step or the error modal. *)
Definition error_surfaced (before after : Sys) : Prop :=
  (exists msg, errors (ui after) = (errors (ui before) ++ [msg])%list)
  \/ ErrorModal.isVisible (errorModal after) = true.

Definition offline_backend (r : Req) : Outcome (Resp r) := Error Other.

Definition paying_backend (r : Req) : Outcome (Resp r) :=
  match r return Outcome (Resp r) with
  | fingerprint_generate => Next ""
  | generateQRcode _ =>
      Next (Some {| pago_success := true;
                    pago_data := Some {| validity := "15 minutos";
                                         qrImage := "iVBORw0KGgo=" |} |})
  | verifyNIT _ =>
      Next (Some {| nit_success := true;
                    nit_data := Some {| estadoDocumento := "false" |} |})
  end.

Definition checkout_at (step : Z) (nit email : string) : Sys :=
  {| ui := {| currentStep := step; loading := false; errors := [];
              showExceptionNIT := false;
              itemsCart := [demo_item "coopappi" "CT-1" "Bs."];
              form := {| medioPago := "Q"; sinNombre := "NO";
                         razonSocial := "ACME SRL"; tipoDocumento := 5;
                         documentoSIN := nit; complementoSIN := "";
                         excepcionNIT := "false"; correoElectronico := email;
                         numeroTelefono := "" |};
              qrData := {| validity := ""; qrImage := "" |} |};
     world := Effects.world_of
                (CartService.addItem demo_platform (demo_item "coopappi" "CT-1" "Bs.")
                   empty_world);
     errorModal := ErrorModal.initial |}.
End CheckoutDefs.

(** ** Cart store: the computed totals and sequences of calls *)

Module CartComputed.
  Import Models Effects.

(** The commissions of the store, added with [Decimal]. *)
Definition totalCommissions (w : World) : Q :=
  Decimal.sum (List.map totalComision (CartService.items w)).

Definition hasCommissions (w : World) : bool := Decimal.positive (totalCommissions w).

(** A cart as [JSON.stringify] writes it: every item has its
    currency. *)
Definition stored_item (item : ItemCarrito) : ItemCarritoOf (option string) :=
  {| fechaAdicion := fechaAdicion item;
     aliasServicio := aliasServicio item;
     nombreServicio := nombreServicio item;
     abreviacionMoneda := Some (abreviacionMoneda item);
     descripcionDocOficial := descripcionDocOficial item;
     codigoDeuda := codigoDeuda item;
     codigoContrato := codigoContrato item;
     nombreAsociado := nombreAsociado item;
     datosFacturacion := datosFacturacion item;
     totalServicio := totalServicio item;
     totalComision := totalComision item;
     Models.totalGeneral := Models.totalGeneral item;
     deudasSeleccionadas := deudasSeleccionadas item |}.

Definition stored_cart (c : Carrito) : CarritoOf (option string) :=
  {| sessionId := sessionId c;
     Models.items := List.map stored_item (Models.items c);
     createdAt := createdAt c;
     updatedAt := updatedAt c |}.

(** An item as a reload gives it back: one saved with an empty
    currency has the default. *)
Definition defaulted (item : ItemCarrito) : ItemCarrito :=
  {| fechaAdicion := fechaAdicion item;
     aliasServicio := aliasServicio item;
     nombreServicio := nombreServicio item;
     abreviacionMoneda :=
       if String.eqb (abreviacionMoneda item) "" then "Bs." else abreviacionMoneda item;
     descripcionDocOficial := descripcionDocOficial item;
     codigoDeuda := codigoDeuda item;
     codigoContrato := codigoContrato item;
     nombreAsociado := nombreAsociado item;
     datosFacturacion := datosFacturacion item;
     totalServicio := totalServicio item;
     totalComision := totalComision item;
     Models.totalGeneral := Models.totalGeneral item;
     deudasSeleccionadas := deudasSeleccionadas item |}.

Definition reloaded (c : Carrito) : Carrito :=
  {| sessionId := sessionId c;
     Models.items := List.map defaulted (Models.items c);
     createdAt := createdAt c;
     updatedAt := updatedAt c |}.

(** A call of one of the public methods of the store. *)
Inductive Call : Type :=
| call_loadCart
| call_addItem (item : ItemCarrito)
| call_removeItem (index : Z)
| call_replaceItem (index : Z) (newItem : ItemCarrito)
| call_clearCart.

(** The world a call leaves, whether it returns or throws. *)
Definition after (P : Platform) (w : World) (c : Call) : World :=
  match c with
  | call_loadCart => world_of (CartService.loadCart P w)
  | call_addItem item => world_of (CartService.addItem P item w)
  | call_removeItem index => world_of (CartService.removeItem P index w)
  | call_replaceItem index newItem => world_of (CartService.replaceItem P index newItem w)
  | call_clearCart => world_of (CartService.clearCart w)
  end.

Definition after_all (P : Platform) (w : World) (cs : list Call) : World :=
  fold_left (after P) cs w.

(** The stored session id is [sid], it is not empty, and a cart in
    memory carries it. *)
Definition session_is (sid : string) (w : World) : Prop :=
  sessionStorage w !! CartService.SESSION_KEY = Some sid
  /\ JS.falsy sid = false
  /\ forall c, cart w = Some c -> sessionId c = sid.

(** A page reload: the services start again, the session storage
    stays. *)
Definition reload (w : World) : World :=
  {| sessionStorage := sessionStorage w; cart := None; fingerprint := "";
     clock_reads := clock_reads w; random_reads := random_reads w |}.

(** What makes two items duplicates of each other: the service and
    the contract. *)
Definition identity (item : ItemCarrito) : string * string :=
  (aliasServicio item, codigoContrato item).

End CartComputed.

(** A browser whose [JSON.parse] gives back the cart that the first
    [addItem] of the examples writes, and whose [JSON.stringify] writes
    every cart as the same text. *)
Definition first_cart : Models.Carrito :=
  {| Models.sessionId := "1700000000000-k3j9x0q0";
     Models.items := [demo_item "coopappi" "CT-1" "Bs."];
     Models.createdAt := 1700000000001;
     Models.updatedAt := 1700000000002 |}.

Definition codec_platform : Effects.Platform :=
  {| Effects.Date_now_at := Effects.Date_now_at demo_platform;
     Effects.Math_random_at := Effects.Math_random_at demo_platform;
     Effects.setItem_accepts := fun _ _ _ => true;
     Effects.JSON_parse_Carrito := fun text =>
       if String.eqb text "{cart}" then Some (CartComputed.stored_cart first_cart) else None;
     Effects.JSON_stringify_Carrito := fun _ => "{cart}";
     Effects.JSON_parse_FingerprintCache := Effects.JSON_parse_FingerprintCache demo_platform;
     Effects.JSON_stringify_FingerprintCache :=
       Effects.JSON_stringify_FingerprintCache demo_platform;
     Effects.collected_components := Effects.collected_components demo_platform;
     Effects.sha256_hex := Effects.sha256_hex demo_platform |}.

(** The world after the first [addItem] of the examples. *)
Definition one_item_world : Effects.World :=
  Effects.world_of
    (CartService.addItem demo_platform (demo_item "coopappi" "CT-1" "Bs.") empty_world).

(** ** Debt-collection wizard: the totals and the shape of a selection *)

Module CobranzaTotals.
  Import Models CobranzaWizard.

(** [debts.filter((_, i) => flags[i])], [i] counting from [from]. *)
Fixpoint filter_selected {A} (from : nat) (flags : JS.array bool) (debts : list A) : list A :=
  match debts with
  | [] => []
  | d :: debts' =>
      if JS.truthy (mjoin (flags !! from))
      then d :: filter_selected (S from) flags debts'
      else filter_selected (S from) flags debts'
  end.

Definition selected (w : CobranzaWizard.t) : list PagoPendiente :=
  filter_selected 0 (selectedDebts w) (outstandingDebts w).

Definition totalService (w : CobranzaWizard.t) : Q :=
  Decimal.toDecimalPlaces2 (Decimal.sum (List.map periodoServicio (selected w))).

Definition totalCommission (w : CobranzaWizard.t) : Q :=
  Decimal.toDecimalPlaces2 (Decimal.sum (List.map periodoComision (selected w))).

Definition totalGeneral (w : CobranzaWizard.t) : Q :=
  Decimal.toDecimalPlaces2 (Qplus (totalService w) (totalCommission w)).

(** The flags of [n] periods of which the [k] oldest are selected. *)
Definition oldest (k n : nat) : list (option bool) :=
  (replicate k (Some true) ++ replicate (n - k) (Some false))%list.

(** The debts a response carries when the wizard accepts it:
    [response?.success && response.data?.pagosPendientes]. An empty
    list is accepted. *)
Definition debts_of (response : option DeudasResponse) : option (list PagoPendiente) :=
  match response with
  | Some r => if dr_success r then match dr_data r with
                                   | Some d => pagosPendientes d
                                   | None => None
                                   end
              else None
  | None => None
  end.

(** A click on the check box of a row. *)
Record Toggle : Type := { row : Z; checked : bool }.

Definition toggles (w : CobranzaWizard.t) (l : list Toggle) : CobranzaWizard.t :=
  fold_left (fun w t => toggleDeuda (row t) (checked t) w) l w.

End CobranzaTotals.

(** A string of white space only, the empty string included. *)
Definition blank (s : string) : bool := forallb JS.is_space (JS.code_points s).

(** What the billing step asks of the form when the cart has
    commissions: an e-mail address that is not blank and has the shape
    of one, a company name and a document number. *)
Definition billing_valid (c : CheckoutWizard.t) : bool :=
  negb (blank (CheckoutWizard.correoElectronico (CheckoutWizard.form c)))
  && CheckoutWizard.regex_test CheckoutWizard.emailRegex
       (CheckoutWizard.correoElectronico (CheckoutWizard.form c))
  && negb (blank (CheckoutWizard.razonSocial (CheckoutWizard.form c)))
  && negb (blank (CheckoutWizard.documentoSIN (CheckoutWizard.form c))).

Definition demo_debt (doc : string) (mes : Z) (servicio comision : Q) : Models.PagoPendiente :=
  {| Models.documentoPago := doc; Models.periodoGestion := 2025; Models.periodoMes := mes;
     Models.periodoCobro := "2025"; Models.periodoServicio := servicio;
     Models.periodoComision := comision;
     Models.periodoTotal := Qplus servicio comision; Models.periodoCode := doc |}.

Definition demo_contract : Models.Contrato :=
  {| Models.c_codigoContrato := "CT-1"; Models.checksumContrato := "x";
     Models.datosAsociado :=
       {| Models.da_codigoDeuda := "12345"; Models.da_codigoAsociado := "A1";
          Models.da_nombreAsociado := "Ana"; Models.da_tipoDocumento := 1;
          Models.da_numeroDocumento := "777"; Models.da_complementoDocumento := "";
          Models.da_nombreRazonsocial := "Ana"; Models.da_correoElectronico := "ana@example.com";
          Models.da_numeroTelefono := "" |} |}.

(** The wizard on step 3 with three periods, all selected. *)
Definition three_debts : CobranzaWizard.t :=
  {| CobranzaWizard.aliasServicio := "coopappi"; CobranzaWizard.currentStep := 3;
     CobranzaWizard.loading := false; CobranzaWizard.errors := [];
     CobranzaWizard.searchForm_codigoDeuda := Some "12345";
     CobranzaWizard.contracts := [demo_contract];
     CobranzaWizard.selectedContract := Some demo_contract;
     CobranzaWizard.outstandingDebts :=
       [demo_debt "D1" 1 (100 # 1) (1 # 2); demo_debt "D2" 2 (100 # 1) (1 # 2);
        demo_debt "D3" 3 (50 # 1) (1 # 4)];
     CobranzaWizard.selectedDebts := [Some true; Some true; Some true];
     CobranzaWizard.associateData := Some (Models.datosAsociado demo_contract) |}.

(** ** Debt-collection wizard: the service it serves and [addToCart] *)

Module CobranzaPage.
  Import Models Async Effects CobranzaWizard.

Record ServicioConfig : Type := {
  sc_aliasServicio : string;
  sc_nombreServicio : string;
  sc_abreviacionMoneda : string;
  sc_descripcionDocOficial : string;
  formaOperaciones : string }.

Record ServicioConfigResponse : Type := {
  scr_success : bool;
  scr_data : option ServicioConfig }.

Record EstadoServicioData : Type := {
  es_aliasServicio : string;
  es_nombreServicio : string;
  estadoServicio : bool }.

Record EstadoServicioResponse : Type := {
  esr_success : bool;
  esr_data : option EstadoServicioData }.

(** The component with the services it uses: the cart store in the
    [World], the error modal, and the router, of which the commands
    it was given are kept, the latest last. *)
Record Page : Type := {
  wizard : CobranzaWizard.t;
  config : option ServicioConfig;
  world : World;
  errorModal : ErrorModal.t;
  navigations : list (list string) }.

Definition on_wizard (f : CobranzaWizard.t -> CobranzaWizard.t) (s : Page) : Page :=
  {| wizard := f (wizard s); config := config s; world := world s;
     errorModal := errorModal s; navigations := navigations s |}.

Definition set_config (c : option ServicioConfig) (s : Page) : Page :=
  {| wizard := wizard s; config := c; world := world s;
     errorModal := errorModal s; navigations := navigations s |}.

Definition set_world (w : World) (s : Page) : Page :=
  {| wizard := wizard s; config := config s; world := w;
     errorModal := errorModal s; navigations := navigations s |}.

Definition on_errorModal (f : ErrorModal.t -> ErrorModal.t) (s : Page) : Page :=
  {| wizard := wizard s; config := config s; world := world s;
     errorModal := f (errorModal s); navigations := navigations s |}.

(** [this.router.navigate(commands)] *)
Definition navigate (commands : list string) (s : Page) : Page :=
  {| wizard := wizard s; config := config s; world := world s;
     errorModal := errorModal s; navigations := (navigations s ++ [commands])%list |}.

Definition handleApiError (e : Thrown) (fallbackMessage : string) (s : Page) : Page :=
  let '(handled, m) := ErrorModal.handleHttpError e (errorModal s) in
  if handled then on_errorModal (fun _ => m) s
  else on_wizard (addError fallbackMessage) (on_errorModal (fun _ => m) s).

Definition quote : string := String (Ascii.ascii_of_nat 34) EmptyString.

Definition showInactiveServiceModal (serviceName : string) (s : Page) : Page :=
  on_errorModal
    (ErrorModal.show ErrorModal.error
       {| ErrorModal.in_code := Some (Some "ERR_SERVICE_INACTIVE");
          ErrorModal.in_message :=
            Some (Some ("El servicio " +:+ quote +:+ serviceName +:+ quote
                        +:+ " no se encuentra habilitado en este momento. Por favor inténtelo más tarde."));
          ErrorModal.in_details :=
            Some (Some [("Servicio", serviceName); ("Estado", "Inactivo");
                        ("Acción sugerida",
                         "Aguardar e intentar acceder al servicio más tarde o contactarse con personal de soporte.")]);
          ErrorModal.in_buttonText := Some "Entendido";
          ErrorModal.in_redirectToMain := Some true |}) s.

(** *** The requests of the page *)

Inductive Req : Type :=
| checkServiceStatus (alias : string)
| getServiceConfig (alias : string)
| confirmModal_confirm (customConfig : ConfirmationModal.ConfirmationModalInput).

Definition Resp (r : Req) : Type :=
  match r with
  | checkServiceStatus _ => option EstadoServicioResponse
  | getServiceConfig _ => option ServicioConfigResponse
  | confirmModal_confirm _ => bool
  end.

Definition Task : Type := Async.Task Req Resp Page.

(** *** The service of the page *)

(** The [next] and [error] handlers of [loadServicioConfig]. *)
Definition loadServicioConfig_next (response : option ServicioConfigResponse) (s : Page) : Page :=
  match response with
  | Some {| scr_success := true; scr_data := Some cfg |} =>
      if negb (String.eqb (formaOperaciones cfg) "C")
      then navigate ["/servicio"; CobranzaWizard.aliasServicio (wizard s); "proximamente"] s
      else on_wizard (set_loading false) (set_config (Some cfg) s)
  | _ => on_wizard (set_loading false) (on_wizard (addError "Servicio no encontrado") s)
  end.

Definition loadServicioConfig_error (e : Thrown) (s : Page) : Page :=
  on_wizard (set_loading false)
    (handleApiError e "Error al cargar configuración del servicio" s).

(** [checkServiceStatusAndLoadConfig]. When the service is active
    the [tap] calls [loadServicioConfig], which sets [loading] and
    sends its request; the pipe then completes and its [finalize]
    clears [loading] before the configuration arrives. *)
Definition checkServiceStatusAndLoadConfig (s : Page) : Task :=
  let s := on_wizard (set_loading true) s in
  Await s (checkServiceStatus (CobranzaWizard.aliasServicio (wizard s)))
    (fun out s =>
       match out with
       | Error e =>
           Done (on_wizard (set_loading false)
                   (handleApiError e "Error al verificar estado del servicio" s))
       | Next response =>
           match response with
           | Some {| esr_success := true; esr_data := Some data |} =>
               if negb (estadoServicio data) then
                 Done (on_wizard (set_loading false)
                         (showInactiveServiceModal (es_nombreServicio data) s))
               else
                 let s := on_wizard (set_loading true) s in
                 let s := on_wizard (set_loading false) s in
                 Await s (getServiceConfig (CobranzaWizard.aliasServicio (wizard s)))
                   (fun out s =>
                      match out with
                      | Next r => Done (loadServicioConfig_next r s)
                      | Error e => Done (loadServicioConfig_error e s)
                      end)
           | _ =>
               Done (on_wizard (set_loading false)
                       (showInactiveServiceModal
                          (CobranzaWizard.aliasServicio (wizard s)) s))
           end
       end).

(** [ngOnInit], once the route has given its parameter. *)
Definition ngOnInit (alias : option string) (s : Page) : Task :=
  match alias with
  | Some a =>
      if JS.falsy a then Done (navigate ["/"] s)
      else
        checkServiceStatusAndLoadConfig
          (on_wizard (fun w =>
             {| CobranzaWizard.aliasServicio := a;
                currentStep := currentStep w; loading := loading w; errors := errors w;
                searchForm_codigoDeuda := searchForm_codigoDeuda w;
                contracts := contracts w; selectedContract := selectedContract w;
                outstandingDebts := outstandingDebts w; selectedDebts := selectedDebts w;
                associateData := associateData w |}) s)
  | None => Done (navigate ["/"] s)
  end.

(** *** [addToCart] *)

Section AddToCart.
  Variable P : Platform.
  (** [Number.prototype.toFixed(2)] *)
  Variable toFixed2 : Q -> string.

Definition currency_warning (cfg : ServicioConfig) (selectedContract : Contrato)
    (existingCurrency : option string) : ErrorModal.ErrorModalInput :=
  {| ErrorModal.in_code := Some (Some "WARN_CURRENCY");
     ErrorModal.in_message :=
       Some (Some ("El carrito contiene pagos en " +:+ default "null" existingCurrency
                   +:+ ". No se pueden mezclar diferentes monedas en una misma transacción."));
     ErrorModal.in_details :=
       Some (Some [("Moneda del carrito", default "" existingCurrency);
                   ("Moneda del nuevo pago", sc_abreviacionMoneda cfg);
                   ("Servicio", sc_nombreServicio cfg);
                   ("Contrato", c_codigoContrato selectedContract)]);
     ErrorModal.in_buttonText := Some "Entendido";
     ErrorModal.in_redirectToMain := Some false |}.

Definition duplicate_confirmation (cfg : ServicioConfig) (selectedContract : Contrato)
    (associateData : DatosAsociado) (existingItem : ItemCarrito) (w : CobranzaWizard.t)
    : ConfirmationModal.ConfirmationModalInput :=
  {| ConfirmationModal.in_title := Some "Pago duplicado detectado";
     ConfirmationModal.in_message :=
       Some ("Ya existe un pago pendiente para el contrato " +:+ quote
             +:+ c_codigoContrato selectedContract +:+ quote +:+ " del servicio " +:+ quote
             +:+ sc_nombreServicio cfg +:+ quote
             +:+ ". Si continúa, el pago anterior será reemplazado por esta nueva selección.");
     ConfirmationModal.in_details :=
       Some [("Contrato", c_codigoContrato selectedContract);
             ("Socio", da_nombreAsociado associateData);
             ("Monto anterior",
              sc_abreviacionMoneda cfg +:+ " " +:+ toFixed2 (Models.totalGeneral existingItem));
             ("Monto nuevo",
              sc_abreviacionMoneda cfg +:+ " " +:+ toFixed2 (CobranzaTotals.totalGeneral w))];
     ConfirmationModal.in_confirmText := Some "Continuar y reemplazar";
     ConfirmationModal.in_cancelText := Some "Cancelar";
     ConfirmationModal.in_headerClass := None;
     ConfirmationModal.in_iconClass := None;
     ConfirmationModal.in_confirmButtonClass := None;
     ConfirmationModal.in_cancelButtonClass := None;
     ConfirmationModal.in_borderClass := None |}.

Definition debtsForCart (w : CobranzaWizard.t) : list DeudaSeleccionada :=
  List.map
    (fun p =>
       {| documentoPago := documentoPago p; periodoGestion := periodoGestion p;
          periodoMes := periodoMes p; periodoCobro := periodoCobro p;
          periodoServicio := periodoServicio p; periodoComision := periodoComision p;
          periodoTotal := periodoTotal p; periodoCode := periodoCode p |})
    (CobranzaTotals.selected w).

Definition billingData (associateData : DatosAsociado) : DatosFacturacion :=
  {| df_tipoDocumento := da_tipoDocumento associateData;
     df_complementoDocumento := da_complementoDocumento associateData;
     df_numeroDocumento := da_numeroDocumento associateData;
     df_nombreRazonsocial := da_nombreRazonsocial associateData;
     df_correoElectronico := da_correoElectronico associateData;
     df_numeroTelefono := da_numeroTelefono associateData |}.

Definition itemCart (cfg : ServicioConfig) (selectedContract : Contrato)
    (associateData : DatosAsociado) (w : CobranzaWizard.t) (now : Z) : ItemCarrito :=
  {| fechaAdicion := now;
     Models.aliasServicio := sc_aliasServicio cfg;
     nombreServicio := sc_nombreServicio cfg;
     abreviacionMoneda := sc_abreviacionMoneda cfg;
     descripcionDocOficial := sc_descripcionDocOficial cfg;
     codigoDeuda := default "" (searchForm_codigoDeuda w);
     codigoContrato := c_codigoContrato selectedContract;
     nombreAsociado := da_nombreAsociado associateData;
     datosFacturacion := billingData associateData;
     totalServicio := CobranzaTotals.totalService w;
     totalComision := CobranzaTotals.totalCommission w;
     Models.totalGeneral := CobranzaTotals.totalGeneral w;
     deudasSeleccionadas := debtsForCart w |}.

(** The part of [addToCart] after the duplicate check: the item is
    built, added or put in the place of its duplicate, and the
    page moves to the cart or shows the failure. *)
Definition store (cfg : ServicioConfig) (selectedContract : Contrato)
    (associateData : DatosAsociado) (duplicateIndex : Z) (s : Page) : Page :=
  let stored :=
    (now ← Date_now P;
     let item := itemCart cfg selectedContract associateData (wizard s) now in
     if negb (duplicateIndex =? -1)
     then CartService.replaceItem P duplicateIndex item
     else CartService.addItem P item) (world s) in
  match stored with
  | Ok true w => navigate ["/carrito"] (set_world w s)
  | Ok false w => on_wizard (addError "Error al agregar al carrito") (set_world w s)
  | Throw w => set_world w s
  end.

Definition addToCart (s : Page) : Task :=
  if (quantitySelectedDebts (wizard s) =? 0)%nat then
    Done (on_wizard (addError "Seleccione al menos una deuda") s)
  else
    match selectedContract (wizard s), associateData (wizard s), config s with
    | Some selectedContract, Some associateData, Some cfg =>
        match CartService.canAddItemWithCurrency (sc_abreviacionMoneda cfg) (world s) with
        | Throw w => Done (set_world w s)
        | Ok (canAdd, existingCurrency) w =>
            let s := set_world w s in
            if negb canAdd then
              Done (on_errorModal
                      (ErrorModal.show ErrorModal.warning
                         (currency_warning cfg selectedContract existingCurrency)) s)
            else
              match CartService.findDuplicateIndex (sc_aliasServicio cfg)
                      (c_codigoContrato selectedContract) (world s) with
              | Throw w => Done (set_world w s)
              | Ok duplicateIndex w =>
                  let s := set_world w s in
                  if negb (duplicateIndex =? -1) then
                    match CartService.items (world s) !! Z.to_nat duplicateIndex with
                    | None => Done s
                    | Some existingItem =>
                        Await s
                          (confirmModal_confirm
                             (duplicate_confirmation cfg selectedContract associateData
                                existingItem (wizard s)))
                          (fun out s =>
                             match out with
                             | Next confirmed =>
                                 if negb confirmed then Done s
                                 else Done (store cfg selectedContract associateData
                                              duplicateIndex s)
                             | Error _ => Done s
                             end)
                    end
                  else Done (store cfg selectedContract associateData duplicateIndex s)
            end
        end
    | _, _, _ => Done (on_wizard (addError "Datos incompletos") s)
    end.
End AddToCart.

(** What the two answers say: the service is active, and the
    configuration it has. *)
Definition service_active (out : Outcome (option EstadoServicioResponse)) : bool :=
  match out with
  | Next (Some {| esr_success := true; esr_data := Some data |}) => estadoServicio data
  | _ => false
  end.

Definition config_of (out : Outcome (option ServicioConfigResponse))
    : option ServicioConfig :=
  match out with
  | Next (Some {| scr_success := true; scr_data := Some cfg |}) => Some cfg
  | _ => None
  end.

(** The date [store] puts on the item, and the world it gives to the
    cart after it has read the clock for that date. *)
Definition stamp (P : Platform) (s : Page) : Z := Date_now_at P (clock_reads (world s)).

Definition stamped (s : Page) : World :=
  set_clock_reads (S (clock_reads (world s))) (world s).

(** The position of the item of the cart that the selection would
    duplicate, as [addToCart] asks the store for it. *)
Definition duplicateIndex (cfg : ServicioConfig) (selectedContract : Contrato)
    (w : World) : Z :=
  CartService.findIndex
    (fun item => String.eqb (Models.aliasServicio item) (sc_aliasServicio cfg)
                 && String.eqb (codigoContrato item) (c_codigoContrato selectedContract))
    0 (CartService.items w).

(** The cart takes the currency of the service: it is empty, or its
    first item has that currency. *)
Definition currency_accepted (cfg : ServicioConfig) (w : World) : Prop :=
  match CartService.items w with
  | [] => True
  | first :: _ => abreviacionMoneda first = sc_abreviacionMoneda cfg
  end.

End CobranzaPage.

(** The page of the examples: the wizard on step 3 with its three
    periods selected, the configuration of the service loaded, and a
    cart that already holds a payment for the same contract. *)
Definition demo_config (moneda : string) : CobranzaPage.ServicioConfig :=
  {| CobranzaPage.sc_aliasServicio := "coopappi";
     CobranzaPage.sc_nombreServicio := "COOPAPPI";
     CobranzaPage.sc_abreviacionMoneda := moneda;
     CobranzaPage.sc_descripcionDocOficial := "Factura";
     CobranzaPage.formaOperaciones := "C" |}.

Definition demo_page (moneda : string) (w : Effects.World) : CobranzaPage.Page :=
  {| CobranzaPage.wizard := three_debts;
     CobranzaPage.config := Some (demo_config moneda);
     CobranzaPage.world := w;
     CobranzaPage.errorModal := ErrorModal.initial;
     CobranzaPage.navigations := [] |}.

(** A user who confirms every dialog, one who declines, and a backend
    that never answers a query of the page. *)
Definition answering (confirmed : bool)
    (r : CobranzaPage.Req) : Async.Outcome (CobranzaPage.Resp r) :=
  match r with
  | CobranzaPage.confirmModal_confirm _ => Async.Next confirmed
  | CobranzaPage.checkServiceStatus _ => Async.Error Async.Other
  | CobranzaPage.getServiceConfig _ => Async.Error Async.Other
  end.

(** [toFixed(2)] for the examples: the amount in hundredths. *)
Definition demo_toFixed2 (q : Q) : string :=
  pretty (Qnum (Decimal.toDecimalPlaces2 q)) +:+ "/100".

(** A backend for the service of the examples: active or not, with the
    given kind of operations. *)
Definition service_backend (active : bool) (forma : string)
    (r : CobranzaPage.Req) : Async.Outcome (CobranzaPage.Resp r) :=
  match r with
  | CobranzaPage.confirmModal_confirm _ => Async.Next true
  | CobranzaPage.checkServiceStatus alias =>
      Async.Next (Some {| CobranzaPage.esr_success := true;
                          CobranzaPage.esr_data :=
                            Some {| CobranzaPage.es_aliasServicio := alias;
                                    CobranzaPage.es_nombreServicio := "COOPAPPI";
                                    CobranzaPage.estadoServicio := active |} |})
  | CobranzaPage.getServiceConfig _ =>
      Async.Next (Some {| CobranzaPage.scr_success := true;
                          CobranzaPage.scr_data :=
                            Some {| CobranzaPage.sc_aliasServicio := "coopappi";
                                    CobranzaPage.sc_nombreServicio := "COOPAPPI";
                                    CobranzaPage.sc_abreviacionMoneda := "Bs.";
                                    CobranzaPage.sc_descripcionDocOficial := "Factura";
                                    CobranzaPage.formaOperaciones := forma |} |})
  end.

(** The page as it is created, before the route gives the service. *)
Definition new_page : CobranzaPage.Page :=
  {| CobranzaPage.wizard := CobranzaWizard.initial;
     CobranzaPage.config := None;
     CobranzaPage.world := empty_world;
     CobranzaPage.errorModal := ErrorModal.initial;
     CobranzaPage.navigations := [] |}.

(** ** Checkout wizard: what a move to the next step may change *)

(** [c'] is [c] on the same step with at most one message, or one step
    further with none; the items, the form and the QR data are those of
    [c]. *)
Definition moved (c c' : CheckoutWizard.t) : Prop :=
  CheckoutWizard.itemsCart c' = CheckoutWizard.itemsCart c
  /\ CheckoutWizard.form c' = CheckoutWizard.form c
  /\ CheckoutWizard.qrData c' = CheckoutWizard.qrData c
  /\ ((CheckoutWizard.currentStep c' = CheckoutWizard.currentStep c
       /\ (List.length (CheckoutWizard.errors c') <= 1)%nat)
      \/ (CheckoutWizard.currentStep c' = CheckoutWizard.currentStep c + 1
          /\ CheckoutWizard.errors c' = [])).

(** ** Fingerprint generator: a browser whose cache entries parse *)

(** The browser of the examples with a [JSON.parse] that reads a cache
    entry written at the first clock reading, and with no components to
    collect. *)
Definition caching_platform : Effects.Platform :=
  {| Effects.Date_now_at := Effects.Date_now_at demo_platform;
     Effects.Math_random_at := Effects.Math_random_at demo_platform;
     Effects.setItem_accepts := fun _ _ _ => true;
     Effects.JSON_parse_Carrito := Effects.JSON_parse_Carrito demo_platform;
     Effects.JSON_stringify_Carrito := Effects.JSON_stringify_Carrito demo_platform;
     Effects.JSON_parse_FingerprintCache := fun text =>
       if JS.falsy text then None
       else Some {| Effects.fc_fingerprint := text; Effects.fc_timestamp := 1700000000000 |};
     Effects.JSON_stringify_FingerprintCache := fun c => Effects.fc_fingerprint c;
     Effects.collected_components := None;
     Effects.sha256_hex := fun _ => None |}.

(** A world whose storage holds a fingerprint cached at that reading,
    after [n] readings of the clock. *)
Definition cached_world (n : nat) : Effects.World :=
  {| Effects.sessionStorage := {[ FingerprintService.CACHE_KEY := "9f86d081" ]};
     Effects.cart := None; Effects.fingerprint := "";
     Effects.clock_reads := n; Effects.random_reads := 0 |}.

(** The world [getCached] leaves when it finds an entry too old: the
    clock was read and the entry is gone. *)
Definition expired (w : Effects.World) : Effects.World :=
  Effects.set_sessionStorage
    (delete FingerprintService.CACHE_KEY (Effects.sessionStorage w))
    (Effects.set_clock_reads (S (Effects.clock_reads w)) w).

(** ** Error modal: closing it *)

Module ErrorModalRouter.
  Import ErrorModal.

(** [hide()]: the modal, and the command given to the router when
    the configuration asks to go back to the main page. *)
Definition hide (m : ErrorModal.t) : ErrorModal.t * option (list string) :=
  let shouldRedirect := redirectToMain (config m) in
  ({| isVisible := false; config := config m |},
   if shouldRedirect then Some ["/"] else None).

(** The envelope a failed call carries, whatever its [type]. *)
Definition envelope (e : Async.Thrown) : option Async.ApiErrorResponse :=
  match e with
  | Async.HttpErrorResponse body => body
  | Async.Direct d => Some d
  | Async.Other => None
  end.

End ErrorModalRouter.

(** * Properties *)

(** ** Arrays *)

Section ArrayFacts.
  Context {A : Type}.
  Implicit Types (a : JS.array A) (i j : Z) (v : A).

Lemma set_length_in a i v :
  0 <= i < Z.of_nat (List.length a) -> List.length (JS.set a i v) = List.length a.
Proof.
  intros [H0 H1]. unfold JS.set.
  destruct (Z.ltb_spec i 0); [lia|].
  destruct (Z.ltb_spec i (Z.of_nat (List.length a))); [|lia].
  apply length_insert.
Qed.

Lemma set_lookup_eq a i v :
  0 <= i < Z.of_nat (List.length a) -> JS.set a i v !! Z.to_nat i = Some (Some v).
Proof.
  intros [H0 H1]. unfold JS.set.
  destruct (Z.ltb_spec i 0); [lia|].
  destruct (Z.ltb_spec i (Z.of_nat (List.length a))); [|lia].
  apply list_lookup_insert_eq. lia.
Qed.

Lemma set_lookup_ne a i v (n : nat) :
  0 <= i < Z.of_nat (List.length a) -> n <> Z.to_nat i -> JS.set a i v !! n = a !! n.
Proof.
  intros [H0 H1] Hne. unfold JS.set.
  destruct (Z.ltb_spec i 0); [lia|].
  destruct (Z.ltb_spec i (Z.of_nat (List.length a))); [|lia].
  apply list_lookup_insert_ne. congruence.
Qed.
End ArrayFacts.

(** ** Debt-collection wizard: cascading selection *)

Section Cascade.
  Import CobranzaWizard.
  Implicit Types (a flags : JS.array bool) (i index : Z) (n : nat).

Lemma select_loop_spec fuel : forall i index a,
  0 <= i -> index < Z.of_nat (List.length a) -> index + 1 - i <= Z.of_nat fuel ->
  let r := select_loop fuel i index a in
  List.length r = List.length a
  /\ (forall n, i <= Z.of_nat n <= index -> r !! n = Some (Some true))
  /\ (forall n, Z.of_nat n < i \/ index < Z.of_nat n -> r !! n = a !! n).
Proof.
  induction fuel as [|fuel IH]; intros i index a Hi Hidx Hfuel; cbn [select_loop].
  - repeat split; intros; try reflexivity. simpl in Hfuel. lia.
  - destruct (Z.leb_spec i index) as [Hle|Hgt].
    + assert (Hin : 0 <= i < Z.of_nat (List.length a)) by lia.
      pose proof (set_length_in a i true Hin) as Hlen.
      destruct (IH (i + 1) index (JS.set a i true)) as (L & T & U);
        [lia | rewrite Hlen; lia | lia |].
      split; [congruence|]. split.
      * intros n Hn. destruct (Z.eq_dec (Z.of_nat n) i) as [<-|Hne].
        -- rewrite U by lia. pose proof (set_lookup_eq a (Z.of_nat n) true Hin) as E.
           now rewrite Nat2Z.id in E.
        -- apply T. lia.
      * intros n Hn. rewrite U by lia. apply set_lookup_ne; [exact Hin | lia].
    + repeat split; intros; try reflexivity. lia.
Qed.

Lemma deselect_loop_spec fuel : forall i a,
  0 <= i -> Z.of_nat (List.length a) - i <= Z.of_nat fuel ->
  let r := deselect_loop fuel i a in
  List.length r = List.length a
  /\ (forall n, i <= Z.of_nat n -> (n < List.length a)%nat -> r !! n = Some (Some false))
  /\ (forall n, Z.of_nat n < i -> r !! n = a !! n).
Proof.
  induction fuel as [|fuel IH]; intros i a Hi Hfuel; cbn [deselect_loop].
  - repeat split; intros; try reflexivity. simpl in Hfuel. lia.
  - destruct (Z.ltb_spec i (Z.of_nat (List.length a))) as [Hlt|Hge].
    + assert (Hin : 0 <= i < Z.of_nat (List.length a)) by lia.
      pose proof (set_length_in a i false Hin) as Hlen.
      destruct (IH (i + 1) (JS.set a i false)) as (L & F & U);
        [lia | rewrite Hlen; lia |].
      split; [congruence|]. split.
      * intros n Hn Hn'. destruct (Z.eq_dec (Z.of_nat n) i) as [<-|Hne].
        -- rewrite U by lia. pose proof (set_lookup_eq a (Z.of_nat n) false Hin) as E.
           now rewrite Nat2Z.id in E.
        -- apply F; [lia | rewrite Hlen; exact Hn'].
      * intros n Hn. rewrite U by lia. apply set_lookup_ne; [exact Hin | lia].
    + repeat split; intros; try reflexivity. lia.
Qed.
End Cascade.

(** C1. For every flag array of the debt wizard, whatever it holds, and
    every index [N] inside it: [toggleDeuda N true] leaves the flags at
    0..N all true and the later ones as they were; [toggleDeuda N false]
    leaves the flags at N..end all false and the earlier ones as they
    were. Neither changes the number of flags. *)
Theorem toggleDeuda_cascade (w : CobranzaWizard.t) (N : Z) :
  0 <= N < Z.of_nat (List.length (CobranzaWizard.selectedDebts w)) ->
  let flags := CobranzaWizard.selectedDebts w in
  let on := CobranzaWizard.selectedDebts (CobranzaWizard.toggleDeuda N true w) in
  let off := CobranzaWizard.selectedDebts (CobranzaWizard.toggleDeuda N false w) in
  (List.length on = List.length flags
   /\ (forall n : nat, Z.of_nat n <= N -> on !! n = Some (Some true))
   /\ (forall n : nat, N < Z.of_nat n -> on !! n = flags !! n))
  /\ (List.length off = List.length flags
      /\ (forall n : nat, N <= Z.of_nat n -> (n < List.length flags)%nat ->
                          off !! n = Some (Some false))
      /\ (forall n : nat, Z.of_nat n < N -> off !! n = flags !! n)).
Proof.
  intros HN flags on off. subst on off. cbn. fold flags in HN |- *.
  unfold CobranzaWizard.applyToggle. split.
  - destruct (select_loop_spec (Z.to_nat (N + 1)) 0 N flags) as (L & T & U); [lia..|].
    split; [exact L|]. split.
    + intros n Hn. apply T. lia.
    + intros n Hn. apply U. lia.
  - destruct (deselect_loop_spec (Z.to_nat (Z.of_nat (List.length flags) - N)) N flags)
      as (L & F & U); [lia..|].
    repeat split; assumption.
Qed.

Lemma toggleDeuda_cascade_witness :
  let w := CobranzaWizard.set_selectedDebts
             [Some false; Some true; Some false; Some true] CobranzaWizard.initial in
  CobranzaWizard.selectedDebts (CobranzaWizard.toggleDeuda 2 true w)
    = [Some true; Some true; Some true; Some true]
  /\ CobranzaWizard.selectedDebts (CobranzaWizard.toggleDeuda 1 false w)
    = [Some false; Some false; Some false; Some false]
  /\ forall n : nat, Z.of_nat n <= 2 ->
       CobranzaWizard.selectedDebts (CobranzaWizard.toggleDeuda 2 true w) !! n = Some (Some true).
Proof.
  intros w. split; [reflexivity|]. split; [reflexivity|].
  assert (H : 0 <= 2 < Z.of_nat (List.length (CobranzaWizard.selectedDebts w)))
    by (simpl; lia).
  exact (proj1 (proj2 (proj1 (toggleDeuda_cascade w 2 H)))).
Defined.

(** ** Debt-collection wizard: the search transition *)

Section Search.
  Import Models Async CobranzaWizard.




(** A failure of either query leaves the wizard on the step it was on. *)
Lemma consultContracts_query_fails (s : State) (backend : forall r, Outcome (Resp r)) e :
  searching (fst s) ->
  backend (contracts_request (fst s)) = Error e ->
  currentStep (fst (run backend (consultContracts s))) = 1.
Proof.
  intros (Hstep & Hload & Hcode) Hb. unfold consultContracts.
  rewrite Hload, Hcode. cbn. unfold contracts_request in Hb. rewrite Hb. cbn.
  unfold handleApiError. destruct (ErrorModal.handleHttpError _ _) as [[] m]; cbn; exact Hstep.
Qed.

Lemma consultContracts_debts_fail (s : State) (backend : forall r, Outcome (Resp r)) ds c e :
  searching (fst s) ->
  backend (contracts_request (fst s)) = Next (contracts_found ds [c]) ->
  backend (consultDebts_request c (fst s)) = Error e ->
  currentStep (fst (run backend (consultContracts s))) = 1.
Proof.
  intros (Hstep & Hload & Hcode) Hb Hd. unfold consultContracts.
  rewrite Hload, Hcode. cbn. unfold contracts_request in Hb. rewrite Hb. cbn.
  unfold consultDebts_request in *. cbn. rewrite Hd. cbn.
  unfold handleApiError. destruct (ErrorModal.handleHttpError _ _) as [[] m]; cbn; exact Hstep.
Qed.
End Search.

(** C8, as the wizard implements it. The search splits three ways
    on the number of contracts the backend returns. With none the
    wizard stays in step 1 and shows "No se encontraron contratos".
    With exactly one it selects that contract and asks for the debts
    of that contract, by its code and checksum, for the service of the
    page; no state on the way is in step 2. When that query answers,
    the wizard is in step 3; when it fails, the wizard stays on step 1
    with the contract selected and the failure on display. With more
    than one contract it moves to step 2. *)
Theorem consultContracts_three_way
    (s : CobranzaWizard.State)
    (backend : forall r, Async.Outcome (CobranzaWizard.Resp r))
    (ds : option Models.DatosServicio) (cs : list Models.Contrato) :
  searching (fst s) ->
  backend (contracts_request (fst s)) = Async.Next (contracts_found ds cs) ->
  let task := CobranzaWizard.consultContracts s in
  let final := fst (Async.run backend task) in
  match cs with
  | [] =>
      CobranzaWizard.currentStep final = 1
      /\ CobranzaWizard.errors final = ["No se encontraron contratos"]
      /\ Async.requests backend task = [contracts_request (fst s)]
  | [c] =>
      let debts :=
        CobranzaWizard.consultCollectionDebts
          {| Models.cdr_codigoContrato := Models.c_codigoContrato c;
             Models.cdr_checksumContrato := Models.checksumContrato c |}
          (CobranzaWizard.aliasServicio (fst s)) in
      Async.requests backend task = [contracts_request (fst s); debts]
      /\ CobranzaWizard.selectedContract final = Some c
      /\ CobranzaWizard.loading final = false
      /\ Forall (fun st => CobranzaWizard.currentStep (fst st) <> 2)
                (Async.states backend task)
      /\ match backend debts with
         | Async.Next r => CobranzaWizard.currentStep final = 3
         | Async.Error e =>
             CobranzaWizard.currentStep final = 1
             /\ (CobranzaWizard.errors final = ["Error al consultar contratos"]
                 \/ CobranzaWizard.errors final = []
                    /\ ErrorModal.isVisible (snd (Async.run backend task)) = true)
         end
  | _ :: _ :: _ =>
      CobranzaWizard.currentStep final = 2
      /\ Async.requests backend task = [contracts_request (fst s)]
  end.
Proof.
  intros (Hstep & Hload & Hcode) Hb task final. subst task final.
  unfold CobranzaWizard.consultContracts. rewrite Hload, Hcode.
  unfold contracts_request in *. cbn. rewrite Hb.
  destruct cs as [|c [|c' cs]]; cbn.
  - repeat split; first [exact Hstep | reflexivity].
  - unfold CobranzaWizard.consultDebts_request. cbn.
    destruct (backend (CobranzaWizard.consultCollectionDebts _ _)) as [r|e]; cbn.
    + assert (H3 : CobranzaWizard.currentStep (CobranzaWizard.consultDebts_tap c r
                (CobranzaWizard.set_selectedContract (Some c)
                   (CobranzaWizard.set_contracts [c]
                      (CobranzaWizard.clearErrors
                         (CobranzaWizard.set_loading true (fst s)))))) = 3
              /\ CobranzaWizard.selectedContract (CobranzaWizard.consultDebts_tap c r
                (CobranzaWizard.set_selectedContract (Some c)
                   (CobranzaWizard.set_contracts [c]
                      (CobranzaWizard.clearErrors
                         (CobranzaWizard.set_loading true (fst s)))))) = Some c).
      { unfold CobranzaWizard.consultDebts_tap.
        destruct r as [[[] [[? [?|]]|]]|]; cbn; split; reflexivity. }
      destruct H3 as [H3 Hsel].
      split; [reflexivity|]. split; [exact Hsel|]. split; [reflexivity|].
      split; [|exact H3].
      repeat constructor; cbn; rewrite ?Hstep, ?H3; discriminate.
    + unfold CobranzaWizard.handleApiError, ErrorModal.handleHttpError.
      destruct (ErrorModal.extractApiError e) as [api|]; cbn.
      * destruct (ErrorModal.error_type_of _); cbn.
        -- split; [reflexivity|]. split; [reflexivity|]. split; [reflexivity|].
           split; [repeat constructor; cbn; rewrite ?Hstep; discriminate|].
           split; [exact Hstep|]. right. split; reflexivity.
        -- split; [reflexivity|]. split; [reflexivity|]. split; [reflexivity|].
           split; [repeat constructor; cbn; rewrite ?Hstep; discriminate|].
           split; [exact Hstep|]. left. reflexivity.
      * split; [reflexivity|]. split; [reflexivity|]. split; [reflexivity|].
        split; [repeat constructor; cbn; rewrite ?Hstep; discriminate|].
        split; [exact Hstep|]. left. reflexivity.
  - repeat split; reflexivity.
Qed.

Lemma consultContracts_three_way_witness :
  let w := CobranzaWizard.set_currentStep 1
             (CobranzaWizard.set_selectedContract None three_debts) in
  let backend := fun r : CobranzaWizard.Req =>
    match r return Async.Outcome (CobranzaWizard.Resp r) with
    | CobranzaWizard.consultCollectionContracts _ _ =>
        Async.Next (contracts_found None [demo_contract])
    | CobranzaWizard.consultCollectionDebts _ _ =>
        Async.Next (Some {| Models.dr_success := true;
                            Models.dr_data := Some {| Models.dd_datosServicio := None;
                                                      Models.pagosPendientes := Some [] |} |})
    end in
  CobranzaWizard.currentStep
    (fst (Async.run backend (CobranzaWizard.consultContracts (w, ErrorModal.initial)))) = 3.
Proof.
  intros w backend.
  assert (Hs : searching (fst (w, ErrorModal.initial))) by (repeat split; reflexivity).
  exact (proj2 (proj2 (proj2 (proj2
           (consultContracts_three_way (w, ErrorModal.initial) backend None [demo_contract]
              Hs eq_refl))))).
Defined.

(** C8 as stated fails: the backend returns exactly one contract and
    the debts query for it fails; the wizard has selected the contract
    and sent the query, and it ends on step 1, not on step 3. *)
Lemma consultContracts_one_contract_debts_fail :
  let w := CobranzaWizard.set_currentStep 1
             (CobranzaWizard.set_selectedContract None three_debts) in
  let backend := fun r : CobranzaWizard.Req =>
    match r return Async.Outcome (CobranzaWizard.Resp r) with
    | CobranzaWizard.consultCollectionContracts _ _ =>
        Async.Next (contracts_found None [demo_contract])
    | CobranzaWizard.consultCollectionDebts _ _ => Async.Error Async.Other
    end in
  let task := CobranzaWizard.consultContracts (w, ErrorModal.initial) in
  List.length (Async.requests backend task) = 2%nat
  /\ CobranzaWizard.selectedContract (fst (Async.run backend task)) = Some demo_contract
  /\ CobranzaWizard.currentStep (fst (Async.run backend task)) = 1
  /\ CobranzaWizard.errors (fst (Async.run backend task)) = ["Error al consultar contratos"].
Proof. vm_compute. repeat split; reflexivity. Qed.

(** ** Cart store *)


Section CartFacts.
  Import Models Effects CartService.
  Variable P : Platform.
  Implicit Types (w : World) (l : list ItemCarrito) (item : ItemCarrito).


Lemma same_currency_spec l :
  same_currency l = true <-> exists cur, currency_is cur l.
Proof.
  destruct l as [|first rest]; cbn.
  - split; [exists ""; constructor | reflexivity].
  - rewrite forallb_forall. split.
    + intros H. exists (abreviacionMoneda first). constructor; [reflexivity|].
      apply Forall_forall. intros x Hx. symmetry. apply String.eqb_eq, H.
      now apply list_elem_of_In.
    + intros [cur H] x Hx. apply Forall_cons in H as [H1 H2].
      rewrite Forall_forall in H2. apply String.eqb_eq. rewrite H1.
      symmetry. apply H2. now apply list_elem_of_In.
Qed.

Lemma filter_index_sub {A} (l : list A) : forall from index x,
  x ∈ filter_index from index l -> x ∈ l.
Proof.
  induction l as [|y l IH]; intros from index x; cbn; [auto|].
  destruct (from =? index).
  - intros H. right. eauto.
  - intros [->|H]%elem_of_cons; [left | right; eauto].
Qed.

(** Outside the range nothing is filtered out. *)
Lemma filter_index_out {A} (l : list A) : forall from index,
  index < from \/ from + Z.of_nat (List.length l) <= index ->
  filter_index from index l = l.
Proof.
  induction l as [|y l IH]; intros from index H; cbn; [reflexivity|].
  cbn [List.length] in H.
  destruct (Z.eqb_spec from index); [lia|].
  f_equal. apply IH. lia.
Qed.

Lemma currency_is_filter cur l from index :
  currency_is cur l -> currency_is cur (filter_index from index l).
Proof.
  unfold currency_is. rewrite !Forall_forall. eauto using filter_index_sub.
Qed.

Lemma currency_is_insert cur l (i : nat) item :
  currency_is cur l -> abreviacionMoneda item = cur -> currency_is cur (<[i := item]> l).
Proof. intros H Hi. now apply Forall_insert. Qed.
End CartFacts.

Ltac run_m :=
  unfold CartService.addItem, CartService.replaceItem, CartService.removeItem,
    CartService.clearCart, CartService.saveCart, CartService.loadCart,
    CartService.getOrCreateSessionId, CartService.validateSession in *;
  unfold CartService.On.addItem, CartService.On.replaceItem, CartService.On.removeItem,
    CartService.On.clearCart, CartService.On.saveCart, CartService.On.loadCart,
    CartService.On.getOrCreateSessionId, CartService.generateSessionId,
    CartService.On.validateSession, CartService.canAddItemWithCurrency,
    CartService.findDuplicateIndex, Effects.accessing,
    Effects.getItem, Effects.setItem, Effects.removeItem, Effects.Date_now,
    Effects.Math_random36, Effects.try_catch, Effects.throw, Effects.read, Effects.write,
    mbind, Effects.M_bind, mret, Effects.M_ret in *;
  cbn in *.

Section CartInvariant.
  Import Models Effects CartService.
  Variable P : Platform.
  Implicit Types (w : World) (item : ItemCarrito).

Lemma removeItem_keeps_currency w index cur :
  currency_is cur (items w) ->
  currency_is cur (items (world_of (CartService.removeItem P index w))).
Proof.
  unfold items at 1. intros H. run_m.
  destruct (cart w) as [c|] eqn:Hc; cbn.
  - destruct (List.length _ =? 0)%nat; cbn.
    + unfold items. cbn. constructor.
    + destruct (setItem_accepts _ _ _ _); cbn; unfold items; cbn;
        now apply currency_is_filter.
  - unfold items. now rewrite Hc.
Qed.

Lemma clearCart_empties w : items (world_of (clearCart w)) = [].
Proof. reflexivity. Qed.

(** What [addItem] leaves in the cart: the old items, or the old items
    and the new one. *)
Lemma addItem_items w item :
  items (world_of (addItem P item w)) = items w
  \/ items (world_of (addItem P item w)) = (items w ++ [item])%list.
Proof.
  run_m. unfold items.
  destruct (sessionStorage w !! SESSION_KEY) as [sid|] eqn:Hs; cbn.
  - destruct (JS.falsy sid); cbn.
    + destruct (setItem_accepts P _ SESSION_KEY _); cbn; [|now left].
      destruct (cart w) as [c|]; cbn;
        destruct (setItem_accepts P _ STORAGE_KEY _); cbn; now right.
    + destruct (cart w) as [c|]; cbn;
        destruct (setItem_accepts P _ STORAGE_KEY _); cbn; now right.
  - destruct (setItem_accepts P _ SESSION_KEY _); cbn; [|now left].
    destruct (cart w) as [c|]; cbn;
      destruct (setItem_accepts P _ STORAGE_KEY _); cbn; now right.
Qed.

(** What [replaceItem] leaves in the cart. *)
Lemma replaceItem_items w index item :
  items (world_of (replaceItem P index item w)) = items w
  \/ (0 <= index < Z.of_nat (List.length (items w))
      /\ items (world_of (replaceItem P index item w))
         = <[Z.to_nat index := item]> (items w)).
Proof.
  destruct w as [st [c|] fp cr rr]; run_m; unfold items; cbn; [|now left].
  destruct (Z.ltb_spec index 0); cbn; [now left|].
  destruct (Z.leb_spec (Z.of_nat (List.length (Models.items c))) index); cbn; [now left|].
  right. split; [split; assumption|].
  destruct (setItem_accepts P _ STORAGE_KEY _); reflexivity.
Qed.

Lemma can_add_currency w moneda existing cur :
  canAddItemWithCurrency moneda w = Ok (true, existing) w ->
  currency_is cur (items w) -> items w <> [] -> moneda = cur.
Proof.
  run_m. destruct (items w) as [|first rest]; [congruence|].
  intros H Hc _. apply Forall_cons in Hc as [<- _].
  injection H as H _. symmetry. now apply String.eqb_eq.
Qed.
End CartInvariant.

(** C3, as the store implements it. [removeItem] and [clearCart] keep
    the cart in one currency for every argument. [addItem] and
    [replaceItem] store the item they are given without looking at its
    currency; they keep the cart in one currency when
    [canAddItemWithCurrency] accepts the currency of the new item, the
    check their caller makes first. *)
Theorem cart_mutations_keep_currency
    (P : Effects.Platform) (w : Effects.World) :
  CartService.same_currency (CartService.items w) = true ->
  (forall index,
      CartService.same_currency
        (CartService.items (Effects.world_of (CartService.removeItem P index w))) = true)
  /\ CartService.same_currency
       (CartService.items (Effects.world_of (CartService.clearCart w))) = true
  /\ (forall item existing,
         CartService.canAddItemWithCurrency (Models.abreviacionMoneda item) w
           = Effects.Ok (true, existing) w ->
         CartService.same_currency
           (CartService.items (Effects.world_of (CartService.addItem P item w))) = true
         /\ forall index,
              CartService.same_currency
                (CartService.items
                   (Effects.world_of (CartService.replaceItem P index item w))) = true).
Proof.
  intros Hinv. pose proof Hinv as [cur Hcur]%same_currency_spec.
  split; [|split].
  - intros index. apply same_currency_spec. exists cur.
    now apply removeItem_keeps_currency.
  - reflexivity.
  - intros item existing Hcan.
    destruct (CartService.items w) as [|first rest] eqn:Hitems.
    + (* an empty cart: the new item is alone *)
      split.
      * destruct (addItem_items P w item) as [-> | ->]; rewrite Hitems; reflexivity.
      * intros index. destruct (replaceItem_items P w index item) as [-> | [Hr _]];
          rewrite Hitems in *; [reflexivity | cbn in Hr; lia].
    + assert (Hm : Models.abreviacionMoneda item = cur).
      { eapply can_add_currency; [exact Hcan | now rewrite Hitems | now rewrite Hitems]. }
      split.
      * apply same_currency_spec. exists cur.
        destruct (addItem_items P w item) as [-> | ->]; rewrite Hitems; [exact Hcur|].
        apply Forall_app. split; [exact Hcur | now constructor].
      * intros index. apply same_currency_spec. exists cur.
        destruct (replaceItem_items P w index item) as [-> | [_ ->]]; rewrite Hitems;
          [exact Hcur | now apply currency_is_insert].
Qed.

Lemma cart_mutations_keep_currency_witness :
  let w := Effects.world_of
             (CartService.addItem demo_platform (demo_item "coopappi" "CT-1" "Bs.") empty_world) in
  CartService.same_currency
    (CartService.items
       (Effects.world_of
          (CartService.addItem demo_platform (demo_item "coopappi" "CT-2" "Bs.") w))) = true.
Proof.
  intros w.
  assert (Hinv : CartService.same_currency (CartService.items w) = true) by reflexivity.
  exact (proj1 (proj2 (proj2 (cart_mutations_keep_currency demo_platform w Hinv))
                  (demo_item "coopappi" "CT-2" "Bs.") (Some "Bs.") eq_refl)).
Defined.

(** C3 as stated fails: a cart in bolivianos takes an item in dollars. *)
Lemma addItem_mixes_currencies :
  let w := Effects.world_of
             (CartService.addItem demo_platform (demo_item "coopappi" "CT-1" "Bs.") empty_world) in
  let r := CartService.addItem demo_platform (demo_item "coopappi" "CT-2" "USD") w in
  CartService.same_currency (CartService.items w) = true
  /\ Effects.returned r = Some true
  /\ List.map Models.abreviacionMoneda (CartService.items (Effects.world_of r)) = ["Bs."; "USD"]
  /\ CartService.same_currency (CartService.items (Effects.world_of r)) = false.
Proof. vm_compute. repeat split; reflexivity. Qed.

(** C4, as the store implements it. Removing the only item of a cart
    returns normally, empties the cart in memory and deletes the
    persisted blob, and leaves the stored session id where it is. The
    next [addItem] puts that stored id on the new cart; it makes a new
    one, from the clock and the random generator, only when none is
    stored. *)
Theorem removeItem_last_keeps_session
    (P : Effects.Platform) (w : Effects.World) (c : Models.Carrito) (x : Models.ItemCarrito) :
  Effects.cart w = Some c ->
  Models.items c = [x] ->
  let r := CartService.removeItem P 0 w in
  let w2 := Effects.world_of r in
  Effects.returned r = Some tt
  /\ CartService.items w2 = []
  /\ Effects.cart w2 = None
  /\ Effects.sessionStorage w2 = delete CartService.STORAGE_KEY (Effects.sessionStorage w)
  /\ Effects.sessionStorage w2 !! CartService.SESSION_KEY
     = Effects.sessionStorage w !! CartService.SESSION_KEY
  /\ (forall sid y,
         Effects.sessionStorage w !! CartService.SESSION_KEY = Some sid ->
         JS.falsy sid = false ->
         Models.sessionId <$> Effects.cart (Effects.world_of (CartService.addItem P y w2))
           = Some sid)
  /\ (forall y,
         Effects.sessionStorage w !! CartService.SESSION_KEY = None ->
         let fresh := pretty (Effects.Date_now_at P (Effects.clock_reads w))
                      +:+ "-" +:+ Effects.Math_random_at P (Effects.random_reads w) in
         Effects.setItem_accepts P (Effects.sessionStorage w2) CartService.SESSION_KEY fresh
           = true ->
         Models.sessionId <$> Effects.cart (Effects.world_of (CartService.addItem P y w2))
           = Some fresh).
Proof.
  intros Hc Hx. destruct w as [st c0 fp cr rr]. cbn in Hc. subst c0.
  run_m. rewrite Hx. cbn.
  assert (Hkey : delete CartService.STORAGE_KEY st !! CartService.SESSION_KEY
                 = st !! CartService.SESSION_KEY)
    by (apply lookup_delete_ne; discriminate).
  repeat split; try reflexivity; try exact Hkey.
  - intros sid y Hsid Hf. rewrite Hkey, Hsid. cbn. rewrite Hf. cbn.
    destruct (Effects.setItem_accepts P _ CartService.STORAGE_KEY _); reflexivity.
  - intros y Hnone Hacc. rewrite Hkey, Hnone. cbn. rewrite Hacc. cbn.
    destruct (Effects.setItem_accepts P _ CartService.STORAGE_KEY _); reflexivity.
Qed.

Lemma removeItem_last_keeps_session_witness :
  let w := Effects.world_of
             (CartService.addItem demo_platform (demo_item "coopappi" "CT-1" "Bs.") empty_world) in
  let w2 := Effects.world_of (CartService.removeItem demo_platform 0 w) in
  Effects.sessionStorage w !! CartService.SESSION_KEY = Some "1700000000000-k3j9x0q0"
  /\ Models.sessionId
       <$> Effects.cart (Effects.world_of
             (CartService.addItem demo_platform (demo_item "coopappi" "CT-2" "Bs.") w2))
     = Some "1700000000000-k3j9x0q0".
Proof.
  intros w w2.
  assert (Hsid : Effects.sessionStorage w !! CartService.SESSION_KEY
                 = Some "1700000000000-k3j9x0q0") by (vm_compute; reflexivity).
  split; [exact Hsid|].
  destruct (Effects.cart w) as [c|] eqn:Hc; [|vm_compute in Hc; discriminate].
  assert (Hx : Models.items c = [demo_item "coopappi" "CT-1" "Bs."])
    by (vm_compute in Hc; injection Hc as <-; reflexivity).
  exact (proj1 (proj2 (proj2 (proj2 (proj2 (proj2
           (removeItem_last_keeps_session demo_platform w c _ Hc Hx))))))
           "1700000000000-k3j9x0q0" (demo_item "coopappi" "CT-2" "Bs.") Hsid eq_refl).
Defined.

(** C4 as stated fails: after the only item is removed, the next
    [addItem] carries the session id of the cart that was cleared. *)
Lemma removeItem_last_same_session :
  let w1 := Effects.world_of
              (CartService.addItem demo_platform (demo_item "coopappi" "CT-1" "Bs.") empty_world) in
  let w2 := Effects.world_of (CartService.removeItem demo_platform 0 w1) in
  let w3 := Effects.world_of
              (CartService.addItem demo_platform (demo_item "coopappi" "CT-2" "Bs.") w2) in
  List.length (CartService.items w1) = 1%nat
  /\ CartService.items w2 = []
  /\ Models.sessionId <$> Effects.cart w1 = Some "1700000000000-k3j9x0q0"
  /\ Models.sessionId <$> Effects.cart w3 = Some "1700000000000-k3j9x0q0".
Proof. vm_compute. repeat split; reflexivity. Qed.

Section OutOfRange.
  Import Models Effects CartService.
  Variable P : Platform.

(** With a storage that rejects the write, [removeItem] throws after
    it has updated the cart in memory: unlike [addItem] and
    [replaceItem] it has no [try]. *)
Lemma removeItem_write_rejected (w : World) (c : Carrito) (index : Z) :
  cart w = Some c ->
  filter_index 0 index (Models.items c) <> [] ->
  let c' := with_items c (filter_index 0 index (Models.items c))
              (Date_now_at P (clock_reads w)) in
  setItem_accepts P (sessionStorage w) STORAGE_KEY (JSON_stringify_Carrito P c') = false ->
  returned (CartService.removeItem P index w) = None
  /\ cart (world_of (CartService.removeItem P index w)) = Some c'.
Proof.
  intros Hc Hne c' Hrej. subst c'. destruct w as [st c0 fp cr rr]. cbn in *. subst c0.
  run_m. destruct (filter_index 0 index (Models.items c)) as [|y l]; [congruence|].
  cbn. rewrite Hrej. split; reflexivity.
Qed.
End OutOfRange.

(** C10, as the store implements it. For a cart with at least one
    item and an index below 0 or at or past the number of items,
    [removeItem] keeps the items, the session id and [createdAt] of the
    cart in memory and sets [updatedAt] to the clock reading of the
    call. When the storage accepts the write, it returns normally and
    the cart so stamped is in the storage. When the storage rejects the
    write, it throws, for it has no [try], and the storage is as it
    was. *)
Theorem removeItem_out_of_range
    (P : Effects.Platform) (w : Effects.World) (c : Models.Carrito) (index : Z) :
  Effects.cart w = Some c ->
  Models.items c <> [] ->
  index < 0 \/ Z.of_nat (List.length (Models.items c)) <= index ->
  let now := Effects.Date_now_at P (Effects.clock_reads w) in
  let c' := CartService.with_items c (Models.items c) now in
  let accepted :=
    Effects.setItem_accepts P (Effects.sessionStorage w) CartService.STORAGE_KEY
      (Effects.JSON_stringify_Carrito P c') in
  let r := CartService.removeItem P index w in
  Effects.returned r = (if accepted then Some tt else None)
  /\ Effects.cart (Effects.world_of r) = Some c'
  /\ Models.items c' = Models.items c
  /\ Models.sessionId c' = Models.sessionId c
  /\ Models.createdAt c' = Models.createdAt c
  /\ Models.updatedAt c' = now
  /\ Effects.sessionStorage (Effects.world_of r)
     = if accepted
       then <[CartService.STORAGE_KEY := Effects.JSON_stringify_Carrito P c']>
              (Effects.sessionStorage w)
       else Effects.sessionStorage w.
Proof.
  intros Hc Hne Hout now c' accepted r. subst r accepted c' now.
  destruct w as [st c0 fp cr rr]. cbn in *. subst c0.
  run_m. rewrite filter_index_out by lia.
  destruct (Models.items c) as [|y l] eqn:Hitems; [congruence|].
  cbn. destruct (Effects.setItem_accepts P st _ _); cbn; repeat split; reflexivity.
Qed.

Lemma removeItem_out_of_range_witness :
  let w := Effects.world_of
             (CartService.addItem demo_platform (demo_item "coopappi" "CT-1" "Bs.") empty_world) in
  let r := CartService.removeItem demo_platform 7 w in
  Effects.returned r = Some tt
  /\ (Models.updatedAt <$> Effects.cart w) = Some 1700000000002
  /\ (Models.updatedAt <$> Effects.cart (Effects.world_of r)) = Some 1700000000003.
Proof.
  intros w r.
  destruct (Effects.cart w) as [c|] eqn:Hc; [|vm_compute in Hc; discriminate].
  assert (Hx : Models.items c = [demo_item "coopappi" "CT-1" "Bs."])
    by (vm_compute in Hc; injection Hc as <-; reflexivity).
  assert (Hne : Models.items c <> []) by (rewrite Hx; discriminate).
  assert (Hout : 7 < 0 \/ Z.of_nat (List.length (Models.items c)) <= 7)
    by (right; rewrite Hx; cbn; lia).
  pose proof (removeItem_out_of_range demo_platform w c 7 Hc Hne Hout)
    as (Hret & Hcart & _).
  split; [exact Hret|]. split.
  - vm_compute in Hc. injection Hc as <-. reflexivity.
  - subst r. rewrite Hcart. vm_compute. reflexivity.
Defined.

(** C10 as stated fails: in a browser whose storage takes no more
    writes, [removeItem] with an index outside a cart of one item
    throws, and the cart is not persisted again. *)
Lemma removeItem_out_of_range_throws :
  let r := CartService.removeItem full_platform 7 one_item_world in
  List.length (CartService.items one_item_world) = 1%nat
  /\ Effects.returned r = None
  /\ Effects.sessionStorage (Effects.world_of r) = Effects.sessionStorage one_item_world
  /\ (Models.updatedAt <$> Effects.cart (Effects.world_of r))
     <> (Models.updatedAt <$> Effects.cart one_item_world).
Proof.
  intros r. split; [reflexivity|]. split; [reflexivity|]. split.
  - unfold r. run_m. reflexivity.
  - vm_compute. discriminate.
Qed.

(** C7, as the store implements it. In a browser that lets the page
    use the session storage, [loadCart] never throws. A stored text
    that is not empty is read as the blob: if it does not parse, or if
    its session id is not the stored one, it is removed and [items()]
    is empty; otherwise the cart is the blob's, where every item
    without a currency has the default ['Bs.'] and every item with one
    keeps it. With nothing stored, or with the empty string stored,
    nothing is read and nothing is changed: the empty string stays in
    the storage and the cart stays what it was. In a browser that
    denies the storage, [loadCart] throws: the [catch] calls
    [clearCart], and its [removeItem] throws again. *)
Theorem loadCart_fail_safe
    (P : Effects.Platform) (access : Effects.Access) (w : Effects.World) :
  let r := CartService.On.loadCart P access w in
  let w' := Effects.world_of r in
  (access = Effects.denied ->
   Effects.returned r = None /\ w' = Effects.set_cart None w)
  /\ (access = Effects.granted ->
      Effects.returned r = Some tt
      /\ (Effects.sessionStorage w !! CartService.STORAGE_KEY = None
          \/ Effects.sessionStorage w !! CartService.STORAGE_KEY = Some "" ->
          w' = w)
      /\ forall text,
           Effects.sessionStorage w !! CartService.STORAGE_KEY = Some text ->
           text <> "" ->
           (Effects.JSON_parse_Carrito P text = None -> discarded w')
           /\ forall parsed,
                Effects.JSON_parse_Carrito P text = Some parsed ->
                (Effects.sessionStorage w !! CartService.SESSION_KEY
                   <> Some (Models.sessionId parsed) -> discarded w')
                /\ (Effects.sessionStorage w !! CartService.SESSION_KEY
                      = Some (Models.sessionId parsed) ->
                    Effects.sessionStorage w' = Effects.sessionStorage w
                    /\ Effects.cart w'
                       = Some {| Models.sessionId := Models.sessionId parsed;
                                 Models.items :=
                                   List.map CartService.migrate (Models.items parsed);
                                 Models.createdAt := Models.createdAt parsed;
                                 Models.updatedAt := Models.updatedAt parsed |}
                    /\ Forall2
                         (fun stored loaded =>
                            (Models.abreviacionMoneda stored = None
                             \/ Models.abreviacionMoneda stored = Some "" ->
                             Models.abreviacionMoneda loaded = "Bs.")
                            /\ (forall cur, Models.abreviacionMoneda stored = Some cur ->
                                            cur <> "" ->
                                            Models.abreviacionMoneda loaded = cur))
                         (Models.items parsed) (CartService.items w'))).
Proof.
  intros r w'. subst r w'. destruct w as [st c fp cr rr]. split.
  { intros ->. run_m. split; reflexivity. }
  intros ->. run_m. unfold discarded.
  destruct (st !! CartService.STORAGE_KEY) as [text|] eqn:Hst; cbn.
  2: { split; [reflexivity|]. split; [reflexivity | intros ? [=]]. }
  destruct text as [|a text]; cbn.
  { split; [reflexivity|]. split; [reflexivity|]. intros ? [= <-] Hne. now contradiction Hne. }
  set (blob := String a text) in *.
  destruct (Effects.JSON_parse_Carrito P blob) as [parsed|] eqn:Hp; cbn.
  2: { split; [reflexivity|]. split; [intros [[=]|[=]]|].
       intros ? [= <-] _. rewrite Hp. split.
       - intros _. split; [reflexivity | apply lookup_delete_eq].
       - intros ? [=]. }
  case_bool_decide as Hs; cbn.
  - split; [reflexivity|]. split; [intros [[=]|[=]]|].
    intros ? [= <-] _. rewrite Hp. split; [intros [=]|].
    intros ? [= <-]. split; [intros Hne; contradiction|]. intros _.
    unfold CartService.items. cbn. split; [reflexivity|]. split; [reflexivity|].
    induction (Models.items parsed) as [|it l IH]; cbn; constructor; [|exact IH].
    unfold CartService.migrate; cbn. split.
    + intros [H|H]; now rewrite H.
    + intros cur H Hcur. rewrite H. destruct cur; [congruence | reflexivity].
  - split; [reflexivity|]. split; [intros [[=]|[=]]|].
    intros ? [= <-] _. rewrite Hp. split; [intros [=]|].
    intros ? [= <-]. split; [|intros He; contradiction].
    intros _. split; [reflexivity | apply lookup_delete_eq].
Qed.

Lemma loadCart_fail_safe_witness :
  (let w' := Effects.world_of
               (CartService.On.loadCart legacy_platform Effects.granted
                  (stored_world "legacy" "s1")) in
   List.map Models.abreviacionMoneda (CartService.items w') = ["Bs."; "USD"])
  /\ discarded (Effects.world_of
                  (CartService.On.loadCart legacy_platform Effects.granted
                     (stored_world "legacy" "s2")))
  /\ discarded (Effects.world_of
                  (CartService.On.loadCart legacy_platform Effects.granted
                     (stored_world "{oops" "s1")))
  /\ Effects.returned
       (CartService.On.loadCart legacy_platform Effects.denied (stored_world "legacy" "s1"))
     = None.
Proof.
  pose proof (proj2 (proj2 (proj2 (loadCart_fail_safe legacy_platform Effects.granted
                                     (stored_world "legacy" "s1")) eq_refl))
                "legacy" eq_refl ltac:(discriminate)) as [_ H1].
  pose proof (proj2 (proj2 (proj2 (loadCart_fail_safe legacy_platform Effects.granted
                                     (stored_world "legacy" "s2")) eq_refl))
                "legacy" eq_refl ltac:(discriminate)) as [_ H2].
  pose proof (proj2 (proj2 (proj2 (loadCart_fail_safe legacy_platform Effects.granted
                                     (stored_world "{oops" "s1")) eq_refl))
                "{oops" eq_refl ltac:(discriminate)) as [H3 _].
  split; [|split; [|split]].
  - destruct (H1 _ eq_refl) as [_ Hload].
    unfold CartService.items. destruct (Hload eq_refl) as (_ & -> & _). reflexivity.
  - destruct (H2 _ eq_refl) as [Hdis _]. apply Hdis. vm_compute. discriminate.
  - apply H3. reflexivity.
  - exact (proj1 (proj1 (loadCart_fail_safe legacy_platform Effects.denied
                           (stored_world "legacy" "s1")) eq_refl)).
Defined.

(** C7 as stated fails twice. In a browser that denies the session
    storage [loadCart] throws. And a stored empty string is a persisted
    blob that does not parse, yet it is neither parsed nor discarded:
    it stays in the storage. *)
Lemma loadCart_throws_or_keeps :
  Effects.returned
    (CartService.On.loadCart demo_platform Effects.denied (stored_world "{oops" "s1")) = None
  /\ (let w' := Effects.world_of (CartService.loadCart demo_platform (stored_world "" "s1")) in
      Effects.JSON_parse_Carrito demo_platform "" = None
      /\ Effects.sessionStorage w' !! CartService.STORAGE_KEY = Some ""
      /\ ~ discarded w').
Proof.
  split; [reflexivity|]. cbv zeta. split; [reflexivity|]. split; [reflexivity|].
  intros [_ H]. vm_compute in H. discriminate H.
Qed.

(** ** Confirmation modal *)

Section Modal.
  Import ConfirmationModal.
  Implicit Types (m : t) (p : Promise) (e : Event).

Lemma well_formed_initial : well_formed initial.
Proof. split; [intros p _; apply lookup_empty | intros p [=]]. Qed.

(** Every event keeps the bookkeeping of the promises sound. *)
Lemma well_formed_step m e : well_formed m -> well_formed (step m e).
Proof.
  intros [Hfresh Hheld]. destruct e as [c| |]; cbn.
  - split; cbn; [intros p Hp; apply Hfresh; lia | intros p [= <-]; lia].
  - unfold handleConfirm. destruct (resolveCallback m) as [q|] eqn:Hq; cbn.
    + split; cbn; [|intros p [=]]. intros p Hp.
      destruct (settled m !! q); [now apply Hfresh|].
      rewrite lookup_insert_ne; [now apply Hfresh|].
      specialize (Hheld q eq_refl). lia.
    + split; cbn; [exact Hfresh | rewrite Hq; intros p [=]].
  - unfold handleCancel. destruct (resolveCallback m) as [q|] eqn:Hq; cbn.
    + split; cbn; [|intros p [=]]. intros p Hp.
      destruct (settled m !! q); [now apply Hfresh|].
      rewrite lookup_insert_ne; [now apply Hfresh|].
      specialize (Hheld q eq_refl). lia.
    + split; cbn; [exact Hfresh | rewrite Hq; intros p [=]].
Qed.

Lemma well_formed_steps es : forall m, well_formed m -> well_formed (steps m es).
Proof.
  induction es as [|e es IH]; intros m H; cbn; [exact H|].
  apply IH. now apply well_formed_step.
Qed.

Lemma orphaned_step m p e : orphaned p m -> orphaned p (step m e).
Proof.
  intros (Hlt & Hcb & Hout). unfold orphaned, outcome in *.
  destruct e as [c| |]; cbn.
  - repeat split; [lia | intros [= He]; lia | exact Hout].
  - unfold handleConfirm. destruct (resolveCallback m) as [q|] eqn:Hq; cbn.
    + repeat split; [exact Hlt | discriminate |].
      destruct (settled m !! q); [exact Hout|].
      rewrite lookup_insert_ne; [exact Hout | congruence].
    + rewrite Hq. repeat split; [exact Hlt | discriminate | exact Hout].
  - unfold handleCancel. destruct (resolveCallback m) as [q|] eqn:Hq; cbn.
    + repeat split; [exact Hlt | discriminate |].
      destruct (settled m !! q); [exact Hout|].
      rewrite lookup_insert_ne; [exact Hout | congruence].
    + rewrite Hq. repeat split; [exact Hlt | discriminate | exact Hout].
Qed.

Lemma orphaned_steps es : forall m p, orphaned p m -> orphaned p (steps m es).
Proof.
  induction es as [|e es IH]; intros m p H; cbn; [exact H|].
  apply IH. now apply orphaned_step.
Qed.
End Modal.

(** C9, as the service implements it. The service holds one resolver.
    [confirm] shows its configuration and returns a pending promise,
    which the confirm button resolves to true and the cancel button to
    false. A second [confirm] before that shows the second
    configuration and holds the second promise's resolver; the buttons
    then resolve the second promise, and the first promise stays
    pending whatever happens to the modal afterwards. *)
Theorem confirm_single_slot
    (m : ConfirmationModal.t) (c1 c2 : option ConfirmationModal.ConfirmationModalInput) :
  ConfirmationModal.well_formed m ->
  let p1 := fst (ConfirmationModal.confirm c1 m) in
  let m1 := snd (ConfirmationModal.confirm c1 m) in
  let p2 := fst (ConfirmationModal.confirm c2 m1) in
  let m2 := snd (ConfirmationModal.confirm c2 m1) in
  (ConfirmationModal.resolveCallback m1 = Some p1
   /\ ConfirmationModal.isVisible m1 = true
   /\ ConfirmationModal.config m1 = ConfirmationModal.merge c1
   /\ ConfirmationModal.outcome p1 m1 = None
   /\ ConfirmationModal.outcome p1 (ConfirmationModal.handleConfirm m1) = Some true
   /\ ConfirmationModal.outcome p1 (ConfirmationModal.handleCancel m1) = Some false
   /\ ConfirmationModal.resolveCallback (ConfirmationModal.handleConfirm m1) = None
   /\ ConfirmationModal.resolveCallback (ConfirmationModal.handleCancel m1) = None)
  /\ (p2 <> p1
      /\ ConfirmationModal.resolveCallback m2 = Some p2
      /\ ConfirmationModal.config m2 = ConfirmationModal.merge c2
      /\ ConfirmationModal.outcome p2 (ConfirmationModal.handleConfirm m2) = Some true
      /\ ConfirmationModal.outcome p2 (ConfirmationModal.handleCancel m2) = Some false
      /\ forall events : list ConfirmationModal.Event,
           ConfirmationModal.outcome p1 (ConfirmationModal.steps m2 events) = None).
Proof.
  intros [Hfresh Hheld] p1 m1 p2 m2. subst p1 m1 p2 m2.
  unfold ConfirmationModal.outcome, ConfirmationModal.handleConfirm,
    ConfirmationModal.handleCancel. cbn.
  assert (H1 : ConfirmationModal.settled m !! ConfirmationModal.next_promise m = None)
    by (apply Hfresh; lia).
  assert (H2 : ConfirmationModal.settled m !! S (ConfirmationModal.next_promise m) = None)
    by (apply Hfresh; lia).
  rewrite H1, H2. cbn. rewrite !lookup_insert_eq.
  split; [repeat split; reflexivity|].
  split; [lia|]. repeat split; try reflexivity.
  intros events. apply orphaned_steps. unfold orphaned, ConfirmationModal.outcome. cbn.
  repeat split; [lia | intros [=]; lia | exact H1].
Qed.

Lemma confirm_single_slot_witness :
  let m2 := snd (ConfirmationModal.confirm None
                   (snd (ConfirmationModal.confirm duplicate_dialog ConfirmationModal.initial))) in
  ConfirmationModal.outcome 0%nat
    (ConfirmationModal.steps m2
       [ConfirmationModal.ClickConfirm; ConfirmationModal.ClickCancel;
        ConfirmationModal.Confirm None; ConfirmationModal.ClickCancel]) = None.
Proof.
  intros m2.
  assert (Hwf : ConfirmationModal.well_formed ConfirmationModal.initial).
  { split; [intros p _; apply lookup_empty | intros p [=]]. }
  exact (proj2 (proj2 (proj2 (proj2 (proj2 (proj2
           (confirm_single_slot ConfirmationModal.initial duplicate_dialog None Hwf))))))
           [ConfirmationModal.ClickConfirm; ConfirmationModal.ClickCancel;
            ConfirmationModal.Confirm None; ConfirmationModal.ClickCancel]).
Defined.

(** C9 as stated fails: after two calls of [confirm], the button
    resolves the second promise and the first one is still pending;
    the service holds no resolver any more, so another click changes
    nothing. *)
Lemma orphaned_promise_not_resolved :
  let m1 := snd (ConfirmationModal.confirm duplicate_dialog ConfirmationModal.initial) in
  let m2 := snd (ConfirmationModal.confirm None m1) in
  let clicked := ConfirmationModal.handleConfirm m2 in
  fst (ConfirmationModal.confirm duplicate_dialog ConfirmationModal.initial) = 0%nat
  /\ fst (ConfirmationModal.confirm None m1) = 1%nat
  /\ ConfirmationModal.config m2 = ConfirmationModal.DEFAULT_CONFIG
  /\ ConfirmationModal.outcome 1%nat clicked = Some true
  /\ ConfirmationModal.outcome 0%nat clicked = None
  /\ ConfirmationModal.resolveCallback clicked = None
  /\ ConfirmationModal.outcome 0%nat (ConfirmationModal.handleCancel clicked) = None.
Proof. vm_compute. repeat split; reflexivity. Qed.

(** ** Fingerprint generator *)

Section Fingerprint.
  Import Effects FingerprintService.
  Variable P : Platform.

Ltac run_fp :=
  unfold fresh, getCached, setCached, collectComponents, hashComponents,
    getItem, setItem, removeItem, Date_now, try_catch, throw, read, write,
    mbind, M_bind, mret, M_ret in *;
  cbn in *.

Lemma untouched_refl w : untouched_by_fingerprint w w.
Proof. split; [reflexivity | intros; reflexivity]. Qed.

Lemma untouched_trans w1 w2 w3 :
  untouched_by_fingerprint w1 w2 -> untouched_by_fingerprint w2 w3 ->
  untouched_by_fingerprint w1 w3.
Proof.
  intros [C1 S1] [C2 S2]. split; [congruence|].
  intros key Hkey. rewrite S2, S1 by assumption. reflexivity.
Qed.

Lemma getCached_spec (w : World) :
  exists r w',
    getCached P w = Ok r w'
    /\ untouched_by_fingerprint w w'
    /\ (r = None
        \/ exists text entry,
             sessionStorage w !! CACHE_KEY = Some text
             /\ JSON_parse_FingerprintCache P text = Some entry
             /\ r = Some (fc_fingerprint entry)).
Proof.
  destruct w as [st c f cr rr]. run_fp.
  destruct (st !! CACHE_KEY) as [text|] eqn:Ht; cbn.
  2: { eexists _, _. split; [reflexivity|]. split; [apply untouched_refl | now left]. }
  destruct (JS.falsy text); cbn.
  { eexists _, _. split; [reflexivity|]. split; [apply untouched_refl | now left]. }
  destruct (JSON_parse_FingerprintCache P text) as [entry|] eqn:Hp; cbn.
  2: { eexists _, _. split; [reflexivity|]. split; [apply untouched_refl | now left]. }
  destruct (CACHE_DURATION <? Date_now_at P cr - fc_timestamp entry); cbn.
  - eexists _, _. split; [reflexivity|]. split; [|now left].
    split; [reflexivity|]. intros key Hkey. cbn. apply lookup_delete_ne. congruence.
  - eexists _, _. split; [reflexivity|]. split; [|right; eauto].
    split; [reflexivity | intros; reflexivity].
Qed.

Lemma fresh_spec (w : World) :
  untouched_by_fingerprint w (world_of (fresh P w))
  /\ forall fp, returned (fresh P w) = Some fp ->
       fp = ""
       \/ exists components,
            collected_components P = Some components /\ sha256_hex P components = Some fp.
Proof.
  destruct w as [st c f cr rr]. run_fp.
  destruct (collected_components P) as [components|]; cbn.
  2: { split; [apply untouched_refl | intros ? [=]]. }
  destruct (sha256_hex P components) as [digest|] eqn:Hd; cbn.
  2: { split; [apply untouched_refl | intros ? [= <-]; now left]. }
  destruct (JS.falsy digest); cbn.
  { split; [apply untouched_refl | intros ? [= <-]; right; eauto]. }
  destruct (setItem_accepts P _ CACHE_KEY _); cbn.
  - split; [|intros ? [= <-]; right; eauto].
    split; [reflexivity|]. intros key Hkey. cbn. apply lookup_insert_ne. congruence.
  - split; [|intros ? [= <-]; right; eauto].
    split; [reflexivity | intros; reflexivity].
Qed.

(** [generate] always returns: the cached fingerprint, the digest of
    the components, or the empty string. It leaves the cart, and what
    the storage holds under any key but its own, as they were. *)
Lemma generate_returns (w : World) :
  exists fp w',
    generate P w = Ok fp w'
    /\ untouched_by_fingerprint w w'
    /\ (fp = ""
        \/ (exists text entry,
               sessionStorage w !! CACHE_KEY = Some text
               /\ JSON_parse_FingerprintCache P text = Some entry
               /\ fp = fc_fingerprint entry)
        \/ (exists components,
               collected_components P = Some components
               /\ sha256_hex P components = Some fp)).
Proof.
  destruct (getCached_spec w) as (r & w1 & Hg & Hu & Hr).
  unfold generate, try_catch, mbind, M_bind, mret, M_ret. rewrite Hg.
  assert (Hfresh : exists fp w',
             match fresh P w1 with Ok a w' => Ok a w' | Throw w' => Ok "" w' end = Ok fp w'
             /\ untouched_by_fingerprint w w'
             /\ (fp = "" \/ exists components,
                    collected_components P = Some components
                    /\ sha256_hex P components = Some fp)).
  { destruct (fresh_spec w1) as [Hu1 Hfp]. destruct (fresh P w1) as [fp w2|w2]; cbn in *.
    - exists fp, w2. split; [reflexivity|]. split; [eapply untouched_trans; eassumption|].
      now apply Hfp.
    - exists "", w2. split; [reflexivity|]. split; [eapply untouched_trans; eassumption|].
      now left. }
  destruct r as [fp|].
  - destruct (JS.falsy fp) eqn:Hf.
    + destruct Hfresh as (fp' & w' & E & Hu' & Hfp'). exists fp', w'.
      split; [exact E|]. split; [exact Hu'|]. destruct Hfp' as [->|H]; [now left|right; now right].
    + cbn. eexists _, _. split; [reflexivity|]. split.
      * destruct Hu as [Hc Hs]. split; [exact Hc | exact Hs].
      * destruct Hr as [[=]|(text & entry & Ht & Hp & [= ->])]. right. left. eauto.
  - destruct Hfresh as (fp' & w' & E & Hu' & Hfp'). exists fp', w'.
    split; [exact E|]. split; [exact Hu'|]. destruct Hfp' as [->|H]; [now left|right; now right].
Qed.
End Fingerprint.

(** ** Strings *)

Section Trim.

Lemma encode_not_empty (n : N) : JS.falsy (JS.encode n) = false.
Proof. unfold JS.encode. repeat case_match; reflexivity. Qed.

Lemma falsy_of_code_points (l : list N) :
  JS.falsy (JS.of_code_points l) = (List.length l =? 0)%nat.
Proof.
  destruct l as [|n l]; cbn; [reflexivity|].
  pose proof (encode_not_empty n) as H. destruct (JS.encode n); [discriminate H | reflexivity].
Qed.

Lemma trim_start_points_empty (l : list N) :
  (List.length (JS.trim_start_points l) =? 0)%nat = forallb JS.is_space l.
Proof.
  induction l as [|n l IH]; cbn; [reflexivity|].
  destruct (JS.is_space n); [exact IH | reflexivity].
Qed.

Lemma forallb_trim_start_points (l : list N) :
  forallb JS.is_space (JS.trim_start_points l) = forallb JS.is_space l.
Proof.
  induction l as [|n l IH]; cbn; [reflexivity|].
  destruct (JS.is_space n) eqn:Hn; cbn; [exact IH | now rewrite Hn].
Qed.

Lemma forallb_rev {A} (f : A -> bool) (l : list A) :
  forallb f (List.rev l) = forallb f l.
Proof.
  induction l as [|x l IH]; cbn; [reflexivity|].
  rewrite forallb_app, IH. cbn. rewrite andb_true_r. apply andb_comm.
Qed.

(** [!s.trim()] holds exactly of the strings of white space. *)
Lemma falsy_trim s : JS.falsy (JS.trim s) = blank s.
Proof.
  unfold JS.trim, JS.trim_points, blank.
  rewrite falsy_of_code_points, length_rev, trim_start_points_empty, forallb_rev.
  apply forallb_trim_start_points.
Qed.

Lemma trim_empty s : String.eqb (JS.trim s) "" = blank s.
Proof. rewrite <- falsy_trim. now destruct (JS.trim s). Qed.
End Trim.

(** ** Checkout wizard *)

Section CheckoutFacts.
  Import Async CheckoutWizard.

Example emailRegex_accepts : regex_test emailRegex "ana.perez@mail.example.com" = true.
Proof. reflexivity. Qed.

Example emailRegex_rejects :
  regex_test emailRegex "ana@example" = false
  /\ regex_test emailRegex "ana perez@example.com" = false
  /\ regex_test emailRegex "ana@@example.com" = false
  /\ regex_test emailRegex "@example.com" = false.
Proof. repeat split; reflexivity. Qed.

Example toDecimalPlaces2_half_up :
  Decimal.toDecimalPlaces2 (2345 # 1000) = 235 # 100
  /\ Decimal.toDecimalPlaces2 (2344 # 1000) = 234 # 100
  /\ Decimal.toDecimalPlaces2 (-2345 # 1000) = -235 # 100.
Proof. repeat split; reflexivity. Qed.

Example checkout_totals :
  let c := ui (checkout_at 3 "12345678" "ana@example.com") in
  Qeq (totalServices c) (150 # 1) /\ Qeq (totalCommissions c) (5 # 2)
  /\ Qeq (totalGeneral c) (305 # 2) /\ hasCommissions c = true.
Proof. repeat split; reflexivity. Qed.

Lemma validateCurrentStep_step (c : CheckoutWizard.t) :
  currentStep (snd (validateCurrentStep c)) = currentStep c.
Proof.
  unfold validateCurrentStep, validateBillingShipping. cbn.
  repeat (case_match; cbn); reflexivity.
Qed.

Lemma validateCurrentStep_passed (c : CheckoutWizard.t) :
  currentStep c = 3 -> fst (validateCurrentStep c) = true ->
  validateCurrentStep c = (true, clearErrors c).
Proof.
  intros Hstep. unfold validateCurrentStep.
  change (currentStep (clearErrors c)) with (currentStep c). rewrite Hstep.
  change (3 =? 1) with false. change (3 =? 2) with false. change (3 =? 3) with true.
  cbv iota. unfold validateBillingShipping.
  repeat (case_match; try (cbn; discriminate)); reflexivity.
Qed.

Lemma nextStep_from (c : CheckoutWizard.t) :
  currentStep c < 5 -> currentStep (nextStep c) = currentStep c + 1.
Proof.
  intros H. unfold nextStep, totalSteps. cbn.
  destruct (Z.ltb_spec (currentStep c) 5); [reflexivity | lia].
Qed.
End CheckoutFacts.

#[local] Arguments CheckoutWizard.includes : simpl never.
#[local] Arguments CheckoutWizard.nextStep : simpl never.

Section CheckoutValidation.
  Import Async CheckoutWizard.

Lemma falsy_eqb (s : string) : JS.falsy s = String.eqb s "".
Proof. now destruct s. Qed.

(** An address the pattern accepts has no white space at its start. *)
Lemma emailRegex_not_blank (email : string) :
  regex_test emailRegex email = true -> blank email = false.
Proof.
  unfold regex_test, blank. destruct (JS.code_points email) as [|a l]; cbn;
    [discriminate|].
  unfold not_space_nor_at. destruct (JS.is_space a); cbn; [discriminate | reflexivity].
Qed.

(** What the validation of step 3 says of a form whose address the
    pattern accepts. *)
Lemma validateCurrentStep_step3 (c : CheckoutWizard.t) :
  currentStep c = 3 ->
  regex_test emailRegex (correoElectronico (form c)) = true ->
  validateCurrentStep c
  = if hasCommissions c then
      if blank (razonSocial (form c))
      then (false, addError "La Razon Social es obligatoria" (clearErrors c))
      else if blank (documentoSIN (form c))
           then (false, addError "El numero de documento es obligatorio" (clearErrors c))
           else (true, clearErrors c)
    else (true, clearErrors c).
Proof.
  intros Hstep Hmail. pose proof (emailRegex_not_blank _ Hmail) as Hblank.
  unfold validateCurrentStep.
  change (currentStep (clearErrors c)) with (currentStep c). rewrite Hstep.
  change (3 =? 1) with false. change (3 =? 2) with false. change (3 =? 3) with true.
  cbv iota. unfold validateBillingShipping.
  change (form (clearErrors c)) with (form c).
  change (hasCommissions (clearErrors c)) with (hasCommissions c).
  rewrite !falsy_trim, Hblank, Hmail. reflexivity.
Qed.

Lemma validateCurrentStep_shape (c : CheckoutWizard.t) :
  validateCurrentStep c = (true, clearErrors c)
  \/ exists msg, validateCurrentStep c = (false, addError msg (clearErrors c)).
Proof.
  unfold validateCurrentStep, validateBillingShipping.
  repeat case_match; eauto.
Qed.

Lemma validateCurrentStep_billing (c : CheckoutWizard.t) :
  currentStep c = 3 -> hasCommissions c = true ->
  fst (validateCurrentStep c) = billing_valid c.
Proof.
  intros Hstep Hcom. unfold validateCurrentStep, billing_valid.
  change (currentStep (clearErrors c)) with (currentStep c). rewrite Hstep.
  change (3 =? 1) with false. change (3 =? 2) with false. change (3 =? 3) with true.
  cbv iota. unfold validateBillingShipping.
  change (form (clearErrors c)) with (form c).
  change (hasCommissions (clearErrors c)) with (hasCommissions c).
  rewrite !falsy_trim, Hcom.
  destruct (blank (correoElectronico (form c))); [reflexivity|].
  destruct (regex_test emailRegex (correoElectronico (form c))); [|reflexivity].
  destruct (blank (razonSocial (form c))); [reflexivity|].
  destruct (blank (documentoSIN (form c))); reflexivity.
Qed.

Lemma includes_special_NITs (doc : string) :
  includes special_NITs doc = reserved_NIT doc.
Proof.
  unfold includes, special_NITs, reserved_NIT. cbn [existsb].
  destruct (String.eqb doc "99001"), (String.eqb doc "99002"), (String.eqb doc "99003");
    reflexivity.
Qed.
End CheckoutValidation.

(** C5, as the wizard implements it. On the billing step, with
    commissions in the cart and a NIT as the tax document, advancing
    first validates the step: without an e-mail address of the right
    shape, a company name and a document number it stays on the step
    with one message and calls nothing. When the step is valid,
    advancing calls the backend to verify the NIT exactly when the
    number is not one of 99001, 99002, 99003 and the exception is not
    accepted; otherwise it moves to step 4 with no call. When the call
    answers that the NIT is not valid, the wizard offers the exception,
    and moves on if the exception is accepted by then; it stays on the
    step if not. *)
Theorem nit_verification_gate
    (s : CheckoutWizard.Sys)
    (backend : forall r, Async.Outcome (CheckoutWizard.Resp r)) :
  billing_with_NIT (CheckoutWizard.ui s) ->
  let c := CheckoutWizard.ui s in
  let doc := CheckoutWizard.documentoSIN (CheckoutWizard.form c) in
  let task := CheckoutWizard.handleNextStep s in
  fst (CheckoutWizard.validateCurrentStep c) = billing_valid c
  /\ (billing_valid c = false ->
      Async.requests backend task = []
      /\ exists s', task = Async.Done s'
                    /\ CheckoutWizard.currentStep (CheckoutWizard.ui s') = 3
                    /\ List.length (CheckoutWizard.errors (CheckoutWizard.ui s')) = 1%nat)
  /\ (billing_valid c = true ->
      (In (CheckoutWizard.verifyNIT doc) (Async.requests backend task)
       <-> (doc <> "99001" /\ doc <> "99002" /\ doc <> "99003")
           /\ CheckoutWizard.excepcionNIT (CheckoutWizard.form c) <> "true")
      /\ (nit_bypass c = true ->
          Async.requests backend task = []
          /\ exists s', task = Async.Done s'
                        /\ CheckoutWizard.currentStep (CheckoutWizard.ui s') = 4)
      /\ (nit_bypass c = false ->
          Async.requests backend task = [CheckoutWizard.verifyNIT doc]
          /\ exists waiting k,
               task = Async.Await waiting (CheckoutWizard.verifyNIT doc) k
               /\ CheckoutWizard.currentStep (CheckoutWizard.ui waiting) = 3
               /\ forall response later,
                    CheckoutWizard.currentStep (CheckoutWizard.ui later) = 3 ->
                    exists final,
                      k (Async.Next response) later = Async.Done final
                      /\ (CheckoutWizard.nit_valid response = true ->
                          CheckoutWizard.currentStep (CheckoutWizard.ui final) = 4)
                      /\ (CheckoutWizard.nit_valid response = false ->
                          CheckoutWizard.excepcionNIT
                            (CheckoutWizard.form (CheckoutWizard.ui later)) = "true" ->
                          CheckoutWizard.currentStep (CheckoutWizard.ui final) = 4)
                      /\ (CheckoutWizard.nit_valid response = false ->
                          CheckoutWizard.excepcionNIT
                            (CheckoutWizard.form (CheckoutWizard.ui later)) <> "true" ->
                          CheckoutWizard.currentStep (CheckoutWizard.ui final) = 3
                          /\ CheckoutWizard.showExceptionNIT (CheckoutWizard.ui final) = true
                          /\ CheckoutWizard.errors (CheckoutWizard.ui final)
                             = (CheckoutWizard.errors (CheckoutWizard.ui later)
                                  ++ ["NIT invalido. Confirme si se realiza Excepcion de registro con ese NIT"])%list))).
Proof.
  intros (Hstep & Hcom & Hdoc) c doc task. subst c doc task.
  pose proof (validateCurrentStep_billing _ Hstep Hcom) as Hbill.
  split; [exact Hbill|].
  assert (Hreserved : forall d,
             reserved_NIT d = false <-> d <> "99001" /\ d <> "99002" /\ d <> "99003").
  { intros d. unfold reserved_NIT.
    destruct (String.eqb_spec d "99001"), (String.eqb_spec d "99002"),
      (String.eqb_spec d "99003"); cbn; split; try tauto; try discriminate;
      intros (H1 & H2 & H3); congruence. }
  unfold nit_bypass, CheckoutWizard.handleNextStep.
  destruct s as [c w m]. cbn [CheckoutWizard.ui CheckoutWizard.world
                                CheckoutWizard.errorModal] in *.
  split.
  { intros Hinvalid. rewrite Hinvalid in Hbill.
    destruct (validateCurrentStep_shape c) as [E | [msg E]]; rewrite E in *;
      [discriminate Hbill|].
    cbn. split; [reflexivity|]. eexists. split; [reflexivity|]. cbn.
    split; [exact Hstep | reflexivity]. }
  intros Hvalid. rewrite Hvalid in Hbill.
  rewrite (validateCurrentStep_passed c Hstep Hbill).
  change (CheckoutWizard.hasCommissions (CheckoutWizard.clearErrors c))
    with (CheckoutWizard.hasCommissions c) in *.
  cbn. rewrite Hstep, Hcom, Hdoc. cbn.
  unfold CheckoutWizard.validateNIT. cbn. rewrite Hdoc. cbn.
  rewrite includes_special_NITs.
  destruct (reserved_NIT (CheckoutWizard.documentoSIN (CheckoutWizard.form c))) eqn:Hin; cbn.
  { split; [split; [intros [] | intros [Hr _]; apply Hreserved in Hr; congruence]|].
    split; [|intros [=]]. intros _. split; [reflexivity|].
    eexists. split; [reflexivity|]. cbn.
    rewrite nextStep_from; cbn; rewrite Hstep; [reflexivity | lia]. }
  apply Hreserved in Hin.
  destruct (String.eqb_spec (CheckoutWizard.excepcionNIT (CheckoutWizard.form c)) "true")
    as [He|He]; cbn.
  { split; [split; [intros [] | intros [_ Hn]; contradiction]|].
    split; [|intros [=]]. intros _. split; [reflexivity|].
    eexists. split; [reflexivity|]. cbn.
    rewrite nextStep_from; cbn; rewrite Hstep; [reflexivity | lia]. }
  split.
  { split; [intros _; split; [exact Hin | exact He]|].
    intros _. left. reflexivity. }
  split; [intros [=]|]. intros _.
  split.
  { destruct (backend _) as [response|e]; cbn.
    - destruct (CheckoutWizard.nit_valid response); cbn; [reflexivity|].
      destruct (String.eqb _ "true"); reflexivity.
    - reflexivity. }
  eexists _, _. split; [reflexivity|]. split; [exact Hstep|].
  intros response later Hlater. destruct later as [c' w' m']. cbn in *.
  destruct (CheckoutWizard.nit_valid response) eqn:Hnv; cbn.
  - eexists. split; [reflexivity|]. cbn.
    split; [|split; intros [=]]. intros _.
    rewrite nextStep_from; cbn; rewrite Hlater; [reflexivity | lia].
  - destruct (String.eqb_spec (CheckoutWizard.excepcionNIT (CheckoutWizard.form c')) "true")
      as [He'|He'].
    + eexists. split; [reflexivity|]. cbn.
      split; [intros [=]|]. split; [|intros _ Hne; contradiction]. intros _ _.
      rewrite nextStep_from; cbn; rewrite Hlater; [reflexivity | lia].
    + eexists. split; [reflexivity|]. cbn.
      split; [intros [=]|]. split; [intros _ Hacc; contradiction|]. intros _ _.
      repeat split; first [exact Hlater | reflexivity].
Qed.

Lemma nit_verification_gate_witness :
  Async.requests paying_backend
    (CheckoutWizard.handleNextStep (checkout_at 3 "12345678" "ana@example.com"))
    = [CheckoutWizard.verifyNIT "12345678"]
  /\ Async.requests paying_backend
       (CheckoutWizard.handleNextStep (checkout_at 3 "99002" "ana@example.com")) = [].
Proof.
  assert (H1 : billing_with_NIT
                 (CheckoutWizard.ui (checkout_at 3 "12345678" "ana@example.com")))
    by (repeat split; reflexivity).
  assert (H2 : billing_with_NIT
                 (CheckoutWizard.ui (checkout_at 3 "99002" "ana@example.com")))
    by (repeat split; reflexivity).
  assert (V1 : billing_valid
                 (CheckoutWizard.ui (checkout_at 3 "12345678" "ana@example.com")) = true)
    by (vm_compute; reflexivity).
  assert (V2 : billing_valid
                 (CheckoutWizard.ui (checkout_at 3 "99002" "ana@example.com")) = true)
    by (vm_compute; reflexivity).
  split.
  - exact (proj1 (proj2 (proj2 (proj2 (proj2 (nit_verification_gate _ paying_backend H1))
                                  V1)) eq_refl)).
  - exact (proj1 (proj1 (proj2 (proj2 (proj2 (nit_verification_gate _ paying_backend H2))
                                  V2)) eq_refl)).
Defined.

(** C5 as stated fails: on the billing step, with commissions, a NIT
    whose number is not reserved and no exception accepted, but with no
    e-mail address in the form, advancing sends nothing to the backend
    and stays on step 3. *)
Lemma nit_gate_blocked_by_validation :
  let s := checkout_at 3 "12345678" "" in
  let task := CheckoutWizard.handleNextStep s in
  billing_with_NIT (CheckoutWizard.ui s)
  /\ nit_bypass (CheckoutWizard.ui s) = false
  /\ Async.requests paying_backend task = []
  /\ CheckoutWizard.currentStep (CheckoutWizard.ui (Async.run paying_backend task)) = 3
  /\ CheckoutWizard.errors (CheckoutWizard.ui (Async.run paying_backend task))
     = ["El correo electronico es obligatorio"].
Proof. vm_compute. repeat split; reflexivity. Qed.

Section Payment.
  Import Async CheckoutWizard.

Lemma payment_request_loading f (c : CheckoutWizard.t) b fp :
  payment_request f (set_loading b c) fp = payment_request f c fp.
Proof. reflexivity. Qed.

Lemma handleApiError_frame e msg (s : Sys) :
  let s' := handleApiError e msg s in
  currentStep (ui s') = currentStep (ui s)
  /\ qrData (ui s') = qrData (ui s)
  /\ loading (ui s') = loading (ui s)
  /\ world s' = world s
  /\ ((exists m, errors (ui s') = (errors (ui s) ++ [m])%list)
      \/ ErrorModal.isVisible (errorModal s') = true).
Proof.
  unfold handleApiError, ErrorModal.handleHttpError.
  destruct (ErrorModal.extractApiError e) as [api|]; cbn.
  - destruct (ErrorModal.error_type_of _); cbn.
    + repeat split. now right.
    + repeat split. left. eauto.
  - repeat split. left. eauto.
Qed.
End Payment.

(** What a run of [processPayment] does, from any step. *)
Lemma processPayment_run
    (P : Effects.Platform)
    (backend : forall r, Async.Outcome (CheckoutWizard.Resp r))
    (s : CheckoutWizard.Sys) :
  CheckoutWizard.loading (CheckoutWizard.ui s) = false ->
  let task := CheckoutWizard.processPayment s in
  let final := Async.run_with (CheckoutWizard.handler P backend) task in
  let sent := Async.requests_with (CheckoutWizard.handler P backend) task in
  (submittable (CheckoutWizard.ui s) = false ->
   sent = []
   /\ exists msg, final = CheckoutWizard.on_ui (CheckoutWizard.addError msg) s)
  /\ (submittable (CheckoutWizard.ui s) = true ->
      exists fp w1,
        FingerprintService.generate P (CheckoutWizard.world s) = Effects.Ok fp w1
        /\ (fp = ""
            \/ (exists text entry,
                   Effects.sessionStorage (CheckoutWizard.world s)
                     !! FingerprintService.CACHE_KEY = Some text
                   /\ Effects.JSON_parse_FingerprintCache P text = Some entry
                   /\ fp = Effects.fc_fingerprint entry)
            \/ (exists components,
                   Effects.collected_components P = Some components
                   /\ Effects.sha256_hex P components = Some fp))
        /\ let request :=
             CheckoutWizard.payment_request
               (CheckoutWizard.form (CheckoutWizard.ui s)) (CheckoutWizard.ui s) fp in
           sent = [CheckoutWizard.fingerprint_generate; CheckoutWizard.generateQRcode request]
           /\ CheckoutWizard.browserFingerprint request = fp
           /\ CheckoutWizard.pr_itemsCarrito request
              = CheckoutWizard.itemsCart (CheckoutWizard.ui s)
           /\ CheckoutWizard.pr_totalGeneral request
              = CheckoutWizard.totalGeneral (CheckoutWizard.ui s)
           /\ CheckoutWizard.pr_correoElectronico request
              = CheckoutWizard.correoElectronico (CheckoutWizard.form (CheckoutWizard.ui s))
           /\ CheckoutWizard.loading (CheckoutWizard.ui final) = false
           /\ match payment_accepted (backend (CheckoutWizard.generateQRcode request)) with
              | Some data =>
                  CheckoutWizard.currentStep (CheckoutWizard.ui final) = 5
                  /\ CheckoutWizard.qrData (CheckoutWizard.ui final) = data
                  /\ CartService.items (CheckoutWizard.world final) = []
                  /\ Effects.sessionStorage (CheckoutWizard.world final)
                       !! CartService.STORAGE_KEY = None
              | None =>
                  CheckoutWizard.currentStep (CheckoutWizard.ui final)
                  = CheckoutWizard.currentStep (CheckoutWizard.ui s)
                  /\ CheckoutWizard.qrData (CheckoutWizard.ui final)
                     = CheckoutWizard.qrData (CheckoutWizard.ui s)
                  /\ Effects.cart (CheckoutWizard.world final)
                     = Effects.cart (CheckoutWizard.world s)
                  /\ Effects.sessionStorage (CheckoutWizard.world final)
                       !! CartService.STORAGE_KEY
                     = Effects.sessionStorage (CheckoutWizard.world s)
                         !! CartService.STORAGE_KEY
                  /\ error_surfaced s final
              end).
Proof.
  intros Hload task final sent. subst task final sent.
  unfold submittable, CheckoutWizard.processPayment. rewrite Hload. cbn [negb andb].
  destruct (JS.falsy (JS.trim _)) eqn:Hmail; cbn [negb andb].
  { split; [|intros [=]]. intros _. split; [reflexivity | eexists; reflexivity]. }
  destruct (String.eqb _ "Q") eqn:Hq; cbn [negb andb].
  2: { split; [|intros [=]]. intros _. split; [reflexivity | eexists; reflexivity]. }
  split; [intros [=]|]. intros _.
  destruct (generate_returns P (CheckoutWizard.world s)) as (fp & w1 & Hg & [Hc Hs] & Hfp).
  exists fp, w1. split; [exact Hg|]. split; [exact Hfp|]. clear Hfp.
  destruct s as [c w m]. cbn in *. rewrite Hg. cbn.
  rewrite !payment_request_loading.
  destruct (backend _) as [response|e] eqn:Hb; cbn.
  - destruct response as [[[] [[v q]|]]|]; cbn.
    + repeat split. apply lookup_delete_eq.
    + repeat split; try assumption.
      * apply Hs. discriminate.
      * left. eexists. reflexivity.
    + repeat split; try assumption.
      * apply Hs. discriminate.
      * left. eexists. reflexivity.
    + repeat split; try assumption.
      * apply Hs. discriminate.
      * left. eexists. reflexivity.
    + repeat split; try assumption.
      * apply Hs. discriminate.
      * left. eexists. reflexivity.
  - match goal with
    | |- context [CheckoutWizard.handleApiError e ?msg ?st] =>
        destruct (handleApiError_frame e msg st) as (F1 & F2 & F3 & F4 & F5)
    end.
    cbn in *. rewrite F1, F2, F4. cbn.
    repeat split; first [assumption | apply Hs; discriminate | exact F5].
Qed.


(** C6. A payment submission that passes its guards runs in sequence:
    the fingerprint generator returns (the cached fingerprint, a digest
    or the empty string), then the payment request is built and sent:
    the payment method, the document and the billing fields of the
    form, the items on display, their totals rounded to two decimals,
    the exception as "1" or "0", the telephone or "0" when there is
    none, and that fingerprint. When the backend accepts, the QR data
    are stored, the cart is cleared and the wizard is on step 5. In
    every other case an error is shown and the wizard stays on step 4
    with the cart and the QR data as they were. A submission stopped by
    a guard sends nothing and only adds its message. *)
Theorem processPayment_pipeline
    (P : Effects.Platform)
    (backend : forall r, Async.Outcome (CheckoutWizard.Resp r))
    (s : CheckoutWizard.Sys) :
  CheckoutWizard.loading (CheckoutWizard.ui s) = false ->
  CheckoutWizard.currentStep (CheckoutWizard.ui s) = 4 ->
  let task := CheckoutWizard.processPayment s in
  let final := Async.run_with (CheckoutWizard.handler P backend) task in
  let sent := Async.requests_with (CheckoutWizard.handler P backend) task in
  let f := CheckoutWizard.form (CheckoutWizard.ui s) in
  let shown := CheckoutWizard.itemsCart (CheckoutWizard.ui s) in
  let services :=
    Decimal.toDecimalPlaces2 (Decimal.sum (List.map Models.totalServicio shown)) in
  let commissions :=
    Decimal.toDecimalPlaces2 (Decimal.sum (List.map Models.totalComision shown)) in
  (submittable (CheckoutWizard.ui s) = false ->
   sent = []
   /\ exists msg, final = CheckoutWizard.on_ui (CheckoutWizard.addError msg) s)
  /\ (submittable (CheckoutWizard.ui s) = true ->
      exists fp w1,
        FingerprintService.generate P (CheckoutWizard.world s) = Effects.Ok fp w1
        /\ (fp = ""
            \/ (exists text entry,
                   Effects.sessionStorage (CheckoutWizard.world s)
                     !! FingerprintService.CACHE_KEY = Some text
                   /\ Effects.JSON_parse_FingerprintCache P text = Some entry
                   /\ fp = Effects.fc_fingerprint entry)
            \/ (exists components,
                   Effects.collected_components P = Some components
                   /\ Effects.sha256_hex P components = Some fp))
        /\ let request :=
             {| CheckoutWizard.pr_medioPago := CheckoutWizard.medioPago f;
                CheckoutWizard.pr_itemsCarrito := shown;
                CheckoutWizard.pr_totalServicios := services;
                CheckoutWizard.pr_totalComisiones := commissions;
                CheckoutWizard.pr_totalGeneral :=
                  Decimal.toDecimalPlaces2 (Qplus services commissions);
                CheckoutWizard.pr_tipoDocumento := CheckoutWizard.tipoDocumento f;
                CheckoutWizard.pr_documentoSIN := CheckoutWizard.documentoSIN f;
                CheckoutWizard.pr_complementoSIN := CheckoutWizard.complementoSIN f;
                CheckoutWizard.pr_excepcionNIT :=
                  if String.eqb (CheckoutWizard.excepcionNIT f) "true" then "1" else "0";
                CheckoutWizard.pr_razonSocial := CheckoutWizard.razonSocial f;
                CheckoutWizard.pr_correoElectronico := CheckoutWizard.correoElectronico f;
                CheckoutWizard.pr_numeroTelefono :=
                  if String.eqb (CheckoutWizard.numeroTelefono f) ""
                  then "0" else CheckoutWizard.numeroTelefono f;
                CheckoutWizard.browserFingerprint := fp |} in
           sent = [CheckoutWizard.fingerprint_generate; CheckoutWizard.generateQRcode request]
           /\ CheckoutWizard.loading (CheckoutWizard.ui final) = false
           /\ match payment_accepted (backend (CheckoutWizard.generateQRcode request)) with
              | Some data =>
                  CheckoutWizard.currentStep (CheckoutWizard.ui final) = 5
                  /\ CheckoutWizard.qrData (CheckoutWizard.ui final) = data
                  /\ CartService.items (CheckoutWizard.world final) = []
                  /\ Effects.sessionStorage (CheckoutWizard.world final)
                       !! CartService.STORAGE_KEY = None
              | None =>
                  CheckoutWizard.currentStep (CheckoutWizard.ui final) = 4
                  /\ CheckoutWizard.qrData (CheckoutWizard.ui final)
                     = CheckoutWizard.qrData (CheckoutWizard.ui s)
                  /\ Effects.cart (CheckoutWizard.world final)
                     = Effects.cart (CheckoutWizard.world s)
                  /\ Effects.sessionStorage (CheckoutWizard.world final)
                       !! CartService.STORAGE_KEY
                     = Effects.sessionStorage (CheckoutWizard.world s)
                         !! CartService.STORAGE_KEY
                  /\ error_surfaced s final
              end).
Proof.
  intros Hload Hstep task final sent f shown services commissions.
  destruct (processPayment_run P backend s Hload) as [Hguard Hrun].
  split; [exact Hguard|]. intros Hsub.
  destruct (Hrun Hsub) as (fp & w1 & Hg & Hfp & Hreq).
  exists fp, w1. split; [exact Hg|]. split; [exact Hfp|].
  assert (Hbuilt :
            CheckoutWizard.payment_request (CheckoutWizard.form (CheckoutWizard.ui s))
              (CheckoutWizard.ui s) fp
            = {| CheckoutWizard.pr_medioPago := CheckoutWizard.medioPago f;
                 CheckoutWizard.pr_itemsCarrito := shown;
                 CheckoutWizard.pr_totalServicios := services;
                 CheckoutWizard.pr_totalComisiones := commissions;
                 CheckoutWizard.pr_totalGeneral :=
                   Decimal.toDecimalPlaces2 (Qplus services commissions);
                 CheckoutWizard.pr_tipoDocumento := CheckoutWizard.tipoDocumento f;
                 CheckoutWizard.pr_documentoSIN := CheckoutWizard.documentoSIN f;
                 CheckoutWizard.pr_complementoSIN := CheckoutWizard.complementoSIN f;
                 CheckoutWizard.pr_excepcionNIT :=
                   if String.eqb (CheckoutWizard.excepcionNIT f) "true" then "1" else "0";
                 CheckoutWizard.pr_razonSocial := CheckoutWizard.razonSocial f;
                 CheckoutWizard.pr_correoElectronico := CheckoutWizard.correoElectronico f;
                 CheckoutWizard.pr_numeroTelefono :=
                   if String.eqb (CheckoutWizard.numeroTelefono f) ""
                   then "0" else CheckoutWizard.numeroTelefono f;
                 CheckoutWizard.browserFingerprint := fp |}).
  { unfold CheckoutWizard.payment_request. subst f.
    destruct (CheckoutWizard.numeroTelefono (CheckoutWizard.form (CheckoutWizard.ui s)));
      reflexivity. }
  cbv zeta in Hreq. rewrite Hbuilt in Hreq.
  destruct Hreq as (Hsent & _ & _ & _ & _ & Hl & Hout).
  split; [exact Hsent|]. split; [exact Hl|].
  destruct (payment_accepted _); [exact Hout|].
  rewrite <- Hstep. exact Hout.
Qed.

Lemma processPayment_pipeline_witness :
  let s := checkout_at 4 "99002" "ana@example.com" in
  let final := Async.run_with (CheckoutWizard.handler demo_platform paying_backend)
                 (CheckoutWizard.processPayment s) in
  CheckoutWizard.currentStep (CheckoutWizard.ui final) = 5
  /\ CartService.items (CheckoutWizard.world final) = []
  /\ CartService.items (CheckoutWizard.world s) <> [].
Proof.
  intros s final.
  destruct (proj2 (processPayment_pipeline demo_platform paying_backend s eq_refl eq_refl)
              eq_refl) as (fp & w1 & Hg & _ & _ & _ & H).
  cbv beta iota delta [payment_accepted paying_backend] in H.
  destruct H as (H5 & _ & Hitems & _).
  split; [exact H5|]. split; [exact Hitems|]. vm_compute. discriminate.
Defined.

(** C2, as the component implements it. [prevStep] on step 5 changes
    nothing, and [processPayment] ends on step 5 exactly when the
    backend accepts the payment. But the forward navigation of the
    component also goes from step 4 to step 5: [nextStep] moves on
    whenever the step is below 5, so [handleNextStep] and
    [handleProcessPaymentClick] on step 4 end on step 5 with no call to
    the backend. *)
Theorem step5_paths
    (P : Effects.Platform)
    (backend : forall r, Async.Outcome (CheckoutWizard.Resp r))
    (s : CheckoutWizard.Sys) :
  (CheckoutWizard.currentStep (CheckoutWizard.ui s) = 5 ->
   CheckoutWizard.prevStep (CheckoutWizard.ui s) = CheckoutWizard.ui s)
  /\ (CheckoutWizard.currentStep (CheckoutWizard.ui s) <> 5 ->
      let final := Async.run_with (CheckoutWizard.handler P backend)
                     (CheckoutWizard.processPayment s) in
      CheckoutWizard.currentStep (CheckoutWizard.ui final) = 5
      <-> submittable (CheckoutWizard.ui s) = true
          /\ exists fp w1 data,
               FingerprintService.generate P (CheckoutWizard.world s) = Effects.Ok fp w1
               /\ payment_accepted
                    (backend (CheckoutWizard.generateQRcode
                                (CheckoutWizard.payment_request
                                   (CheckoutWizard.form (CheckoutWizard.ui s))
                                   (CheckoutWizard.ui s) fp)))
                  = Some data)
  /\ (CheckoutWizard.currentStep (CheckoutWizard.ui s) = 4 ->
      let task := CheckoutWizard.handleNextStep s in
      Async.requests_with (CheckoutWizard.handler P backend) task = []
      /\ CheckoutWizard.currentStep
           (CheckoutWizard.ui (Async.run_with (CheckoutWizard.handler P backend) task)) = 5
      /\ CheckoutWizard.currentStep
           (CheckoutWizard.handleProcessPaymentClick (CheckoutWizard.ui s)) = 5).
Proof.
  split; [|split].
  - intros H5. unfold CheckoutWizard.prevStep. rewrite H5. reflexivity.
  - intros Hne final. subst final.
    destruct (CheckoutWizard.loading (CheckoutWizard.ui s)) eqn:Hload.
    { unfold CheckoutWizard.processPayment, submittable. rewrite Hload. cbn.
      split; [intros H; contradiction | intros [[=] _]]. }
    destruct (processPayment_run P backend s Hload) as [Hguard Hrun].
    destruct (submittable (CheckoutWizard.ui s)) eqn:Hsub.
    + destruct (Hrun eq_refl) as (fp & w1 & Hg & _ & _ & _ & _ & _ & _ & _ & Hout). split.
      * intros H5. split; [reflexivity|].
        destruct (payment_accepted _) as [data|] eqn:Hacc.
        -- exists fp, w1, data. split; [exact Hg | exact Hacc].
        -- destruct Hout as [Hsame _]. rewrite Hsame in H5. contradiction.
      * intros [_ (fp' & w1' & data & Hg' & Hacc)].
        rewrite Hg in Hg'. injection Hg' as <- <-.
        rewrite Hacc in Hout. apply Hout.
    + destruct (Hguard eq_refl) as [_ [msg ->]]. cbn.
      split; [intros H; contradiction | intros [[=] _]].
  - intros H4 task. subst task.
    unfold CheckoutWizard.handleNextStep, CheckoutWizard.validateCurrentStep.
    change (CheckoutWizard.currentStep (CheckoutWizard.clearErrors (CheckoutWizard.ui s)))
      with (CheckoutWizard.currentStep (CheckoutWizard.ui s)).
    rewrite H4. cbn. rewrite !H4. cbn. repeat split.
    + rewrite nextStep_from; cbn; rewrite H4; [reflexivity | lia].
    + rewrite nextStep_from; rewrite H4; [reflexivity | lia].
Qed.

Lemma step5_paths_witness :
  let s := checkout_at 5 "99002" "ana@example.com" in
  CheckoutWizard.prevStep (CheckoutWizard.ui s) = CheckoutWizard.ui s.
Proof.
  intros s.
  exact (proj1 (step5_paths demo_platform paying_backend s) eq_refl).
Defined.

(** C2 as stated fails: on step 4, with a backend that answers
    nothing, [handleNextStep] sends no request and ends on step 5. *)
Lemma step5_without_payment :
  let s := checkout_at 4 "99002" "ana@example.com" in
  let task := CheckoutWizard.handleNextStep s in
  CheckoutWizard.currentStep (CheckoutWizard.ui s) = 4
  /\ Async.requests_with (CheckoutWizard.handler demo_platform offline_backend) task = []
  /\ CheckoutWizard.currentStep
       (CheckoutWizard.ui
          (Async.run_with (CheckoutWizard.handler demo_platform offline_backend) task)) = 5
  /\ CartService.items
       (CheckoutWizard.world
          (Async.run_with (CheckoutWizard.handler demo_platform offline_backend) task)) <> [].
Proof. vm_compute. repeat split; try reflexivity. discriminate. Qed.

(** * Further properties *)

(** ** Cart store: lookups *)

Section CartLookups.
  Import Models Effects CartService.
  Implicit Types (w : World) (l : list ItemCarrito).

Lemma findIndex_none {A} (p : A -> bool) (l : list A) : forall from,
  0 <= from ->
  (findIndex p from l = -1 <-> Forall (fun x => p x = false) l).
Proof.
  induction l as [|x l IH]; intros from Hfrom; cbn.
  - split; [constructor | reflexivity].
  - destruct (p x) eqn:Hp.
    + split; [lia|]. intros H. apply Forall_cons in H as [H _]. congruence.
    + rewrite IH by lia. split; [now constructor|].
      intros H. now apply Forall_cons in H as [_ H].
Qed.

Lemma findIndex_found {A} (p : A -> bool) (l : list A) : forall from r,
  0 <= from -> findIndex p from l = r -> r <> -1 ->
  from <= r < from + Z.of_nat (List.length l)
  /\ (exists x, l !! Z.to_nat (r - from) = Some x /\ p x = true)
  /\ forall (j : nat) y, (j < Z.to_nat (r - from))%nat -> l !! j = Some y -> p y = false.
Proof.
  induction l as [|x l IH]; intros from r Hfrom Hr Hne; cbn in *; [congruence|].
  destruct (p x) eqn:Hp.
  - subst r. rewrite Z.sub_diag. cbn. split; [lia|]. split; [eauto|]. intros j y Hj. lia.
  - destruct (IH (from + 1) r ltac:(lia) Hr Hne) as (Hrange & (y & Hy & Hpy) & Hbefore).
    split; [lia|].
    replace (Z.to_nat (r - from)) with (S (Z.to_nat (r - (from + 1)))) by lia.
    split; [exists y; auto|].
    intros [|j] z Hj Hz; cbn in Hz.
    + now injection Hz as <-.
    + eapply Hbefore; [|exact Hz]. lia.
Qed.
End CartLookups.

(** X1. [findDuplicateIndex] returns -1 exactly when no item of the
    cart has the given service alias and contract code; otherwise it
    returns the position of the first item that has both. It changes
    nothing. *)
Theorem findDuplicateIndex_first_match
    (w : Effects.World) (alias contrato : string) :
  let same item := Models.aliasServicio item = alias /\ Models.codigoContrato item = contrato in
  exists r,
    CartService.findDuplicateIndex alias contrato w = Effects.Ok r w
    /\ (r = -1 <-> Forall (fun item => ~ same item) (CartService.items w))
    /\ (r <> -1 ->
        0 <= r < Z.of_nat (List.length (CartService.items w))
        /\ (exists item, CartService.items w !! Z.to_nat r = Some item /\ same item)
        /\ forall (j : nat) item,
             (j < Z.to_nat r)%nat -> CartService.items w !! j = Some item -> ~ same item).
Proof.
  intros same.
  set (p := fun item : Models.ItemCarrito =>
              String.eqb (Models.aliasServicio item) alias
              && String.eqb (Models.codigoContrato item) contrato).
  exists (CartService.findIndex p 0 (CartService.items w)). split; [reflexivity|].
  assert (Hp : forall item, p item = true <-> same item).
  { intros item. unfold p, same. rewrite andb_true_iff, !String.eqb_eq. reflexivity. }
  assert (Hn : forall item, p item = false <-> ~ same item).
  { intros item. rewrite <- Hp. destruct (p item); split; congruence. }
  split.
  - rewrite (findIndex_none p) by lia. rewrite !Forall_forall.
    split; intros H x Hx; apply Hn; auto.
  - intros Hne.
    destruct (findIndex_found p (CartService.items w) 0 _ ltac:(lia) eq_refl Hne)
      as (Hr & (x & Hx & Hpx) & Hbefore).
    rewrite Z.sub_0_r in *. split; [lia|]. split.
    + exists x. split; [exact Hx | now apply Hp].
    + intros j item Hj Hitem. apply Hn. eauto.
Qed.

(** X2. On a cart that is in one currency, [canAddItemWithCurrency]
    accepts a currency exactly when every item of the cart has it (an
    empty cart accepts any), and reports the currency of the first
    item. *)
Theorem canAddItemWithCurrency_sound (w : Effects.World) (moneda : string) :
  CartService.same_currency (CartService.items w) = true ->
  exists canAdd,
    CartService.canAddItemWithCurrency moneda w
      = Effects.Ok (canAdd, CartService.cartCurrency w) w
    /\ (canAdd = true <-> currency_is moneda (CartService.items w)).
Proof.
  intros Hinv. unfold CartService.canAddItemWithCurrency, Effects.read,
    CartService.cartCurrency.
  destruct (CartService.items w) as [|first rest] eqn:Hitems.
  - exists true. split; [reflexivity|]. split; [constructor | reflexivity].
  - eexists. split; [reflexivity|].
    apply same_currency_spec in Hinv as [cur Hcur].
    pose proof Hcur as [Hfirst Hrest]%Forall_cons.
    rewrite String.eqb_eq. split.
    + intros <-. now rewrite Hfirst.
    + intros [H _]%Forall_cons. exact H.
Qed.

Lemma canAddItemWithCurrency_sound_witness :
  exists canAdd,
    CartService.canAddItemWithCurrency "USD" one_item_world
      = Effects.Ok (canAdd, Some "Bs.") one_item_world
    /\ (canAdd = true <-> currency_is "USD" (CartService.items one_item_world)).
Proof.
  exact (canAddItemWithCurrency_sound one_item_world "USD" eq_refl).
Defined.

(** ** Cart store: mutations *)

Section CartMutations.
  Import Models Effects CartService.
  Variable P : Platform.
  Implicit Types (w : World) (item : ItemCarrito).

Lemma filter_index_delete {A} (l : list A) : forall from index,
  from <= index -> filter_index from index l = delete (Z.to_nat (index - from)) l.
Proof.
  induction l as [|x l IH]; intros from index H; cbn; [reflexivity|].
  destruct (Z.eqb_spec from index) as [->|Hne].
  - rewrite Z.sub_diag. cbn. apply filter_index_out. lia.
  - replace (Z.to_nat (index - from)) with (S (Z.to_nat (index - (from + 1)))) by lia.
    cbn. f_equal. apply IH. lia.
Qed.

Lemma removeItem_items_filter w index :
  items (world_of (CartService.removeItem P index w)) = filter_index 0 index (items w).
Proof.
  destruct w as [st [c|] fp cr rr]; run_m; unfold items; cbn; [|reflexivity].
  destruct (filter_index 0 index (Models.items c)) as [|y l] eqn:Hf; cbn;
    [symmetry; exact Hf|].
  destruct (setItem_accepts P _ _ _); cbn; symmetry; exact Hf.
Qed.

(** What [addItem] has done when it returns [true]. *)
Lemma addItem_true w item :
  returned (addItem P item w) = Some true ->
  exists c',
    cart (world_of (addItem P item w)) = Some c'
    /\ Models.items c' = (items w ++ [item])%list
    /\ sessionStorage (world_of (addItem P item w)) !! STORAGE_KEY
       = Some (JSON_stringify_Carrito P c')
    /\ sessionStorage (world_of (addItem P item w)) !! SESSION_KEY = Some (sessionId c')
    /\ JS.falsy (sessionId c') = false
    /\ (forall c, cart w = Some c -> createdAt c' = createdAt c).
Proof.
  destruct w as [st c0 fp cr rr]. run_m. unfold items. cbn.
  assert (Hne : STORAGE_KEY <> SESSION_KEY) by discriminate.
  assert (Hfresh : forall (n : Z) r, JS.falsy (pretty n +:+ "-" +:+ r) = false).
  { intros n r. destruct (pretty n); reflexivity. }
  destruct (st !! SESSION_KEY) as [sid|] eqn:Hs; cbn.
  - destruct (JS.falsy sid) eqn:Hf; cbn.
    + destruct (setItem_accepts P st SESSION_KEY _); cbn; [|intros [=]].
      destruct c0 as [c|]; cbn;
        (destruct (setItem_accepts P _ STORAGE_KEY _); cbn; [|intros [=]]); intros _;
        eexists; (split; [reflexivity|]); cbn;
        rewrite lookup_insert_eq, lookup_insert_ne, lookup_insert_eq by congruence;
        (split; [reflexivity|]); (split; [reflexivity|]); (split; [reflexivity|]);
        (split; [apply Hfresh|]); intros c1 [=]; subst; reflexivity.
    + destruct c0 as [c|]; cbn;
        (destruct (setItem_accepts P _ STORAGE_KEY _); cbn; [|intros [=]]); intros _;
        eexists; (split; [reflexivity|]); cbn;
        rewrite lookup_insert_eq, lookup_insert_ne by congruence;
        (split; [reflexivity|]); (split; [reflexivity|]); (split; [exact Hs|]);
        (split; [exact Hf|]); intros c1 [=]; subst; reflexivity.
  - destruct (setItem_accepts P st SESSION_KEY _); cbn; [|intros [=]].
    destruct c0 as [c|]; cbn;
      (destruct (setItem_accepts P _ STORAGE_KEY _); cbn; [|intros [=]]); intros _;
      eexists; (split; [reflexivity|]); cbn;
      rewrite lookup_insert_eq, lookup_insert_ne, lookup_insert_eq by congruence;
      (split; [reflexivity|]); (split; [reflexivity|]); (split; [reflexivity|]);
      (split; [apply Hfresh|]); intros c1 [=]; subst; reflexivity.
Qed.
End CartMutations.

(** X3. [replaceItem] with an index below 0 or at or past the number
    of items (in particular on an empty store) returns [false] and
    changes nothing: no clock reading, no write. *)
Theorem replaceItem_out_of_bounds
    (P : Effects.Platform) (w : Effects.World) (index : Z) (newItem : Models.ItemCarrito) :
  index < 0 \/ Z.of_nat (List.length (CartService.items w)) <= index ->
  CartService.replaceItem P index newItem w = Effects.Ok false w.
Proof.
  intros H. destruct w as [st [c|] fp cr rr]; run_m; unfold CartService.items in H; cbn in H;
    [|reflexivity].
  destruct (Z.ltb_spec index 0); cbn; [reflexivity|].
  destruct (Z.leb_spec (Z.of_nat (List.length (Models.items c))) index); cbn; [reflexivity|].
  destruct H as [H|H]; [lia|]. exfalso. eapply Z.lt_irrefl, Z.lt_le_trans; eassumption.
Qed.

Lemma replaceItem_out_of_bounds_witness :
  CartService.replaceItem demo_platform 1 (demo_item "coopappi" "CT-9" "Bs.") one_item_world
    = Effects.Ok false one_item_world
  /\ CartService.replaceItem demo_platform 0 (demo_item "coopappi" "CT-9" "Bs.") empty_world
    = Effects.Ok false empty_world.
Proof.
  split.
  - apply replaceItem_out_of_bounds. right. vm_compute. discriminate.
  - apply replaceItem_out_of_bounds. right. vm_compute. discriminate.
Defined.

(** X4. [replaceItem] with an index inside the cart never throws. It
    puts the new item at that index and leaves the other items, their
    number, the session id and [createdAt] as they were; [updatedAt] is
    the clock reading. It returns [true] and stores the new cart when
    the storage accepts the write; when the storage rejects it, it
    returns [false] with the cart in memory already replaced and the
    stored blob unchanged. *)
Theorem replaceItem_in_bounds
    (P : Effects.Platform) (w : Effects.World) (c : Models.Carrito)
    (index : Z) (newItem : Models.ItemCarrito) :
  Effects.cart w = Some c ->
  0 <= index < Z.of_nat (List.length (Models.items c)) ->
  let r := CartService.replaceItem P index newItem w in
  let now := Effects.Date_now_at P (Effects.clock_reads w) in
  let l' := <[Z.to_nat index := newItem]> (Models.items c) in
  let c' := CartService.with_items c l' now in
  let accepted :=
    Effects.setItem_accepts P (Effects.sessionStorage w) CartService.STORAGE_KEY
      (Effects.JSON_stringify_Carrito P c') in
  Effects.returned r = Some accepted
  /\ Effects.cart (Effects.world_of r) = Some c'
  /\ List.length l' = List.length (Models.items c)
  /\ l' !! Z.to_nat index = Some newItem
  /\ (forall j : nat, j <> Z.to_nat index -> l' !! j = Models.items c !! j)
  /\ Models.sessionId c' = Models.sessionId c
  /\ Models.createdAt c' = Models.createdAt c
  /\ Effects.sessionStorage (Effects.world_of r)
     = if accepted
       then <[CartService.STORAGE_KEY := Effects.JSON_stringify_Carrito P c']>
              (Effects.sessionStorage w)
       else Effects.sessionStorage w.
Proof.
  intros Hc Hin r now l' c' accepted. subst r now l' c' accepted.
  destruct w as [st c0 fp cr rr]. cbn in Hc. subst c0. run_m.
  destruct (Z.ltb_spec index 0); [lia|].
  destruct (Z.leb_spec (Z.of_nat (List.length (Models.items c))) index); [lia|]. cbn.
  assert (Hlen : (Z.to_nat index < List.length (Models.items c))%nat) by lia.
  destruct (Effects.setItem_accepts P st _ _); cbn;
    (split; [reflexivity|]); (split; [reflexivity|]);
    (split; [apply length_insert|]);
    (split; [now apply list_lookup_insert_eq|]);
    (split; [intros j Hj; apply list_lookup_insert_ne; congruence|]);
    repeat split.
Qed.

Lemma replaceItem_in_bounds_witness :
  let r := CartService.replaceItem demo_platform 0 (demo_item "coopappi" "CT-9" "Bs.")
             one_item_world in
  Effects.returned r = Some true
  /\ List.map Models.codigoContrato (CartService.items (Effects.world_of r)) = ["CT-9"].
Proof.
  intros r.
  destruct (Effects.cart one_item_world) as [c|] eqn:Hc; [|vm_compute in Hc; discriminate].
  assert (Hx : Models.items c = [demo_item "coopappi" "CT-1" "Bs."])
    by (vm_compute in Hc; injection Hc as <-; reflexivity).
  assert (Hin : 0 <= 0 < Z.of_nat (List.length (Models.items c))) by (rewrite Hx; cbn; lia).
  pose proof (replaceItem_in_bounds demo_platform one_item_world c 0
                (demo_item "coopappi" "CT-9" "Bs.") Hc Hin) as (Hret & Hcart & _).
  split; [exact Hret|]. subst r. unfold CartService.items. rewrite Hcart. cbn.
  rewrite Hx. reflexivity.
Defined.

(** X5. When [addItem] returns [true], the cart in memory is the old
    items followed by the new one, with the [createdAt] of the cart
    that was there; the storage holds that cart under the cart key and
    the cart's session id, which is not empty, under the session key. *)
Theorem addItem_success
    (P : Effects.Platform) (w : Effects.World) (item : Models.ItemCarrito) :
  let r := CartService.addItem P item w in
  Effects.returned r = Some true ->
  exists c',
    Effects.cart (Effects.world_of r) = Some c'
    /\ Models.items c' = (CartService.items w ++ [item])%list
    /\ Effects.sessionStorage (Effects.world_of r) !! CartService.STORAGE_KEY
       = Some (Effects.JSON_stringify_Carrito P c')
    /\ Effects.sessionStorage (Effects.world_of r) !! CartService.SESSION_KEY
       = Some (Models.sessionId c')
    /\ JS.falsy (Models.sessionId c') = false
    /\ (forall c, Effects.cart w = Some c -> Models.createdAt c' = Models.createdAt c).
Proof. intros r. subst r. apply addItem_true. Qed.

Lemma addItem_success_witness :
  exists c',
    Effects.cart
      (Effects.world_of
         (CartService.addItem demo_platform (demo_item "coopappi" "CT-2" "Bs.") one_item_world))
      = Some c'
    /\ List.map Models.codigoContrato (Models.items c') = ["CT-1"; "CT-2"].
Proof.
  destruct (addItem_success demo_platform one_item_world (demo_item "coopappi" "CT-2" "Bs.")
              eq_refl) as (c' & Hc & Hitems & _).
  exists c'. split; [exact Hc|]. rewrite Hitems. reflexivity.
Defined.

(** X6. [addItem] never throws, whether or not the browser lets the
    page use its storage. When it returns [false], either neither the
    cart nor the storage has changed (the session id could not be read
    or stored), or the cart could not be stored: the cart in memory
    then already holds the new item at its end, and the storage is
    what it was when a session id that is not empty was stored before,
    and otherwise what it was with the session id just made from the
    clock and the random number under the session key. *)
Theorem addItem_failure
    (P : Effects.Platform) (access : Effects.Access) (w : Effects.World)
    (item : Models.ItemCarrito) :
  let r := CartService.On.addItem P access item w in
  let st := Effects.sessionStorage w in
  let st' := Effects.sessionStorage (Effects.world_of r) in
  (exists added, Effects.returned r = Some added)
  /\ (Effects.returned r = Some false ->
      (Effects.cart (Effects.world_of r) = Effects.cart w /\ st' = st)
      \/ (CartService.items (Effects.world_of r) = (CartService.items w ++ [item])%list
          /\ ((exists sid, st !! CartService.SESSION_KEY = Some sid /\ sid <> ""
                           /\ st' = st)
              \/ ((st !! CartService.SESSION_KEY = None
                   \/ st !! CartService.SESSION_KEY = Some "")
                  /\ st' = <[CartService.SESSION_KEY :=
                               pretty (Effects.Date_now_at P (Effects.clock_reads w))
                               +:+ "-"
                               +:+ Effects.Math_random_at P (Effects.random_reads w)]> st)))).
Proof.
  intros r st0 st'. subst r st0 st'. destruct w as [st c0 fp cr rr].
  destruct access; run_m.
  2: { split; [eexists; reflexivity|]. intros _. left. split; reflexivity. }
  unfold CartService.items. cbn.
  destruct (st !! CartService.SESSION_KEY) as [sid|] eqn:Hs; cbn.
  - destruct sid as [|a sid]; cbn.
    + destruct (Effects.setItem_accepts P st CartService.SESSION_KEY _); cbn.
      * destruct c0 as [c|]; cbn;
          destruct (Effects.setItem_accepts P _ CartService.STORAGE_KEY _); cbn;
          (split; [eexists; reflexivity|]); intros Hr; try discriminate Hr; right;
          (split; [reflexivity|]); right; (split; [now right | reflexivity]).
      * split; [eexists; reflexivity|]. intros _. left. split; reflexivity.
    + destruct c0 as [c|]; cbn;
        destruct (Effects.setItem_accepts P _ CartService.STORAGE_KEY _); cbn;
        (split; [eexists; reflexivity|]); intros Hr; try discriminate Hr; right;
        (split; [reflexivity|]); left; eexists; (split; [reflexivity|]);
        (split; [discriminate | reflexivity]).
  - destruct (Effects.setItem_accepts P st CartService.SESSION_KEY _); cbn.
    + destruct c0 as [c|]; cbn;
        destruct (Effects.setItem_accepts P _ CartService.STORAGE_KEY _); cbn;
        (split; [eexists; reflexivity|]); intros Hr; try discriminate Hr; right;
        (split; [reflexivity|]); right; (split; [now left | reflexivity]).
    + split; [eexists; reflexivity|]. intros _. left. split; reflexivity.
Qed.

Lemma addItem_failure_witness :
  let r := CartService.addItem full_platform (demo_item "coopappi" "CT-2" "Bs.") one_item_world in
  Effects.returned r = Some false
  /\ List.length (CartService.items (Effects.world_of r)) = 2%nat.
Proof.
  intros r.
  assert (Hret : Effects.returned r = Some false) by (vm_compute; reflexivity).
  split; [exact Hret|].
  destruct (proj2 (addItem_failure full_platform Effects.granted one_item_world
                     (demo_item "coopappi" "CT-2" "Bs.")) Hret) as [[Hc _]|[Hitems _]].
  - exfalso. vm_compute in Hc. discriminate.
  - subst r. change (CartService.addItem full_platform)
      with (CartService.On.addItem full_platform Effects.granted).
    rewrite Hitems. reflexivity.
Defined.

(** X7. After [removeItem], whether it returned or threw, the items of
    the cart are the old ones without the one at the given index; an
    index outside the cart removes nothing. *)
Theorem removeItem_deletes_at_index
    (P : Effects.Platform) (w : Effects.World) (index : Z) :
  let after := CartService.items (Effects.world_of (CartService.removeItem P index w)) in
  (0 <= index -> after = delete (Z.to_nat index) (CartService.items w))
  /\ (index < 0 \/ Z.of_nat (List.length (CartService.items w)) <= index ->
      after = CartService.items w).
Proof.
  intros after. subst after. rewrite removeItem_items_filter. split.
  - intros H. rewrite filter_index_delete by lia. now rewrite Z.sub_0_r.
  - intros H. apply filter_index_out. lia.
Qed.

Lemma removeItem_deletes_at_index_witness :
  let w := Effects.world_of
             (CartService.addItem demo_platform (demo_item "coopappi" "CT-2" "Bs.")
                one_item_world) in
  List.map Models.codigoContrato
    (CartService.items (Effects.world_of (CartService.removeItem demo_platform 0 w)))
  = ["CT-2"].
Proof.
  intros w.
  rewrite (proj1 (removeItem_deletes_at_index demo_platform w 0) ltac:(lia)).
  reflexivity.
Defined.

(** ** Cart store: persistence *)

Section CartPersistence.
  Import Models Effects CartService CartComputed.
  Variable P : Platform.
  Implicit Types (w : World) (item : ItemCarrito).

Lemma migrate_stored_item item : migrate (stored_item item) = defaulted item.
Proof.
  destruct item as [? ? ? cur ? ? ? ? ? ? ? ? ?]. cbn. unfold defaulted. cbn.
  destruct cur; reflexivity.
Qed.

Lemma defaulted_id item : abreviacionMoneda item <> "" -> defaulted item = item.
Proof.
  destruct item as [? ? ? cur ? ? ? ? ? ? ? ? ?]. unfold defaulted. cbn.
  destruct cur; [congruence | reflexivity].
Qed.

Lemma reloaded_id (c : Carrito) :
  Forall (fun item => abreviacionMoneda item <> "") (Models.items c) -> reloaded c = c.
Proof.
  destruct c as [sid l ca ua]. unfold reloaded. cbn. intros H. f_equal.
  induction H as [|item l Hi _ IH]; cbn; [reflexivity|].
  now rewrite defaulted_id, IH.
Qed.

(** A cart that is stored under the cart key, with its session id
    under the session key, comes back on a reload. *)
Lemma loadCart_restores w (c : Carrito) :
  sessionStorage w !! STORAGE_KEY = Some (JSON_stringify_Carrito P c) ->
  sessionStorage w !! SESSION_KEY = Some (sessionId c) ->
  JSON_stringify_Carrito P c <> "" ->
  JSON_parse_Carrito P (JSON_stringify_Carrito P c) = Some (stored_cart c) ->
  loadCart P (reload w) = Ok tt (set_cart (Some (reloaded c)) (reload w)).
Proof.
  intros Hblob Hsid Hne Hparse. destruct w as [st c0 fp cr rr]. run_m.
  rewrite Hblob. cbn.
  destruct (JSON_stringify_Carrito P c) as [|a text] eqn:Htext; [congruence|]. cbn.
  rewrite Hparse. cbn. rewrite Hsid. cbn.
  rewrite bool_decide_eq_true_2 by reflexivity. cbn. unfold reloaded.
  rewrite map_map. do 3 f_equal. f_equal. apply map_ext. intros item. apply migrate_stored_item.
Qed.

Lemma after_keeps_session sid w (call : Call) :
  session_is sid w -> session_is sid (after P w call).
Proof.
  intros (Hsid & Hne & Hcart). unfold session_is.
  assert (Hk : STORAGE_KEY <> SESSION_KEY) by discriminate.
  destruct w as [st c0 fp cr rr]. cbn in *.
  destruct call as [|item|index|index item|]; cbn; run_m; run_m.
  - (* loadCart *)
    destruct (st !! STORAGE_KEY) as [text|]; cbn.
    2: { repeat split; assumption. }
    destruct (JS.falsy text); cbn; [repeat split; assumption|].
    destruct (JSON_parse_Carrito P text) as [parsed|]; cbn.
    2: { rewrite lookup_delete_ne by exact Hk. repeat split; try assumption. intros ? [=]. }
    rewrite Hsid. case_bool_decide as Hv; cbn.
    + repeat split; try assumption. intros c [= <-]. cbn. congruence.
    + rewrite lookup_delete_ne by exact Hk. repeat split; try assumption. intros ? [=].
  - (* addItem *)
    rewrite Hsid. cbn. rewrite Hne. cbn.
    destruct c0 as [c|]; cbn;
      destruct (setItem_accepts P _ STORAGE_KEY _); cbn;
      rewrite ?lookup_insert_ne by exact Hk;
      repeat split; try assumption; intros c1 [= <-]; reflexivity.
  - (* removeItem *)
    destruct c0 as [c|]; cbn; [|repeat split; assumption].
    destruct (List.length _ =? 0)%nat; cbn.
    + rewrite lookup_delete_ne by exact Hk. repeat split; try assumption. intros ? [=].
    + destruct (setItem_accepts P _ STORAGE_KEY _); cbn;
        rewrite ?lookup_insert_ne by exact Hk;
        repeat split; try assumption; intros c1 [= <-]; cbn; now apply Hcart.
  - (* replaceItem *)
    destruct c0 as [c|]; cbn; [|repeat split; assumption].
    destruct (index <? 0); cbn; [repeat split; assumption|].
    destruct (_ <=? index); cbn; [repeat split; assumption|].
    destruct (setItem_accepts P _ STORAGE_KEY _); cbn;
      rewrite ?lookup_insert_ne by exact Hk;
      repeat split; try assumption; intros c1 [= <-]; cbn; now apply Hcart.
  - (* clearCart *)
    rewrite lookup_delete_ne by exact Hk. repeat split; try assumption. intros ? [=].
Qed.
End CartPersistence.

(** X8. A cart that [addItem] has saved survives a reload of the
    page: when [JSON.stringify] writes a text that is not empty and
    [JSON.parse] reads back what it wrote, [loadCart] in the restarted
    store finds the saved cart again, with its session id, its dates
    and its items in order; an item saved with an empty currency comes
    back with the default ['Bs.'], so the cart is the very cart that
    was saved when no item has an empty currency. *)
Theorem saved_cart_survives_reload
    (P : Effects.Platform) (w : Effects.World) (item : Models.ItemCarrito)
    (c' : Models.Carrito) :
  let r := CartService.addItem P item w in
  Effects.returned r = Some true ->
  Effects.cart (Effects.world_of r) = Some c' ->
  Effects.JSON_stringify_Carrito P c' <> "" ->
  Effects.JSON_parse_Carrito P (Effects.JSON_stringify_Carrito P c')
    = Some (CartComputed.stored_cart c') ->
  let restarted := CartComputed.reload (Effects.world_of r) in
  CartService.loadCart P restarted
  = Effects.Ok tt (Effects.set_cart (Some (CartComputed.reloaded c')) restarted)
  /\ (Forall (fun it => Models.abreviacionMoneda it <> "") (Models.items c') ->
      CartComputed.reloaded c' = c').
Proof.
  intros r Hret Hcart Hne Hparse restarted. subst r restarted.
  destruct (addItem_true P w item Hret) as (c1 & Hc1 & _ & Hblob & Hsid & _).
  rewrite Hc1 in Hcart. injection Hcart as ->.
  split; [now apply loadCart_restores | apply reloaded_id].
Qed.

Lemma saved_cart_survives_reload_witness :
  CartService.items
    (Effects.world_of
       (CartService.loadCart codec_platform
          (CartComputed.reload
             (Effects.world_of
                (CartService.addItem codec_platform (demo_item "coopappi" "CT-1" "Bs.")
                   empty_world)))))
  = [demo_item "coopappi" "CT-1" "Bs."].
Proof.
  assert (Hc : Effects.cart
                 (Effects.world_of
                    (CartService.addItem codec_platform (demo_item "coopappi" "CT-1" "Bs.")
                       empty_world)) = Some first_cart) by (vm_compute; reflexivity).
  rewrite (proj1 (saved_cart_survives_reload codec_platform empty_world
                    (demo_item "coopappi" "CT-1" "Bs.") first_cart eq_refl Hc
                    ltac:(discriminate) eq_refl)).
  reflexivity.
Defined.

(** X9. The store never replaces or removes a session id: once a
    non-empty id is stored and the cart in memory, if any, carries it,
    this stays so through every sequence of [loadCart], [addItem],
    [removeItem], [replaceItem] and [clearCart], whatever the calls
    return. *)
Theorem session_id_is_stable
    (P : Effects.Platform) (sid : string) (w : Effects.World)
    (calls : list CartComputed.Call) :
  CartComputed.session_is sid w ->
  CartComputed.session_is sid (CartComputed.after_all P w calls).
Proof.
  revert w. induction calls as [|call calls IH]; intros w H; cbn; [exact H|].
  apply IH. now apply after_keeps_session.
Qed.

Lemma session_id_is_stable_witness :
  CartComputed.session_is "1700000000000-k3j9x0q0"
    (CartComputed.after_all full_platform one_item_world
       [CartComputed.call_removeItem 0;
        CartComputed.call_addItem (demo_item "coopappi" "CT-2" "USD");
        CartComputed.call_clearCart; CartComputed.call_loadCart;
        CartComputed.call_replaceItem 3 (demo_item "coopappi" "CT-3" "Bs.")]).
Proof.
  apply session_id_is_stable. split; [vm_compute; reflexivity|].
  split; [reflexivity|]. intros c Hc. vm_compute in Hc. injection Hc as <-. reflexivity.
Defined.

(** ** Debt-collection wizard: selections *)

Section Selections.
  Import Models CobranzaWizard CobranzaTotals.
  Implicit Types (w : CobranzaWizard.t) (flags : JS.array bool) (k n : nat).

Lemma oldest_length k n : (k <= n)%nat -> List.length (oldest k n) = n.
Proof. intros H. unfold oldest. rewrite length_app, !length_replicate. lia. Qed.

Lemma oldest_lookup k n (i : nat) :
  (k <= n)%nat ->
  oldest k n !! i
  = if (i <? k)%nat then Some (Some true)
    else if (i <? n)%nat then Some (Some false) else None.
Proof.
  intros H. unfold oldest, JS.array.
  destruct (Nat.ltb_spec i k) as [Hik|Hik].
  - rewrite lookup_app_l by (rewrite length_replicate; lia).
    apply lookup_replicate_2. exact Hik.
  - rewrite lookup_app_r by (rewrite length_replicate; lia).
    rewrite length_replicate.
    destruct (Nat.ltb_spec i n) as [Hin|Hin].
    + apply lookup_replicate_2. lia.
    + apply lookup_ge_None. rewrite length_replicate. lia.
Qed.

(** A toggle inside the list turns a selection of the oldest [k]
    periods into a selection of the oldest [k'] periods. *)
Lemma applyToggle_oldest k n (N : Z) (b : bool) :
  (k <= n)%nat -> 0 <= N < Z.of_nat n ->
  applyToggle (oldest k n) N b
  = oldest (if b then Nat.max k (S (Z.to_nat N)) else Nat.min k (Z.to_nat N)) n.
Proof.
  intros Hk HN. pose proof (oldest_length k n Hk) as Hlen.
  unfold applyToggle. rewrite Hlen. apply list_eq. intros i.
  destruct b; cbv iota.
  - destruct (select_loop_spec (Z.to_nat (N + 1)) 0 N (oldest k n)) as (L & T & U);
      [lia | rewrite Hlen; lia | lia |].
    rewrite (oldest_lookup (Nat.max k (S (Z.to_nat N))) n i) by lia.
    destruct (Z.le_gt_cases (Z.of_nat i) N) as [Hi|Hi].
    + rewrite T by lia. destruct (Nat.ltb_spec i (Nat.max k (S (Z.to_nat N)))); [reflexivity|lia].
    + rewrite U by lia. rewrite oldest_lookup by exact Hk.
      destruct (Nat.ltb_spec i k), (Nat.ltb_spec i (Nat.max k (S (Z.to_nat N))));
        try reflexivity; lia.
  - destruct (deselect_loop_spec (Z.to_nat (Z.of_nat n - N)) N (oldest k n)) as (L & F & U);
      [lia | rewrite Hlen; lia |].
    rewrite (oldest_lookup (Nat.min k (Z.to_nat N)) n i) by lia.
    destruct (Z.le_gt_cases N (Z.of_nat i)) as [Hi|Hi].
    + destruct (Nat.ltb_spec i (Nat.min k (Z.to_nat N))); [lia|].
      destruct (Nat.ltb_spec i n) as [Hin|Hin].
      * apply F; [lia | rewrite Hlen; exact Hin].
      * apply lookup_ge_None. rewrite L, Hlen. exact Hin.
    + rewrite U by lia. rewrite oldest_lookup by exact Hk.
      destruct (Nat.ltb_spec i k), (Nat.ltb_spec i (Nat.min k (Z.to_nat N)));
        try reflexivity; lia.
Qed.

Lemma filter_selected_oldest {A} (debts : list A) : forall from k n,
  (k <= n)%nat -> (from + List.length debts <= n)%nat ->
  filter_selected from (oldest k n) debts = take (k - from) debts.
Proof.
  induction debts as [|d debts IH]; intros from k n Hk Hn; cbn.
  - now rewrite take_nil.
  - cbn in Hn. rewrite oldest_lookup by exact Hk.
    destruct (Nat.ltb_spec from k) as [Hf|Hf].
    + cbn. replace (k - from)%nat with (S (k - S from)) by lia. cbn. f_equal.
      apply IH; [exact Hk | lia].
    + destruct (Nat.ltb_spec from n); [|lia]. cbn.
      replace (k - from)%nat with 0%nat by lia. cbn.
      rewrite IH by (try exact Hk; lia). replace (k - S from)%nat with 0%nat by lia.
      apply take_0.
Qed.
End Selections.

(** X11. [toggleTodasDeudas] gives every outstanding period the same
    flag, whatever the flags were: the selection counts all the periods
    when checked and none when unchecked. *)
Theorem toggleTodasDeudas_all (w : CobranzaWizard.t) (checked : bool) :
  let w' := CobranzaWizard.toggleTodasDeudas checked w in
  let n := List.length (CobranzaWizard.outstandingDebts w) in
  CobranzaWizard.selectedDebts w' = replicate n (Some checked)
  /\ CobranzaWizard.quantitySelectedDebts w' = (if checked then n else 0%nat)
  /\ CobranzaTotals.selected w'
     = if checked then CobranzaWizard.outstandingDebts w else [].
Proof.
  intros w' n. subst w' n. unfold CobranzaWizard.toggleTodasDeudas,
    CobranzaWizard.quantitySelectedDebts, CobranzaTotals.selected, JS.of_list. cbn.
  assert (E : Some <$> List.map (fun _ => checked) (CobranzaWizard.outstandingDebts w)
              = replicate (List.length (CobranzaWizard.outstandingDebts w)) (Some checked)).
  { induction (CobranzaWizard.outstandingDebts w) as [|d l IH]; cbn; [reflexivity|].
    f_equal. exact IH. }
  rewrite E. split; [reflexivity|].
  set (n := List.length (CobranzaWizard.outstandingDebts w)).
  destruct checked.
  - assert (Ho : replicate n (Some true) = CobranzaTotals.oldest n n).
    { unfold CobranzaTotals.oldest. rewrite Nat.sub_diag. cbn. now rewrite app_nil_r. }
    split.
    + clear. induction n; cbn; [reflexivity | now rewrite IHn].
    + rewrite Ho, filter_selected_oldest by (subst n; lia).
      rewrite Nat.sub_0_r. apply take_ge. subst n. lia.
  - assert (Ho : replicate n (Some false) = CobranzaTotals.oldest 0 n).
    { unfold CobranzaTotals.oldest. now rewrite Nat.sub_0_r. }
    split.
    + clear. induction n; cbn; [reflexivity | exact IHn].
    + rewrite Ho, filter_selected_oldest by (subst n; lia). reflexivity.
Qed.

(** X12. The cascade leaves no gaps. When the flags select the [k]
    oldest of [n] periods, as they do after the debts are loaded, a
    toggle of a row inside the list leaves the [k'] oldest selected:
    checking row [N] gives [max k (N + 1)], unchecking it gives
    [min k N]. So after any sequence of such toggles the selected
    periods are still the oldest ones, with none skipped. *)
Theorem cascade_keeps_oldest_selected
    (w : CobranzaWizard.t) (k n : nat) (clicks : list CobranzaTotals.Toggle) :
  (k <= n)%nat ->
  CobranzaWizard.selectedDebts w = CobranzaTotals.oldest k n ->
  Forall (fun t => 0 <= CobranzaTotals.row t < Z.of_nat n) clicks ->
  (forall N b, 0 <= N < Z.of_nat n ->
     CobranzaWizard.selectedDebts (CobranzaWizard.toggleDeuda N b w)
     = CobranzaTotals.oldest
         (if b then Nat.max k (S (Z.to_nat N)) else Nat.min k (Z.to_nat N)) n)
  /\ exists k', (k' <= n)%nat
       /\ CobranzaWizard.selectedDebts (CobranzaTotals.toggles w clicks)
          = CobranzaTotals.oldest k' n.
Proof.
  intros Hk Hw Hclicks. split.
  - intros N b HN. cbn. rewrite Hw. now apply applyToggle_oldest.
  - revert w k Hk Hw. induction Hclicks as [|t clicks Ht _ IH]; intros w k Hk Hw; cbn.
    + exists k. split; [exact Hk | exact Hw].
    + eapply (IH _ (if CobranzaTotals.checked t
                    then Nat.max k (S (Z.to_nat (CobranzaTotals.row t)))
                    else Nat.min k (Z.to_nat (CobranzaTotals.row t)))).
      * destruct (CobranzaTotals.checked t); lia.
      * cbn. rewrite Hw. now apply applyToggle_oldest.
Qed.

Lemma cascade_keeps_oldest_selected_witness :
  CobranzaWizard.selectedDebts (CobranzaWizard.toggleDeuda 1 false three_debts)
    = [Some true; Some false; Some false]
  /\ exists k', (k' <= 3)%nat
       /\ CobranzaWizard.selectedDebts
            (CobranzaTotals.toggles three_debts
               [{| CobranzaTotals.row := 0; CobranzaTotals.checked := false |};
                {| CobranzaTotals.row := 1; CobranzaTotals.checked := true |}])
          = CobranzaTotals.oldest k' 3.
Proof.
  assert (Hc : Forall (fun t => 0 <= CobranzaTotals.row t < Z.of_nat 3)
                 [{| CobranzaTotals.row := 0; CobranzaTotals.checked := false |};
                  {| CobranzaTotals.row := 1; CobranzaTotals.checked := true |}])
    by (repeat constructor; cbn; lia).
  destruct (cascade_keeps_oldest_selected three_debts 3 3 _ ltac:(lia) eq_refl Hc) as [H1 H2].
  split; [|exact H2]. rewrite (H1 1 false) by lia. reflexivity.
Defined.

(** X13. When the flags select the [k] oldest periods, the periods the
    totals and the cart item are built from are the first [k]
    outstanding debts, in order. *)
Theorem selected_are_the_oldest (w : CobranzaWizard.t) (k : nat) :
  (k <= List.length (CobranzaWizard.outstandingDebts w))%nat ->
  CobranzaWizard.selectedDebts w
    = CobranzaTotals.oldest k (List.length (CobranzaWizard.outstandingDebts w)) ->
  CobranzaTotals.selected w = take k (CobranzaWizard.outstandingDebts w)
  /\ CobranzaWizard.quantitySelectedDebts w = k.
Proof.
  intros Hk Hw. unfold CobranzaTotals.selected, CobranzaWizard.quantitySelectedDebts.
  rewrite Hw. split.
  - rewrite filter_selected_oldest by lia. now rewrite Nat.sub_0_r.
  - unfold CobranzaTotals.oldest. rewrite List.filter_app, length_app.
    assert (Ht : forall m, List.length (List.filter JS.truthy (replicate m (Some true))) = m).
    { induction m; cbn; [reflexivity | now rewrite IHm]. }
    assert (Hf : forall m, List.length (List.filter JS.truthy (replicate m (Some false))) = 0%nat).
    { induction m; cbn; [reflexivity | exact IHm]. }
    rewrite Ht, Hf. lia.
Qed.

Lemma selected_are_the_oldest_witness :
  let w := CobranzaWizard.toggleDeuda 2 false three_debts in
  List.map Models.documentoPago (CobranzaTotals.selected w) = ["D1"; "D2"]
  /\ Qeq (CobranzaTotals.totalGeneral w) (201 # 1).
Proof.
  intros w.
  destruct (selected_are_the_oldest w 2 ltac:(cbn; lia) eq_refl) as [Hs _].
  split; [rewrite Hs; reflexivity | reflexivity].
Defined.

(** ** Debt-collection wizard: the steps *)

(** X14. The search does nothing while a query is in flight, and it
    refuses a search code made of white space only (or none at all):
    it then adds the message "Ingrese el codigo de socio" (with its
    accent) to the errors on display and calls nothing. A code with
    any other character is sent to the backend as typed, not trimmed. *)
Theorem consultContracts_guards
    (s : CobranzaWizard.State)
    (backend : forall r, Async.Outcome (CobranzaWizard.Resp r)) :
  let w := fst s in
  let code := default "" (CobranzaWizard.searchForm_codigoDeuda w) in
  let task := CobranzaWizard.consultContracts s in
  (CobranzaWizard.loading w = true -> task = Async.Done s)
  /\ (CobranzaWizard.loading w = false -> blank code = true ->
      task = Async.Done
               (CobranzaWizard.addError "Ingrese el código de socio" w, snd s))
  /\ (CobranzaWizard.loading w = false -> blank code = false ->
      exists rest,
        Async.requests backend task
        = CobranzaWizard.consultCollectionContracts
            {| Models.codigoEncriptado := ""; Models.ccr_medioPago := "Q";
               Models.ccr_codigoDeuda := code |}
            (CobranzaWizard.aliasServicio w) :: rest).
Proof.
  intros w code task. subst w code task. unfold CobranzaWizard.consultContracts.
  rewrite falsy_trim. split; [|split].
  - intros ->. reflexivity.
  - intros -> ->. reflexivity.
  - intros -> ->. cbn. eexists. reflexivity.
Qed.

Lemma consultContracts_guards_witness :
  let blank_code := CobranzaWizard.set_loading false
                      {| CobranzaWizard.aliasServicio := "coopappi";
                         CobranzaWizard.currentStep := 1;
                         CobranzaWizard.loading := false; CobranzaWizard.errors := [];
                         CobranzaWizard.searchForm_codigoDeuda := Some "   ";
                         CobranzaWizard.contracts := [];
                         CobranzaWizard.selectedContract := None;
                         CobranzaWizard.outstandingDebts := [];
                         CobranzaWizard.selectedDebts := [];
                         CobranzaWizard.associateData := None |} in
  CobranzaWizard.consultContracts (blank_code, ErrorModal.initial)
  = Async.Done (CobranzaWizard.addError "Ingrese el código de socio" blank_code,
                ErrorModal.initial).
Proof.
  intros blank_code.
  exact (proj1 (proj2 (consultContracts_guards (blank_code, ErrorModal.initial)
                         (fun r => Async.Error Async.Other))) eq_refl eq_refl).
Defined.

Section DebtsLoaded.
  Import Models Async CobranzaWizard CobranzaTotals.

Lemma all_selected {A} (l : list A) :
  JS.of_list (List.map (fun _ => true) l) = oldest (List.length l) (List.length l).
Proof.
  unfold oldest, JS.of_list. rewrite Nat.sub_diag. cbn. rewrite app_nil_r.
  induction l as [|x l IH]; cbn; [reflexivity | now f_equal].
Qed.

(** The state the answer of the debts query leaves. *)
Lemma consultDebts_tap_spec (contract : Contrato) (response : option DeudasResponse)
    (w : CobranzaWizard.t) :
  let w' := consultDebts_tap contract response w in
  let n := List.length (outstandingDebts w') in
  currentStep w' = 3
  /\ selectedDebts w' = oldest n n
  /\ outstandingDebts w' = default [] (debts_of response)
  /\ errors w' = errors w
  /\ selectedContract w' = selectedContract w.
Proof.
  unfold consultDebts_tap, debts_of.
  destruct response as [[[] [[ds [debts|]]|]]|]; cbn;
    repeat split; try reflexivity; apply all_selected.
Qed.
(** A failed call changes the errors on display or raises the
    modal, and nothing else of the wizard. *)
Lemma cobranza_handleApiError_frame e msg (s : CobranzaWizard.State) :
  let s' := CobranzaWizard.handleApiError e msg s in
  currentStep (fst s') = currentStep (fst s)
  /\ outstandingDebts (fst s') = outstandingDebts (fst s)
  /\ selectedDebts (fst s') = selectedDebts (fst s)
  /\ selectedContract (fst s') = selectedContract (fst s)
  /\ loading (fst s') = loading (fst s)
  /\ (errors (fst s') = (errors (fst s) ++ [msg])%list
      \/ errors (fst s') = errors (fst s)
         /\ ErrorModal.isVisible (snd s') = true).
Proof.
  unfold CobranzaWizard.handleApiError, ErrorModal.handleHttpError.
  destruct (ErrorModal.extractApiError e) as [api|]; cbn.
  - destruct (ErrorModal.error_type_of _); cbn.
    + repeat split. now right.
    + repeat split. now left.
  - repeat split. now left.
Qed.
End DebtsLoaded.

(** X15. [confirmContract] without a selected contract adds "Seleccione
    un contrato" and calls nothing. With one it sends one query, for
    the debts of the service of the wizard under the code and the
    checksum of that contract; whatever the answer, the wizard is then on step 3
    with every returned period selected and one flag per period, and a
    response without a list of debts gives an empty list and no error.
    When the call itself fails the wizard stays on its step with its
    debts and flags as they were, and the failure shows either as the
    message "Error al consultar deudas" or in the error modal. *)
Theorem confirmContract_loads_debts
    (s : CobranzaWizard.State)
    (backend : forall r, Async.Outcome (CobranzaWizard.Resp r)) :
  let w := fst s in
  let task := CobranzaWizard.confirmContract s in
  let final := fst (Async.run backend task) in
  match CobranzaWizard.selectedContract w with
  | None =>
      Async.requests backend task = []
      /\ final = CobranzaWizard.addError "Seleccione un contrato" w
  | Some contract =>
      let debts :=
        CobranzaWizard.consultCollectionDebts
          {| Models.cdr_codigoContrato := Models.c_codigoContrato contract;
             Models.cdr_checksumContrato := Models.checksumContrato contract |}
          (CobranzaWizard.aliasServicio w) in
      Async.requests backend task = [debts]
      /\ CobranzaWizard.loading final = false
      /\ match backend debts with
         | Async.Next response =>
             let n := List.length (CobranzaWizard.outstandingDebts final) in
             CobranzaWizard.currentStep final = 3
             /\ CobranzaWizard.outstandingDebts final
                = default [] (CobranzaTotals.debts_of response)
             /\ CobranzaWizard.selectedDebts final = CobranzaTotals.oldest n n
             /\ CobranzaWizard.errors final = []
             /\ CobranzaWizard.selectedContract final = Some contract
         | Async.Error e =>
             CobranzaWizard.currentStep final = CobranzaWizard.currentStep w
             /\ CobranzaWizard.outstandingDebts final = CobranzaWizard.outstandingDebts w
             /\ CobranzaWizard.selectedDebts final = CobranzaWizard.selectedDebts w
             /\ (CobranzaWizard.errors final = ["Error al consultar deudas"]
                 \/ CobranzaWizard.errors final = []
                    /\ ErrorModal.isVisible (snd (Async.run backend task)) = true)
         end
  end.
Proof.
  intros w task final. subst w task final. unfold CobranzaWizard.confirmContract.
  destruct s as [w m]. cbn.
  destruct (CobranzaWizard.selectedContract w) as [contract|] eqn:Hsel; cbn;
    [|split; reflexivity].
  unfold CobranzaWizard.consultDebts_request. cbn.
  destruct (backend _) as [response|e]; cbn.
  - split; [reflexivity|]. split; [reflexivity|].
    match goal with
    | |- context [CobranzaWizard.consultDebts_tap ?c ?r ?w0] =>
        destruct (consultDebts_tap_spec c r w0) as (H3 & Hflags & Hd & Herr & Hc)
    end.
    cbn in *. repeat split; try assumption. now rewrite Hc.
  - split; [reflexivity|].
    match goal with
    | |- context [CobranzaWizard.handleApiError ?e0 ?msg ?s0] =>
        destruct (cobranza_handleApiError_frame e0 msg s0) as (H1 & H2 & H3 & _ & H5 & H6)
    end.
    cbn in *. repeat split; assumption.
Qed.

(** ** Debt-collection wizard: [addToCart] *)

Section AddToCartFacts.
  Import Models Async Effects CobranzaWizard CobranzaPage.
  Variable P : Platform.
  Variable toFixed2 : Q -> string.
  Variable backend : forall r, Outcome (Resp r).

Lemma set_world_same (s : Page) : set_world (world s) s = s.
Proof. now destruct s. Qed.

(** The ways [addToCart] ends. *)
Lemma addToCart_run (s : Page) :
  let task := addToCart P toFixed2 s in
  let final := Async.run backend task in
  let sent := Async.requests backend task in
  (quantitySelectedDebts (wizard s) = 0%nat
   /\ sent = [] /\ final = on_wizard (addError "Seleccione al menos una deuda") s)
  \/ (quantitySelectedDebts (wizard s) <> 0%nat
      /\ (selectedContract (wizard s) = None \/ associateData (wizard s) = None
          \/ config s = None)
      /\ sent = [] /\ final = on_wizard (addError "Datos incompletos") s)
  \/ exists c a cfg,
       quantitySelectedDebts (wizard s) <> 0%nat
       /\ selectedContract (wizard s) = Some c
       /\ associateData (wizard s) = Some a
       /\ config s = Some cfg
       /\ ((exists first rest,
              CartService.items (world s) = first :: rest
              /\ abreviacionMoneda first <> sc_abreviacionMoneda cfg
              /\ sent = []
              /\ final = on_errorModal
                           (ErrorModal.show ErrorModal.warning
                              (currency_warning cfg c (Some (abreviacionMoneda first)))) s)
           \/ (currency_accepted cfg (world s)
               /\ duplicateIndex cfg c (world s) = -1
               /\ sent = []
               /\ final = store P cfg c a (-1) s)
           \/ (currency_accepted cfg (world s)
               /\ duplicateIndex cfg c (world s) <> -1
               /\ exists existing,
                    CartService.items (world s) !! Z.to_nat (duplicateIndex cfg c (world s))
                    = Some existing
                    /\ CartComputed.identity existing
                       = (sc_aliasServicio cfg, c_codigoContrato c)
                    /\ let dialog :=
                         confirmModal_confirm
                           (duplicate_confirmation toFixed2 cfg c a existing (wizard s)) in
                       sent = [dialog]
                       /\ final = match backend dialog with
                                  | Next true =>
                                      store P cfg c a (duplicateIndex cfg c (world s)) s
                                  | _ => s
                                  end)).
Proof.
  intros task final sent. subst task final sent. unfold addToCart.
  destruct (Nat.eqb_spec (quantitySelectedDebts (wizard s)) 0) as [Hq|Hq].
  { left. repeat split; [exact Hq]. }
  right.
  destruct (selectedContract (wizard s)) as [c|] eqn:Hc;
    [|left; cbn; repeat split; auto].
  destruct (associateData (wizard s)) as [a|] eqn:Ha;
    [|left; cbn; repeat split; auto].
  destruct (config s) as [cfg|] eqn:Hcfg;
    [|left; cbn; repeat split; auto].
  right. exists c, a, cfg. repeat (split; [assumption || reflexivity|]).
  unfold CartService.canAddItemWithCurrency, CartService.findDuplicateIndex, read,
    currency_accepted.
  fold (duplicateIndex cfg c (world (set_world (world s) s))).
  rewrite !set_world_same.
  destruct (CartService.items (world s)) as [|first rest] eqn:Hitems.
  - right. cbn [negb]. cbv iota.
    assert (Hd : duplicateIndex cfg c (world s) = -1).
    { unfold duplicateIndex. now rewrite Hitems. }
    rewrite Hd. cbn. left. repeat split.
  - destruct (String.eqb_spec (abreviacionMoneda first) (sc_abreviacionMoneda cfg))
      as [Hcur|Hcur]; cbn [negb]; cbv iota.
    2: { left. exists first, rest. repeat split; auto. }
    right.
    destruct (Z.eqb_spec (duplicateIndex cfg c (world s)) (-1)) as [Hd|Hd]; cbn [negb];
      cbv iota.
    + left. rewrite Hd. repeat split; auto.
    + right. split; [exact Hcur|]. split; [exact Hd|].
      destruct (findIndex_found _ (CartService.items (world s)) 0 _ ltac:(lia) eq_refl Hd)
        as (_ & (x & Hx & Hpx) & _).
      change (CartService.findIndex _ 0 _) with (duplicateIndex cfg c (world s)) in Hx.
      rewrite Z.sub_0_r in Hx.
      rewrite Hitems in Hx. rewrite Hx. exists x. split; [reflexivity|].
      split.
      { apply andb_true_iff in Hpx as [H1 H2]. apply String.eqb_eq in H1, H2.
        unfold CartComputed.identity. now rewrite H1, H2. }
      cbn. destruct (backend _) as [[]|e]; split; reflexivity.
Qed.

Lemma addItem_returns item (w : World) :
  exists b, CartService.addItem P item w = Ok b (world_of (CartService.addItem P item w)).
Proof.
  unfold CartService.addItem, CartService.On.addItem, try_catch.
  match goal with |- context [match ?m w with _ => _ end] => destruct (m w) end;
    cbn; eauto.
Qed.

Lemma replaceItem_returns index item (w : World) :
  exists b,
    CartService.replaceItem P index item w
    = Ok b (world_of (CartService.replaceItem P index item w)).
Proof.
  unfold CartService.replaceItem, CartService.On.replaceItem, try_catch.
  match goal with |- context [match ?m w with _ => _ end] => destruct (m w) end;
    cbn; eauto.
Qed.

(** What [replaceItem] has done when it returns [true]. *)
Lemma replaceItem_true index item (w : World) :
  returned (CartService.replaceItem P index item w) = Some true ->
  exists c',
    cart (world_of (CartService.replaceItem P index item w)) = Some c'
    /\ 0 <= index < Z.of_nat (List.length (CartService.items w))
    /\ Models.items c' = <[Z.to_nat index := item]> (CartService.items w)
    /\ sessionStorage (world_of (CartService.replaceItem P index item w))
         !! CartService.STORAGE_KEY
       = Some (JSON_stringify_Carrito P c').
Proof.
  destruct w as [st [c|] fp cr rr]; run_m; unfold CartService.items; cbn;
    [|discriminate].
  destruct (Z.ltb_spec index 0); cbn; [discriminate|].
  destruct (Z.leb_spec (Z.of_nat (List.length (Models.items c))) index); cbn;
    [discriminate|].
  destruct (setItem_accepts P _ _ _); cbn; [|discriminate].
  intros _. eexists. split; [reflexivity|]. split; [split; assumption|].
  split; [reflexivity|]. apply lookup_insert_eq.
Qed.

Lemma debtsForCart_selected (w : CobranzaWizard.t) :
  debtsForCart w = CobranzaTotals.selected w.
Proof.
  unfold debtsForCart. induction (CobranzaTotals.selected w) as [|[] l IH]; cbn;
    [reflexivity | now f_equal].
Qed.

Lemma store_spec cfg c a index (s : Page) :
  let item := itemCart cfg c a (wizard s) (stamp P s) in
  let r := if negb (index =? -1)
           then CartService.replaceItem P index item (stamped s)
           else CartService.addItem P item (stamped s) in
  store P cfg c a index s
  = if default false (returned r)
    then navigate ["/carrito"] (set_world (world_of r) s)
    else on_wizard (addError "Error al agregar al carrito") (set_world (world_of r) s).
Proof.
  intros item r. subst item r. unfold store, mbind, M_bind, Date_now, stamped, stamp.
  destruct (negb (index =? -1)).
  - destruct (replaceItem_returns index
                (itemCart cfg c a (wizard s) (Date_now_at P (clock_reads (world s))))
                (set_clock_reads (S (clock_reads (world s))) (world s))) as [b ->].
    destruct b; reflexivity.
  - destruct (addItem_returns
                (itemCart cfg c a (wizard s) (Date_now_at P (clock_reads (world s))))
                (set_clock_reads (S (clock_reads (world s))) (world s))) as [b ->].
    destruct b; reflexivity.
Qed.

(** The items [store] leaves in the cart. *)
Lemma store_items cfg c a index (s : Page) :
  let item := itemCart cfg c a (wizard s) (stamp P s) in
  let l := CartService.items (world s) in
  let l' := CartService.items (world (store P cfg c a index s)) in
  l' = l
  \/ (index = -1 /\ l' = (l ++ [item])%list)
  \/ (0 <= index < Z.of_nat (List.length l) /\ l' = <[Z.to_nat index := item]> l).
Proof.
  intros item l l'. subst l l'. rewrite store_spec. fold item.
  assert (Hw : forall r : Result bool,
             CartService.items
               (world (if default false (returned r)
                       then navigate ["/carrito"] (set_world (world_of r) s)
                       else on_wizard (addError "Error al agregar al carrito")
                              (set_world (world_of r) s)))
             = CartService.items (world_of r)).
  { intros r. destruct (default false (returned r)); reflexivity. }
  rewrite Hw.
  destruct (Z.eqb_spec index (-1)) as [->|Hne]; cbn [negb].
  - destruct (addItem_items P (stamped s) item) as [-> | ->]; [now left|].
    right. left. split; reflexivity.
  - destruct (replaceItem_items P (stamped s) index item) as [-> | [Hr ->]]; [now left|].
    right. right. split; [exact Hr | reflexivity].
Qed.
End AddToCartFacts.

(** X16. [addToCart] keeps the cart in one currency, whatever the
    user answers: a selection whose service has another currency than
    the first item of the cart is refused with the warning
    WARN_CURRENCY, and then the cart, the wizard and the route stay as
    they were and no question is asked. *)
Theorem addToCart_keeps_one_currency
    (P : Effects.Platform) (toFixed2 : Q -> string)
    (backend : forall r, Async.Outcome (CobranzaPage.Resp r))
    (s : CobranzaPage.Page) :
  let task := CobranzaPage.addToCart P toFixed2 s in
  let final := Async.run backend task in
  (CartService.same_currency (CartService.items (CobranzaPage.world s)) = true ->
   CartService.same_currency (CartService.items (CobranzaPage.world final)) = true)
  /\ forall c a cfg first rest,
       CobranzaWizard.quantitySelectedDebts (CobranzaPage.wizard s) <> 0%nat ->
       CobranzaWizard.selectedContract (CobranzaPage.wizard s) = Some c ->
       CobranzaWizard.associateData (CobranzaPage.wizard s) = Some a ->
       CobranzaPage.config s = Some cfg ->
       CartService.items (CobranzaPage.world s) = first :: rest ->
       Models.abreviacionMoneda first <> CobranzaPage.sc_abreviacionMoneda cfg ->
       Async.requests backend task = []
       /\ CobranzaPage.world final = CobranzaPage.world s
       /\ CobranzaPage.wizard final = CobranzaPage.wizard s
       /\ CobranzaPage.navigations final = CobranzaPage.navigations s
       /\ ErrorModal.isVisible (CobranzaPage.errorModal final) = true
       /\ ErrorModal.code (ErrorModal.config (CobranzaPage.errorModal final))
          = Some "WARN_CURRENCY"
       /\ ErrorModal.redirectToMain (ErrorModal.config (CobranzaPage.errorModal final))
          = false.
Proof.
  intros task final.
  pose proof (addToCart_run P toFixed2 backend s) as Hrun. cbv zeta in Hrun.
  fold task in Hrun. fold final in Hrun.
  destruct Hrun as [(Hq & Hsent & Hfinal) | [(Hq & Hnone & Hsent & Hfinal) | Hrun]].
  - split; [now rewrite Hfinal|]. intros c a cfg first rest Hq'. contradiction.
  - split; [now rewrite Hfinal|]. intros c a cfg first rest _ Hc Ha Hcfg.
    destruct Hnone as [H|[H|H]]; congruence.
  - destruct Hrun as (c & a & cfg & Hq & Hc & Ha & Hcfg & Hcases). split.
    + intros Hinv.
      destruct Hcases as [(first & rest & _ & _ & _ & ->)
                         | [(Hacc & Hd & _ & ->) | (Hacc & Hd & existing & _ & _ & _ & ->)]];
        [exact Hinv | |].
      * pose proof (store_items P cfg c a (-1) s) as [-> | [[_ ->] | [Hr _]]];
          [exact Hinv | | lia].
        unfold CobranzaPage.currency_accepted in Hacc.
        destruct (CartService.items (CobranzaPage.world s)) as [|first rest] eqn:Hitems;
          [reflexivity|].
        apply same_currency_spec in Hinv as [cur Hcur].
        apply same_currency_spec. exists cur. apply Forall_app. split; [exact Hcur|].
        constructor; [|constructor]. apply Forall_cons in Hcur as [<- _]. cbn. now symmetry.
      * destruct (backend _) as [[]|e]; [|exact Hinv|exact Hinv].
        pose proof (store_items P cfg c a
                      (CobranzaPage.duplicateIndex cfg c (CobranzaPage.world s)) s)
          as [-> | [[Hm _] | [_ ->]]]; [exact Hinv | contradiction |].
        unfold CobranzaPage.currency_accepted in Hacc.
        destruct (CartService.items (CobranzaPage.world s)) as [|first rest] eqn:Hitems;
          [reflexivity|].
        apply same_currency_spec in Hinv as [cur Hcur].
        apply same_currency_spec. exists cur. apply currency_is_insert; [exact Hcur|].
        apply Forall_cons in Hcur as [<- _]. cbn. now symmetry.
    + intros c' a' cfg' first rest _ Hc' Ha' Hcfg' Hitems Hne.
      assert (cfg' = cfg) as -> by congruence. assert (c' = c) as -> by congruence.
      destruct Hcases as [(first' & rest' & Hitems' & _ & Hs & ->)
                         | [(Hacc & _) | (Hacc & _)]].
      * rewrite Hs. repeat split.
      * unfold CobranzaPage.currency_accepted in Hacc. rewrite Hitems in Hacc. contradiction.
      * unfold CobranzaPage.currency_accepted in Hacc. rewrite Hitems in Hacc. contradiction.
Qed.

Lemma addToCart_keeps_one_currency_witness :
  let s := demo_page "USD" one_item_world in
  let final := Async.run (answering true)
                 (CobranzaPage.addToCart demo_platform demo_toFixed2 s) in
  CartService.same_currency (CartService.items (CobranzaPage.world final)) = true
  /\ CobranzaPage.world final = CobranzaPage.world s.
Proof.
  intros s final. split.
  - exact (proj1 (addToCart_keeps_one_currency demo_platform demo_toFixed2
                    (answering true) s) eq_refl).
  - refine (proj1 (proj2 (proj2 (addToCart_keeps_one_currency demo_platform demo_toFixed2
                                    (answering true) s)
                             demo_contract (Models.datosAsociado demo_contract)
                             (demo_config "USD") (demo_item "coopappi" "CT-1" "Bs.") []
                             _ eq_refl eq_refl eq_refl eq_refl _))).
    + vm_compute. discriminate.
    + vm_compute. discriminate.
Defined.

(** X17. [addToCart] never makes a duplicate: when no two items of
    the cart have the same service and contract, none have after it,
    whatever the user answers and whether the storage takes the write
    or not. *)
Theorem addToCart_no_duplicates
    (P : Effects.Platform) (toFixed2 : Q -> string)
    (backend : forall r, Async.Outcome (CobranzaPage.Resp r))
    (s : CobranzaPage.Page) :
  let final := Async.run backend (CobranzaPage.addToCart P toFixed2 s) in
  NoDup (List.map CartComputed.identity (CartService.items (CobranzaPage.world s))) ->
  NoDup (List.map CartComputed.identity (CartService.items (CobranzaPage.world final))).
Proof.
  intros final Hnd.
  pose proof (addToCart_run P toFixed2 backend s) as Hrun. cbv zeta in Hrun.
  fold final in Hrun.
  destruct Hrun as [(_ & _ & ->) | [(_ & _ & _ & ->) | Hrun]]; [exact Hnd | exact Hnd |].
  destruct Hrun as (c & a & cfg & _ & _ & _ & _ & Hcases).
  destruct Hcases as [(first & rest & _ & _ & _ & ->)
                     | [(_ & Hd & _ & ->) | (_ & Hd & existing & Hex & Hid & _ & ->)]];
    [exact Hnd | |].
  - pose proof (store_items P cfg c a (-1) s) as [-> | [[_ ->] | [Hr _]]];
      [exact Hnd | | lia].
    rewrite map_app. apply NoDup_app. split; [exact Hnd|]. split; [|apply NoDup_singleton].
    intros i Hi [->|H]%elem_of_cons; [|now apply elem_of_nil in H].
    apply (findIndex_none _ _ 0 ltac:(lia)) in Hd.
    apply list_elem_of_fmap in Hi as (x & Hx & Hin).
    rewrite Forall_forall in Hd. specialize (Hd x Hin). cbn in Hd.
    unfold CartComputed.identity in Hx. cbn in Hx. injection Hx as H1 H2.
    rewrite <- H1, <- H2, !String.eqb_refl in Hd. discriminate.
  - destruct (backend _) as [[]|e]; [|exact Hnd|exact Hnd].
    pose proof (store_items P cfg c a
                  (CobranzaPage.duplicateIndex cfg c (CobranzaPage.world s)) s)
      as [-> | [[Hm _] | [_ ->]]]; [exact Hnd | contradiction |].
    change (List.map CartComputed.identity ?l) with (CartComputed.identity <$> l).
    rewrite list_fmap_insert.
    rewrite list_insert_id; [exact Hnd|].
    rewrite list_lookup_fmap, Hex. cbn. now rewrite Hid.
Qed.

Lemma addToCart_no_duplicates_witness :
  let s := demo_page "Bs." one_item_world in
  let final := Async.run (answering true)
                 (CobranzaPage.addToCart demo_platform demo_toFixed2 s) in
  NoDup (List.map CartComputed.identity (CartService.items (CobranzaPage.world final))).
Proof.
  intros s final.
  apply (addToCart_no_duplicates demo_platform demo_toFixed2 (answering true) s).
  vm_compute. apply NoDup_singleton.
Defined.

(** X18. [addToCart] asks at most one question, the confirmation
    titled "Pago duplicado detectado" of a replacement, and only when
    the contract, the associate and the configuration are there and
    the cart holds, at the index [findDuplicateIndex] gives, an item
    of the same service and contract. When the user declines (or the
    dialog fails), the page is exactly as it was. The cart store is
    touched only when a period is selected, the contract, the associate
    and the configuration are there, the currency is accepted, and
    there is no duplicate or the user confirmed its replacement. *)
Theorem addToCart_only_after_checks
    (P : Effects.Platform) (toFixed2 : Q -> string)
    (backend : forall r, Async.Outcome (CobranzaPage.Resp r))
    (s : CobranzaPage.Page) :
  let task := CobranzaPage.addToCart P toFixed2 s in
  let final := Async.run backend task in
  let sent := Async.requests backend task in
  (sent = []
   \/ exists dialog c a cfg existing,
        sent = [CobranzaPage.confirmModal_confirm dialog]
        /\ ConfirmationModal.in_title dialog = Some "Pago duplicado detectado"
        /\ ConfirmationModal.in_confirmText dialog = Some "Continuar y reemplazar"
        /\ CobranzaWizard.selectedContract (CobranzaPage.wizard s) = Some c
        /\ CobranzaWizard.associateData (CobranzaPage.wizard s) = Some a
        /\ CobranzaPage.config s = Some cfg
        /\ CobranzaPage.duplicateIndex cfg c (CobranzaPage.world s) <> -1
        /\ CartService.items (CobranzaPage.world s)
             !! Z.to_nat (CobranzaPage.duplicateIndex cfg c (CobranzaPage.world s))
           = Some existing
        /\ Models.aliasServicio existing = CobranzaPage.sc_aliasServicio cfg
        /\ Models.codigoContrato existing = Models.c_codigoContrato c
        /\ (backend (CobranzaPage.confirmModal_confirm dialog) <> Async.Next true ->
            final = s))
  /\ (CobranzaPage.world final <> CobranzaPage.world s ->
      exists c a cfg,
        CobranzaWizard.quantitySelectedDebts (CobranzaPage.wizard s) <> 0%nat
        /\ CobranzaWizard.selectedContract (CobranzaPage.wizard s) = Some c
        /\ CobranzaWizard.associateData (CobranzaPage.wizard s) = Some a
        /\ CobranzaPage.config s = Some cfg
        /\ CobranzaPage.currency_accepted cfg (CobranzaPage.world s)
        /\ (sent = [] <-> CobranzaPage.duplicateIndex cfg c (CobranzaPage.world s) = -1)
        /\ final = CobranzaPage.store P cfg c a
                     (CobranzaPage.duplicateIndex cfg c (CobranzaPage.world s)) s).
Proof.
  intros task final sent.
  pose proof (addToCart_run P toFixed2 backend s) as Hrun. cbv zeta in Hrun.
  fold task in Hrun. fold final sent in Hrun.
  destruct Hrun as [(_ & Hsent & ->) | [(_ & _ & Hsent & ->) | Hrun]].
  - split; [now left | intros H; now contradiction H].
  - split; [now left | intros H; now contradiction H].
  - destruct Hrun as (c & a & cfg & Hq & Hc & Ha & Hcfg & Hcases).
    destruct Hcases as [(first & rest & _ & _ & Hsent & ->)
                       | [(Hacc & Hd & Hsent & Hfinal)
                         | (Hacc & Hd & existing & Hex & Hid & Hsent & Hfinal)]].
    + split; [now left | intros H; now contradiction H].
    + split; [now left|]. intros _. exists c, a, cfg.
      repeat (split; [assumption|]). split; [tauto|]. now rewrite Hd.
    + unfold CartComputed.identity in Hid. injection Hid as Hid1 Hid2.
      split.
      * right. eexists. exists c, a, cfg, existing.
        split; [exact Hsent|]. split; [reflexivity|]. split; [reflexivity|].
        repeat (split; [assumption|]).
        intros Hno. rewrite Hfinal.
        destruct (backend _) as [[]|e]; [now contradiction Hno | reflexivity | reflexivity].
      * intros Hw. exists c, a, cfg. repeat (split; [assumption|]).
        split; [rewrite Hsent; split; [discriminate | contradiction]|].
        rewrite Hfinal in *. destruct (backend _) as [[]|e];
          [reflexivity | now contradiction Hw | now contradiction Hw].
Qed.

Lemma addToCart_only_after_checks_witness :
  let s := demo_page "Bs." one_item_world in
  Async.run (answering false) (CobranzaPage.addToCart demo_platform demo_toFixed2 s) = s.
Proof.
  intros s.
  destruct (proj1 (addToCart_only_after_checks demo_platform demo_toFixed2
                     (answering false) s))
    as [H | (dialog & c & a & cfg & existing & H & _ & _ & _ & _ & _ & _ & _ & _ & _ & Hs)].
  - vm_compute in H. discriminate H.
  - apply Hs. injection H as <-. vm_compute. discriminate.
Defined.

(** X19. [addToCart] goes to the cart page at most once, and only
    after the store has taken the item: the cart in memory is then the
    one written to the session storage, and it holds, at the end or in
    the place of its duplicate, the item built from the wizard: the
    selected periods in their order, the totals of the wizard, the
    currency of the service and the billing data of the associate. In
    every other case the route is as it was. *)
Theorem addToCart_stores_selection
    (P : Effects.Platform) (toFixed2 : Q -> string)
    (backend : forall r, Async.Outcome (CobranzaPage.Resp r))
    (s : CobranzaPage.Page) :
  let final := Async.run backend (CobranzaPage.addToCart P toFixed2 s) in
  (CobranzaPage.navigations final = CobranzaPage.navigations s
   \/ CobranzaPage.navigations final = (CobranzaPage.navigations s ++ [["/carrito"]])%list)
  /\ (CobranzaPage.navigations final <> CobranzaPage.navigations s ->
      CobranzaPage.wizard final = CobranzaPage.wizard s
      /\ exists c a cfg cart',
           CobranzaWizard.selectedContract (CobranzaPage.wizard s) = Some c
           /\ CobranzaWizard.associateData (CobranzaPage.wizard s) = Some a
           /\ CobranzaPage.config s = Some cfg
           /\ let item := CobranzaPage.itemCart cfg c a (CobranzaPage.wizard s)
                            (CobranzaPage.stamp P s) in
              let index := CobranzaPage.duplicateIndex cfg c (CobranzaPage.world s) in
              Effects.cart (CobranzaPage.world final) = Some cart'
              /\ Effects.sessionStorage (CobranzaPage.world final) !! CartService.STORAGE_KEY
                 = Some (Effects.JSON_stringify_Carrito P cart')
              /\ Models.items cart'
                 = (if index =? -1
                    then (CartService.items (CobranzaPage.world s) ++ [item])%list
                    else <[Z.to_nat index := item]> (CartService.items (CobranzaPage.world s)))
              /\ Models.deudasSeleccionadas item
                 = CobranzaTotals.selected (CobranzaPage.wizard s)
              /\ Models.totalGeneral item = CobranzaTotals.totalGeneral (CobranzaPage.wizard s)
              /\ Models.abreviacionMoneda item = CobranzaPage.sc_abreviacionMoneda cfg
              /\ Models.df_correoElectronico (Models.datosFacturacion item)
                 = Models.da_correoElectronico a).
Proof.
  intros final.
  assert (Hstore : forall cfg c a index,
             index = CobranzaPage.duplicateIndex cfg c (CobranzaPage.world s) ->
             let s' := CobranzaPage.store P cfg c a index s in
             (CobranzaPage.navigations s' = CobranzaPage.navigations s
              \/ CobranzaPage.navigations s'
                 = (CobranzaPage.navigations s ++ [["/carrito"]])%list)
             /\ (CobranzaPage.navigations s' <> CobranzaPage.navigations s ->
                 CobranzaPage.wizard s' = CobranzaPage.wizard s
                 /\ exists cart',
                      Effects.cart (CobranzaPage.world s') = Some cart'
                      /\ Effects.sessionStorage (CobranzaPage.world s')
                           !! CartService.STORAGE_KEY
                         = Some (Effects.JSON_stringify_Carrito P cart')
                      /\ Models.items cart'
                         = (if index =? -1
                            then (CartService.items (CobranzaPage.world s)
                                  ++ [CobranzaPage.itemCart cfg c a (CobranzaPage.wizard s)
                                        (CobranzaPage.stamp P s)])%list
                            else <[Z.to_nat index :=
                                     CobranzaPage.itemCart cfg c a (CobranzaPage.wizard s)
                                       (CobranzaPage.stamp P s)]>
                                   (CartService.items (CobranzaPage.world s))))).
  { intros cfg c a index _ s'. subst s'. rewrite store_spec.
    set (item := CobranzaPage.itemCart cfg c a (CobranzaPage.wizard s)
                   (CobranzaPage.stamp P s)).
    destruct (Z.eqb_spec index (-1)) as [->|Hne]; cbn [negb].
    - pose proof (addItem_true P (CobranzaPage.stamped s) item) as Htrue.
      destruct (Effects.returned (CartService.addItem P item (CobranzaPage.stamped s)))
        as [[]|]; cbn.
      + split; [now right|]. intros _. split; [reflexivity|].
        destruct (Htrue eq_refl) as (c' & Hc' & Hitems & Hst & _).
        exists c'. repeat split; assumption.
      + split; [now left | intros H; now contradiction H].
      + split; [now left | intros H; now contradiction H].
    - pose proof (replaceItem_true P index item (CobranzaPage.stamped s)) as Htrue.
      destruct (Effects.returned
                  (CartService.replaceItem P index item (CobranzaPage.stamped s)))
        as [[]|]; cbn.
      + split; [now right|]. intros _. split; [reflexivity|].
        destruct (Htrue eq_refl) as (c' & Hc' & _ & Hitems & Hst).
        exists c'. repeat split; assumption.
      + split; [now left | intros H; now contradiction H].
      + split; [now left | intros H; now contradiction H]. }
  pose proof (addToCart_run P toFixed2 backend s) as Hrun. cbv zeta in Hrun.
  fold final in Hrun.
  destruct Hrun as [(_ & _ & ->) | [(_ & _ & _ & ->) | Hrun]];
    [split; [now left | intros H; now contradiction H] ..|].
  destruct Hrun as (c & a & cfg & Hq & Hc & Ha & Hcfg & Hcases).
  assert (Hdone : forall index,
             index = CobranzaPage.duplicateIndex cfg c (CobranzaPage.world s) ->
             final = CobranzaPage.store P cfg c a index s ->
             (CobranzaPage.navigations final = CobranzaPage.navigations s
              \/ CobranzaPage.navigations final
                 = (CobranzaPage.navigations s ++ [["/carrito"]])%list)
             /\ (CobranzaPage.navigations final <> CobranzaPage.navigations s ->
                 CobranzaPage.wizard final = CobranzaPage.wizard s
                 /\ exists c0 a0 cfg0 cart',
                      CobranzaWizard.selectedContract (CobranzaPage.wizard s) = Some c0
                      /\ CobranzaWizard.associateData (CobranzaPage.wizard s) = Some a0
                      /\ CobranzaPage.config s = Some cfg0
                      /\ let item := CobranzaPage.itemCart cfg0 c0 a0 (CobranzaPage.wizard s)
                                       (CobranzaPage.stamp P s) in
                         let index0 :=
                           CobranzaPage.duplicateIndex cfg0 c0 (CobranzaPage.world s) in
                         Effects.cart (CobranzaPage.world final) = Some cart'
                         /\ Effects.sessionStorage (CobranzaPage.world final)
                              !! CartService.STORAGE_KEY
                            = Some (Effects.JSON_stringify_Carrito P cart')
                         /\ Models.items cart'
                            = (if index0 =? -1
                               then (CartService.items (CobranzaPage.world s) ++ [item])%list
                               else <[Z.to_nat index0 := item]>
                                      (CartService.items (CobranzaPage.world s)))
                         /\ Models.deudasSeleccionadas item
                            = CobranzaTotals.selected (CobranzaPage.wizard s)
                         /\ Models.totalGeneral item
                            = CobranzaTotals.totalGeneral (CobranzaPage.wizard s)
                         /\ Models.abreviacionMoneda item
                            = CobranzaPage.sc_abreviacionMoneda cfg0
                         /\ Models.df_correoElectronico (Models.datosFacturacion item)
                            = Models.da_correoElectronico a0)).
  { intros index Hindex ->. destruct (Hstore cfg c a index Hindex) as [Hnav Hok].
    split; [exact Hnav|]. intros Hne. destruct (Hok Hne) as (Hwiz & cart' & H1 & H2 & H3).
    split; [exact Hwiz|]. exists c, a, cfg, cart'. repeat (split; [assumption|]).
    cbv zeta. rewrite <- Hindex. repeat (split; [assumption|]).
    split; [apply debtsForCart_selected | repeat split]. }
  destruct Hcases as [(first & rest & _ & _ & _ & ->)
                     | [(_ & Hd & _ & Hfinal) | (_ & Hd & existing & _ & _ & _ & Hfinal)]].
  - split; [now left | intros H; now contradiction H].
  - apply (Hdone (-1)); [now rewrite Hd | exact Hfinal].
  - destruct (backend _) as [[]|e].
    + apply (Hdone _ eq_refl Hfinal).
    + rewrite Hfinal. split; [now left | intros H; now contradiction H].
    + rewrite Hfinal. split; [now left | intros H; now contradiction H].
Qed.

Lemma addToCart_stores_selection_witness :
  let s := demo_page "Bs." one_item_world in
  let final := Async.run (answering true)
                 (CobranzaPage.addToCart demo_platform demo_toFixed2 s) in
  CobranzaPage.wizard final = CobranzaPage.wizard s.
Proof.
  intros s final.
  refine (proj1 (proj2 (addToCart_stores_selection demo_platform demo_toFixed2
                          (answering true) s) _)).
  vm_compute. discriminate.
Defined.

(** ** Debt-collection wizard: the service of the page *)

(** X20. The page gets the configuration of its service only from an
    active service whose operations are of kind C: the configuration
    is asked for only after the status query answered that the service
    is active, and it is kept only when its kind is C. When the service
    is active and its configuration arrives with another kind, the
    page navigates once, to the "proximamente" page of the service,
    and keeps the configuration it had; in every other case it does
    not navigate. An answer that the service is not active (or an
    answer without data) raises the error modal ERR_SERVICE_INACTIVE,
    which leads back to the main page. In every case the loading flag
    ends cleared, and it is already cleared while the configuration is
    awaited. *)
Theorem service_gate
    (backend : forall r, Async.Outcome (CobranzaPage.Resp r))
    (s : CobranzaPage.Page) :
  let alias := CobranzaWizard.aliasServicio (CobranzaPage.wizard s) in
  let task := CobranzaPage.checkServiceStatusAndLoadConfig s in
  let final := Async.run backend task in
  let status := backend (CobranzaPage.checkServiceStatus alias) in
  let active := CobranzaPage.service_active status in
  let answer := CobranzaPage.config_of (backend (CobranzaPage.getServiceConfig alias)) in
  Async.requests backend task
  = CobranzaPage.checkServiceStatus alias
    :: (if active then [CobranzaPage.getServiceConfig alias] else [])
  /\ Forall (fun s' => CobranzaWizard.loading (CobranzaPage.wizard s') = false)
       (tail (Async.states backend task))
  /\ CobranzaWizard.loading (CobranzaPage.wizard final) = false
  /\ (CobranzaPage.config s = None ->
      forall cfg,
        CobranzaPage.config final = Some cfg
        <-> active = true
            /\ answer = Some cfg
            /\ CobranzaPage.formaOperaciones cfg = "C")
  /\ CobranzaPage.navigations final
     = (CobranzaPage.navigations s
        ++ match answer with
           | Some cfg =>
               if active && negb (String.eqb (CobranzaPage.formaOperaciones cfg) "C")
               then [["/servicio"; alias; "proximamente"]]
               else []
           | None => []
           end)%list
  /\ (CobranzaPage.navigations final <> CobranzaPage.navigations s ->
      CobranzaPage.config final = CobranzaPage.config s)
  /\ (active = false -> (exists response, status = Async.Next response) ->
      ErrorModal.isVisible (CobranzaPage.errorModal final) = true
      /\ ErrorModal.code (ErrorModal.config (CobranzaPage.errorModal final))
         = Some "ERR_SERVICE_INACTIVE"
      /\ ErrorModal.redirectToMain (ErrorModal.config (CobranzaPage.errorModal final))
         = true
      /\ CobranzaPage.config final = CobranzaPage.config s).
Proof.
  intros alias task final status active answer. subst task final active status answer alias.
  unfold CobranzaPage.checkServiceStatusAndLoadConfig. cbn.
  set (alias := CobranzaWizard.aliasServicio (CobranzaPage.wizard s)).
  assert (Hfail : forall e msg (p : CobranzaPage.Page),
             CobranzaPage.config (CobranzaPage.handleApiError e msg p) = CobranzaPage.config p
             /\ CobranzaPage.navigations (CobranzaPage.handleApiError e msg p)
                = CobranzaPage.navigations p).
  { intros e msg p. unfold CobranzaPage.handleApiError.
    destruct (ErrorModal.handleHttpError e _) as [[] m]; split; reflexivity. }
  assert (Hnone : forall (b : bool) (o : option CobranzaPage.ServicioConfig),
             CobranzaPage.config s = None -> forall cfg0 : CobranzaPage.ServicioConfig,
             CobranzaPage.config s = Some cfg0
             <-> false = true /\ o = Some cfg0
                            /\ CobranzaPage.formaOperaciones cfg0 = "C").
  { intros b o Hc cfg0. split; [congruence | intros [[=] _]]. }
  assert (Hstay : forall (o : option CobranzaPage.ServicioConfig),
             CobranzaPage.navigations s
             = (CobranzaPage.navigations s
                ++ match o with
                   | Some cfg =>
                       if false && negb (String.eqb (CobranzaPage.formaOperaciones cfg) "C")
                       then [["/servicio"; alias; "proximamente"]]
                       else []
                   | None => []
                   end)%list).
  { intros [cfg|]; cbn; now rewrite app_nil_r. }
  destruct (backend (CobranzaPage.checkServiceStatus alias)) as [[[[] [data|]]|]|e]; cbn.
  2-5: split; [reflexivity|]; split; [repeat constructor|]; split; [reflexivity|];
       split; [apply (Hnone true)|]; split; [apply Hstay|];
       split; [intros Hn; now contradiction Hn|];
       intros _ _; repeat split.
  2: { split; [reflexivity|]. split; [repeat constructor|]. split; [reflexivity|].
       rewrite (proj1 (Hfail _ _ _)), (proj2 (Hfail _ _ _)). cbn.
       split; [apply (Hnone true)|]. split; [apply Hstay|].
       split; [intros Hn; now contradiction Hn|].
       intros _ [r [=]]. }
  destruct (CobranzaPage.estadoServicio data) eqn:Hactive; cbn.
  2: { split; [reflexivity|]. split; [repeat constructor|]. split; [reflexivity|].
       split; [apply (Hnone true)|]. split; [apply Hstay|].
       split; [intros Hn; now contradiction Hn|].
       intros _ _; repeat split. }
  unfold CobranzaPage.loadServicioConfig_next, CobranzaPage.loadServicioConfig_error.
  destruct (backend (CobranzaPage.getServiceConfig alias)) as [[[[] [cfg|]]|]|e]; cbn.
  2-5: split; [reflexivity|]; split; [repeat constructor|]; split; [reflexivity|];
       split; [intros Hc cfg0; split; [congruence | intros (_ & [=] & _)]|];
       split; [now rewrite app_nil_r|];
       split; [intros Hn; now contradiction Hn | intros [=]].
  2: { split; [reflexivity|]. split; [repeat constructor|]. split; [reflexivity|].
       rewrite (proj1 (Hfail _ _ _)), (proj2 (Hfail _ _ _)). cbn.
       split; [intros Hc cfg0; split; [congruence | intros (_ & [=] & _)]|].
       split; [now rewrite app_nil_r|].
       split; [intros Hn; now contradiction Hn | intros [=]]. }
  destruct (String.eqb_spec (CobranzaPage.formaOperaciones cfg) "C") as [HC|HC]; cbn.
  - split; [reflexivity|]. split; [repeat constructor|]. split; [reflexivity|].
    split; [|split; [now rewrite app_nil_r|];
             split; [intros Hn; now contradiction Hn | intros [=]]].
    intros _ cfg0. split.
    + intros [= <-]. repeat split. exact HC.
    + intros (_ & [= <-] & _). reflexivity.
  - split; [reflexivity|]. split; [repeat constructor|]. split; [reflexivity|].
    split; [|split; [reflexivity|]; split; [intros _; reflexivity | intros [=]]].
    intros Hc cfg0. split; [congruence|]. intros (_ & [= <-] & H). contradiction.
Qed.

Lemma service_gate_witness :
  let s := CobranzaPage.on_wizard
             (fun _ => three_debts) new_page in
  CobranzaPage.config
    (Async.run (service_backend true "C") (CobranzaPage.checkServiceStatusAndLoadConfig s))
  = Some (demo_config "Bs.").
Proof.
  intros s.
  apply (proj1 (proj2 (proj2 (proj2 (service_gate (service_backend true "C") s))))
           eq_refl (demo_config "Bs.")).
  repeat split.
Defined.

(** ** Checkout wizard: navigation *)

Section CheckoutNav.
  Import Async CheckoutWizard.
  Variable backend : forall r, Outcome (Resp r).

Lemma nextStep_eq (c : CheckoutWizard.t) :
  nextStep c
  = set_currentStep (if currentStep c <? 5 then currentStep c + 1 else currentStep c)
      (clearErrors c).
Proof.
  unfold nextStep, totalSteps. cbn. destruct (currentStep c <? 5); [reflexivity|].
  now destruct c.
Qed.

Lemma nextStep_moved (c0 c : CheckoutWizard.t) :
  currentStep c = currentStep c0 -> itemsCart c = itemsCart c0 -> form c = form c0 ->
  qrData c = qrData c0 ->
  moved c0 (nextStep c).
Proof.
  intros H1 H2 H3 H4. rewrite nextStep_eq. unfold moved. cbn.
  repeat (split; [assumption|]). rewrite H1.
  destruct (currentStep c0 <? 5); [right | left]; split; auto.
Qed.

Lemma checkout_handleApiError_ui e msg (s : Sys) :
  world (handleApiError e msg s) = world s
  /\ (ui (handleApiError e msg s) = ui s
      \/ ui (handleApiError e msg s) = addError msg (ui s)).
Proof.
  unfold handleApiError. destruct (ErrorModal.handleHttpError e _) as [[] m]; cbn; auto.
Qed.

Lemma validateNIT_moved (s : Sys) :
  errors (ui s) = [] ->
  world (run backend (validateNIT s)) = world s
  /\ moved (ui s) (ui (run backend (validateNIT s))).
Proof.
  intros Herr. unfold validateNIT.
  destruct (negb _); [split; [reflexivity | now apply nextStep_moved]|].
  destruct (includes _ _); [split; [reflexivity | now apply nextStep_moved]|].
  destruct (String.eqb _ "true"); [split; [reflexivity | now apply nextStep_moved]|].
  cbn. destruct (backend _) as [response|e]; cbn.
  - destruct (nit_valid response); cbn;
      [split; [reflexivity | now apply nextStep_moved]|].
    destruct (String.eqb _ "true"); cbn;
      [split; [reflexivity | now apply nextStep_moved]|].
    split; [reflexivity|]. unfold moved. cbn. repeat (split; [reflexivity|]).
    left. split; [reflexivity|]. rewrite Herr. cbn. lia.
  - destruct (checkout_handleApiError_ui e "Error al validar NIT"
                (on_ui (set_loading true) s)) as [Hw [Hu|Hu]];
      (split; [exact Hw|]); rewrite Hu; unfold moved; cbn;
      repeat (split; [reflexivity|]); left; (split; [reflexivity|]);
      rewrite Herr; cbn; lia.
Qed.

Lemma handleNextStep_moved (s : Sys) :
  world (run backend (handleNextStep s)) = world s
  /\ moved (ui s) (ui (run backend (handleNextStep s)))
  /\ (fst (validateCurrentStep (ui s)) = false ->
      requests backend (handleNextStep s) = []
      /\ currentStep (ui (run backend (handleNextStep s))) = currentStep (ui s)
      /\ List.length (errors (ui (run backend (handleNextStep s)))) = 1%nat).
Proof.
  unfold handleNextStep.
  destruct (validateCurrentStep_shape (ui s)) as [-> | [msg ->]]; cbn.
  - destruct (_ && _); cbn.
    + match goal with
      | |- context [validateNIT ?s0] =>
          destruct (validateNIT_moved s0 eq_refl) as [Hw Hm]
      end.
      cbn in Hw, Hm. split; [exact Hw|]. split; [|discriminate].
      destruct Hm as (H1 & H2 & H3 & H4). repeat (split; [assumption|]). exact H4.
    + split; [reflexivity|]. split; [|discriminate].
      now apply nextStep_moved.
  - split; [reflexivity|]. split; [|intros _; repeat split].
    unfold moved. cbn. repeat (split; [reflexivity|]). left. split; [reflexivity | lia].
Qed.
End CheckoutNav.

(** X21. [handleNextStep] moves the wizard forward by at most one
    step and never back. When it ends, at most one message is on
    display, and none if the wizard has moved. A step whose validation
    fails is left on its step with exactly one message and no call to
    the backend. The cart, the items on display, the form and the QR
    data are never changed by it. *)
Theorem handleNextStep_one_step
    (backend : forall r, Async.Outcome (CheckoutWizard.Resp r))
    (s : CheckoutWizard.Sys) :
  let task := CheckoutWizard.handleNextStep s in
  let final := Async.run backend task in
  let c := CheckoutWizard.ui s in
  let c' := CheckoutWizard.ui final in
  (CheckoutWizard.currentStep c' = CheckoutWizard.currentStep c
   \/ CheckoutWizard.currentStep c' = CheckoutWizard.currentStep c + 1)
  /\ (List.length (CheckoutWizard.errors c') <= 1)%nat
  /\ (CheckoutWizard.currentStep c' <> CheckoutWizard.currentStep c ->
      CheckoutWizard.errors c' = [])
  /\ (fst (CheckoutWizard.validateCurrentStep c) = false ->
      Async.requests backend task = []
      /\ CheckoutWizard.currentStep c' = CheckoutWizard.currentStep c
      /\ List.length (CheckoutWizard.errors c') = 1%nat)
  /\ CheckoutWizard.world final = CheckoutWizard.world s
  /\ CheckoutWizard.itemsCart c' = CheckoutWizard.itemsCart c
  /\ CheckoutWizard.form c' = CheckoutWizard.form c
  /\ CheckoutWizard.qrData c' = CheckoutWizard.qrData c.
Proof.
  intros task final c c'. subst task final c c'.
  destruct (handleNextStep_moved backend s) as (Hw & (H1 & H2 & H3 & Hm) & Hfail).
  split; [destruct Hm as [[-> _] | [-> _]]; auto|].
  split; [destruct Hm as [[_ H] | [_ ->]]; [exact H | cbn; lia]|].
  split; [intros Hne; destruct Hm as [[H _] | [_ H]]; [contradiction | exact H]|].
  split; [exact Hfail|]. repeat split; assumption.
Qed.

Lemma handleNextStep_one_step_witness :
  let s := checkout_at 3 "12345678" "not an address" in
  let task := CheckoutWizard.handleNextStep s in
  Async.requests offline_backend task = []
  /\ CheckoutWizard.currentStep (CheckoutWizard.ui (Async.run offline_backend task)) = 3
  /\ List.length (CheckoutWizard.errors (CheckoutWizard.ui (Async.run offline_backend task)))
     = 1%nat.
Proof.
  intros s task.
  exact (proj1 (proj2 (proj2 (proj2 (handleNextStep_one_step offline_backend s)))) eq_refl).
Defined.

(** ** Checkout wizard: validation *)

(** X22. The button to go on is enabled on every step that would
    pass its validation: on steps 1 to 4, when [validateCurrentStep]
    accepts the step, [canAdvance] is true. On steps 1, 2 and 4 the two
    agree exactly; on step 3 [canAdvance] only asks for an address that
    is not blank. *)
Theorem validation_implies_canAdvance (c : CheckoutWizard.t) :
  1 <= CheckoutWizard.currentStep c <= 4 ->
  (fst (CheckoutWizard.validateCurrentStep c) = true -> CheckoutWizard.canAdvance c = true)
  /\ (CheckoutWizard.currentStep c <> 3 ->
      CheckoutWizard.canAdvance c = fst (CheckoutWizard.validateCurrentStep c))
  /\ (CheckoutWizard.currentStep c = 3 ->
      CheckoutWizard.canAdvance c
      = negb (blank (CheckoutWizard.correoElectronico (CheckoutWizard.form c)))).
Proof.
  intros Hstep.
  assert (Hcases : CheckoutWizard.currentStep c = 1 \/ CheckoutWizard.currentStep c = 2
                   \/ CheckoutWizard.currentStep c = 3 \/ CheckoutWizard.currentStep c = 4)
    by lia.
  unfold CheckoutWizard.validateCurrentStep, CheckoutWizard.canAdvance.
  change (CheckoutWizard.currentStep (CheckoutWizard.clearErrors c))
    with (CheckoutWizard.currentStep c).
  change (CheckoutWizard.hasItems (CheckoutWizard.clearErrors c))
    with (CheckoutWizard.hasItems c).
  change (CheckoutWizard.form (CheckoutWizard.clearErrors c)) with (CheckoutWizard.form c).
  destruct Hcases as [-> | [-> | [H3 | ->]]].
  - cbn. destruct (List.length _); cbn;
      repeat split; intros; try reflexivity; try discriminate; try assumption.
  - cbn. rewrite falsy_eqb.
    destruct (String.eqb _ ""); cbn;
      repeat split; intros; try reflexivity; try discriminate; try assumption.
  - rewrite H3. cbn [Z.eqb Pos.eqb]. cbv iota.
    rewrite <- falsy_eqb, falsy_trim.
    split; [|split; [intros H; now contradiction H | reflexivity]].
    unfold CheckoutWizard.validateBillingShipping.
    change (CheckoutWizard.form (CheckoutWizard.clearErrors c)) with (CheckoutWizard.form c).
    rewrite falsy_trim.
    destruct (blank _); cbn; [discriminate | reflexivity].
  - cbn. repeat split; intros; try reflexivity; discriminate.
Qed.

Lemma validation_implies_canAdvance_witness :
  CheckoutWizard.canAdvance (CheckoutWizard.ui (checkout_at 3 "12345678" "ana@example.com"))
  = true.
Proof.
  apply (proj1 (validation_implies_canAdvance
                  (CheckoutWizard.ui (checkout_at 3 "12345678" "ana@example.com"))
                  ltac:(vm_compute; split; discriminate))).
  reflexivity.
Defined.

(** X23. Billing without a name never needs the NIT service: after
    [changeBillingDataMode(true)] the form carries the document 99002
    of type 5 under the name CONTROL TRIBUTARIO, and on step 3 with an
    address the pattern accepts, [handleNextStep] goes to step 4 with no
    message and no call to the backend, with or without commissions.
    After [changeBillingDataMode(false)] the name and the document
    number are empty, so with commissions in the cart step 3 does not
    pass until they are typed. *)
Theorem unnamed_billing_skips_NIT
    (backend : forall r, Async.Outcome (CheckoutWizard.Resp r))
    (s : CheckoutWizard.Sys) :
  CheckoutWizard.currentStep (CheckoutWizard.ui s) = 3 ->
  CheckoutWizard.regex_test CheckoutWizard.emailRegex
    (CheckoutWizard.correoElectronico (CheckoutWizard.form (CheckoutWizard.ui s))) = true ->
  (let task := CheckoutWizard.handleNextStep
                 (CheckoutWizard.on_ui (CheckoutWizard.changeBillingDataMode true) s) in
   Async.requests backend task = []
   /\ CheckoutWizard.currentStep (CheckoutWizard.ui (Async.run backend task)) = 4
   /\ CheckoutWizard.errors (CheckoutWizard.ui (Async.run backend task)) = [])
  /\ (CheckoutWizard.hasCommissions (CheckoutWizard.ui s) = true ->
      CheckoutWizard.validateCurrentStep
        (CheckoutWizard.changeBillingDataMode false (CheckoutWizard.ui s))
      = (false,
         CheckoutWizard.addError "La Razon Social es obligatoria"
           (CheckoutWizard.clearErrors
              (CheckoutWizard.changeBillingDataMode false (CheckoutWizard.ui s))))).
Proof.
  intros Hstep Hmail. destruct s as [c w m]. cbn in Hstep, Hmail. split.
  - unfold CheckoutWizard.handleNextStep. cbn [CheckoutWizard.ui CheckoutWizard.on_ui].
    remember (CheckoutWizard.changeBillingDataMode true c) as c1 eqn:Hc1.
    assert (Hs1 : CheckoutWizard.currentStep c1 = 3) by (subst c1; exact Hstep).
    assert (Hm1 : CheckoutWizard.regex_test CheckoutWizard.emailRegex
                    (CheckoutWizard.correoElectronico (CheckoutWizard.form c1)) = true)
      by (subst c1; exact Hmail).
    assert (Hr1 : CheckoutWizard.razonSocial (CheckoutWizard.form c1) = "CONTROL TRIBUTARIO")
      by (subst c1; reflexivity).
    assert (Hd1 : CheckoutWizard.documentoSIN (CheckoutWizard.form c1) = "99002")
      by (subst c1; reflexivity).
    assert (Ht1 : CheckoutWizard.tipoDocumento (CheckoutWizard.form c1) = 5)
      by (subst c1; reflexivity).
    clear Hc1. rewrite (validateCurrentStep_step3 c1 Hs1 Hm1), Hr1, Hd1.
    change (blank "CONTROL TRIBUTARIO") with false. change (blank "99002") with false.
    cbv iota.
    assert (Hnext : forall s1 : CheckoutWizard.Sys,
               CheckoutWizard.ui s1 = CheckoutWizard.clearErrors c1 ->
               Async.requests backend (Async.Done (CheckoutWizard.on_ui CheckoutWizard.nextStep s1))
               = []
               /\ CheckoutWizard.currentStep
                    (CheckoutWizard.ui
                       (Async.run backend
                          (Async.Done (CheckoutWizard.on_ui CheckoutWizard.nextStep s1)))) = 4
               /\ CheckoutWizard.errors
                    (CheckoutWizard.ui
                       (Async.run backend
                          (Async.Done (CheckoutWizard.on_ui CheckoutWizard.nextStep s1)))) = []).
    { intros s1 Hs. cbn. rewrite nextStep_eq, Hs. cbn. rewrite Hs1. repeat split. }
    destruct (CheckoutWizard.hasCommissions c1) eqn:Hcom; cbn [negb];
      cbn [CheckoutWizard.ui CheckoutWizard.world CheckoutWizard.errorModal];
      change (CheckoutWizard.currentStep (CheckoutWizard.clearErrors c1))
        with (CheckoutWizard.currentStep c1);
      change (CheckoutWizard.hasCommissions (CheckoutWizard.clearErrors c1))
        with (CheckoutWizard.hasCommissions c1);
      change (CheckoutWizard.form (CheckoutWizard.clearErrors c1))
        with (CheckoutWizard.form c1);
      rewrite Hs1, Hcom, ?Ht1; cbn [Z.eqb Pos.eqb andb]; cbv iota.
    + unfold CheckoutWizard.validateNIT.
      cbn [CheckoutWizard.ui].
      change (CheckoutWizard.form (CheckoutWizard.clearErrors c1))
        with (CheckoutWizard.form c1).
      rewrite Ht1, Hd1. cbn [Z.eqb Pos.eqb negb]. cbv iota.
      change (CheckoutWizard.includes CheckoutWizard.special_NITs "99002") with true.
      cbv iota. now apply Hnext.
    + now apply Hnext.
  - intros Hcom. cbn [CheckoutWizard.ui] in *.
    rewrite validateCurrentStep_step3; [|exact Hstep | exact Hmail].
    change (CheckoutWizard.hasCommissions (CheckoutWizard.changeBillingDataMode false c))
      with (CheckoutWizard.hasCommissions c).
    rewrite Hcom. reflexivity.
Qed.

Lemma unnamed_billing_skips_NIT_witness :
  let s := checkout_at 3 "12345678" "ana@example.com" in
  let task := CheckoutWizard.handleNextStep
                (CheckoutWizard.on_ui (CheckoutWizard.changeBillingDataMode true) s) in
  Async.requests offline_backend task = []
  /\ CheckoutWizard.currentStep (CheckoutWizard.ui (Async.run offline_backend task)) = 4
  /\ CheckoutWizard.errors (CheckoutWizard.ui (Async.run offline_backend task)) = [].
Proof.
  intros s task.
  exact (proj1 (unnamed_billing_skips_NIT offline_backend s eq_refl eq_refl)).
Defined.

(** ** Checkout wizard: one call at a time, and the items on display *)

(** X24. While a payment is in flight the wizard is loading, and a
    second [processPayment] then does nothing: in every state the
    component shows between the submission and its end, [loading] is
    set and [processPayment] returns at once with the state as it is.
    The same holds of the search of the debt-collection wizard. *)
Theorem one_call_in_flight
    (backend : forall r, Async.Outcome (CheckoutWizard.Resp r))
    (s : CheckoutWizard.Sys)
    (backend' : forall r, Async.Outcome (CobranzaWizard.Resp r))
    (t : CobranzaWizard.State) :
  (forall s',
      In s' (removelast (Async.states backend (CheckoutWizard.processPayment s))) ->
      CheckoutWizard.loading (CheckoutWizard.ui s') = true
      /\ CheckoutWizard.processPayment s' = Async.Done s')
  /\ (forall t',
         In t' (removelast (Async.states backend' (CobranzaWizard.consultContracts t))) ->
         CobranzaWizard.loading (fst t') = true
         /\ CobranzaWizard.consultContracts t' = Async.Done t').
Proof.
  split.
  - intros s'. unfold CheckoutWizard.processPayment at 1.
    destruct (CheckoutWizard.loading (CheckoutWizard.ui s)); [intros []|].
    destruct (JS.falsy _); [intros []|].
    destruct (negb _); [intros []|].
    cbn. destruct (backend CheckoutWizard.fingerprint_generate) as [fp|e]; cbn.
    + destruct (backend (CheckoutWizard.generateQRcode _)); cbn;
        intros [<- | [<- | []]]; split; reflexivity.
    + intros [<- | []]; split; reflexivity.
  - intros t'. unfold CobranzaWizard.consultContracts at 1.
    destruct (CobranzaWizard.loading (fst t)); [intros []|].
    destruct (JS.falsy _); [intros []|].
    cbn. destruct (backend' _) as [response|e]; cbn.
    2: { intros [<- | []]; split; reflexivity. }
    destruct (CobranzaWizard.accepted_contracts response) as [[|c [|c' cs]]|]; cbn.
    + intros [<- | []]; split; reflexivity.
    + destruct (backend' (CobranzaWizard.consultDebts_request _ _)); cbn;
        intros [<- | [<- | []]]; split; reflexivity.
    + intros [<- | []]; split; reflexivity.
    + intros [<- | []]; split; reflexivity.
Qed.

Lemma one_call_in_flight_witness :
  let s := checkout_at 4 "99002" "ana@example.com" in
  let waiting := CheckoutWizard.on_ui (CheckoutWizard.set_loading true) s in
  CheckoutWizard.loading (CheckoutWizard.ui waiting) = true
  /\ CheckoutWizard.processPayment waiting = Async.Done waiting.
Proof.
  intros s waiting.
  apply (proj1 (one_call_in_flight offline_backend s
                  (fun r => Async.Error Async.Other) (CobranzaWizard.initial, ErrorModal.initial))
           waiting).
  left. reflexivity.
Defined.

Section CheckoutItems.
  Import Effects CheckoutWizard.
  Variable P : Platform.

Lemma checkout_removeItem_result (index : Z) (w : World) :
  (exists w', CartService.removeItem P index w = Ok tt w')
  \/ (exists w', CartService.removeItem P index w = Throw w').
Proof.
  destruct (CartService.removeItem P index w) as [[] w'|w']; eauto.
Qed.
End CheckoutItems.

(** X25. [removeItem] of the checkout wizard does nothing for an
    index outside the list it shows. Inside it, the store drops the
    item at that index, and when the store returns, the list on display
    is the list of the store again, so a list that was the store's
    loses exactly that item. When the storage refuses the write, the
    store has dropped the item but the list on display still shows it.
    The step, the form and the messages are not touched. *)
Theorem checkout_removeItem_sync
    (P : Effects.Platform) (index : Z) (s : CheckoutWizard.Sys) :
  let shown := CheckoutWizard.itemsCart (CheckoutWizard.ui s) in
  let s' := CheckoutWizard.removeItem P index s in
  (index < 0 \/ Z.of_nat (List.length shown) <= index -> s' = s)
  /\ (0 <= index < Z.of_nat (List.length shown) ->
      CartService.items (CheckoutWizard.world s')
      = CartService.filter_index 0 index (CartService.items (CheckoutWizard.world s))
      /\ CheckoutWizard.world s'
         = Effects.world_of (CartService.removeItem P index (CheckoutWizard.world s))
      /\ CheckoutWizard.currentStep (CheckoutWizard.ui s')
         = CheckoutWizard.currentStep (CheckoutWizard.ui s)
      /\ CheckoutWizard.form (CheckoutWizard.ui s') = CheckoutWizard.form (CheckoutWizard.ui s)
      /\ CheckoutWizard.errors (CheckoutWizard.ui s')
         = CheckoutWizard.errors (CheckoutWizard.ui s)
      /\ match Effects.returned (CartService.removeItem P index (CheckoutWizard.world s)) with
         | Some _ =>
             CheckoutWizard.itemsCart (CheckoutWizard.ui s')
             = CartService.items (CheckoutWizard.world s')
             /\ (shown = CartService.items (CheckoutWizard.world s) ->
                 CheckoutWizard.itemsCart (CheckoutWizard.ui s')
                 = delete (Z.to_nat index) shown)
         | None => CheckoutWizard.itemsCart (CheckoutWizard.ui s') = shown
         end).
Proof.
  intros shown s'. subst shown s'. unfold CheckoutWizard.removeItem. split.
  - intros Hout.
    destruct (Z.ltb_spec index 0); [reflexivity|].
    destruct (Z.leb_spec (Z.of_nat (List.length
                (CheckoutWizard.itemsCart (CheckoutWizard.ui s)))) index);
      [reflexivity | lia].
  - intros Hin.
    destruct (Z.ltb_spec index 0); [lia|].
    destruct (Z.leb_spec (Z.of_nat (List.length
                (CheckoutWizard.itemsCart (CheckoutWizard.ui s)))) index); [lia|].
    cbn [orb]. cbv iota.
    pose proof (removeItem_items_filter P (CheckoutWizard.world s) index) as Hitems.
    destruct (CartService.removeItem P index (CheckoutWizard.world s)) as [[] w'|w'];
      cbn in *; (split; [assumption|]); do 4 (split; [reflexivity|]).
    + split; [reflexivity|]. intros Hshown. rewrite Hshown, Hitems.
      rewrite filter_index_delete by lia. now rewrite Z.sub_0_r.
    + reflexivity.
Qed.

Lemma checkout_removeItem_sync_witness :
  let s := CheckoutWizard.loadCart (checkout_at 1 "99002" "ana@example.com") in
  CheckoutWizard.removeItem demo_platform 7 s = s.
Proof.
  intros s.
  apply (proj1 (checkout_removeItem_sync demo_platform 7 s)).
  right. vm_compute. discriminate.
Defined.

(** ** Totals: commissions after rounding *)

Section Rounding.

(** A rounded amount is positive exactly from half a cent on. *)
Lemma toDecimalPlaces2_positive (q : Q) :
  Decimal.positive (Decimal.toDecimalPlaces2 q) = true <-> Qle (1 # 200) q.
Proof.
  unfold Decimal.positive, Decimal.toDecimalPlaces2, Qle. destruct q as [n d]. cbn.
  rewrite Z.ltb_lt.
  destruct (Z.lt_trichotomy n 0) as [Hn | [-> | Hn]].
  - split; [|lia]. intros H. exfalso.
    assert (0 <= (2 * Z.abs (n * 100) + Z.pos d) / (2 * Z.pos d))
      by (apply Z.div_pos; lia).
    assert (Z.sgn (n * 100) = -1) by (apply Z.sgn_neg; lia). nia.
  - cbn. split; lia.
  - assert (Hs : Z.sgn (n * 100) = 1) by (apply Z.sgn_pos; lia).
    rewrite Hs, Z.mul_1_l, Z.abs_eq by lia.
    destruct (Z.le_gt_cases (2 * Z.pos d) (2 * (n * 100) + Z.pos d)) as [Hle|Hgt].
    + split; [lia|]. intros _. apply Z.div_str_pos. lia.
    + rewrite Z.div_small by lia. split; lia.
Qed.
End Rounding.

(** X26. The checkout wizard sees commissions exactly when the sum
    of the commissions of its items is at least half a cent: its total
    is rounded to two decimals before it is compared with zero. The
    cart store compares the sum itself, so on the same items the store
    sees commissions whenever the wizard does, and a positive sum under
    half a cent is a commission for the store only. *)
Theorem hasCommissions_threshold (s : CheckoutWizard.Sys) :
  let c := CheckoutWizard.ui s in
  let commissions := Decimal.sum (List.map Models.totalComision (CheckoutWizard.itemsCart c)) in
  (CheckoutWizard.hasCommissions c = true <-> Qle (1 # 200) commissions)
  /\ (CheckoutWizard.itemsCart c = CartService.items (CheckoutWizard.world s) ->
      (CheckoutWizard.hasCommissions c = true ->
       CartComputed.hasCommissions (CheckoutWizard.world s) = true)
      /\ (Qlt 0 commissions -> Qlt commissions (1 # 200) ->
          CartComputed.hasCommissions (CheckoutWizard.world s) = true
          /\ CheckoutWizard.hasCommissions c = false)).
Proof.
  intros c commissions.
  assert (Hiff : CheckoutWizard.hasCommissions c = true <-> Qle (1 # 200) commissions)
    by apply toDecimalPlaces2_positive.
  split; [exact Hiff|]. intros Hsame.
  assert (Hstore : CartComputed.hasCommissions (CheckoutWizard.world s) = true
                   <-> Qlt 0 commissions).
  { unfold CartComputed.hasCommissions, CartComputed.totalCommissions, Decimal.positive.
    rewrite <- Hsame. fold c. fold commissions. unfold Qlt. cbn. rewrite Z.ltb_lt. lia. }
  split.
  - intros H%Hiff. apply Hstore. eapply Qlt_le_trans; [|exact H]. reflexivity.
  - intros Hpos Hsmall. split; [now apply Hstore|].
    destruct (CheckoutWizard.hasCommissions c) eqn:Hc; [|reflexivity].
    exfalso. apply (Qlt_not_le _ _ Hsmall). now apply Hiff.
Qed.

Lemma hasCommissions_threshold_witness :
  let s := CheckoutWizard.loadCart (checkout_at 1 "99002" "ana@example.com") in
  CartComputed.hasCommissions (CheckoutWizard.world s) = true.
Proof.
  intros s.
  exact (proj1 (proj2 (hasCommissions_threshold s) eq_refl) eq_refl).
Defined.

(** ** Fingerprint generator: the cache *)

Ltac run_fingerprint :=
  unfold FingerprintService.generate, FingerprintService.fresh,
    FingerprintService.getCached, FingerprintService.setCached,
    FingerprintService.collectComponents, FingerprintService.hashComponents,
    Effects.getItem, Effects.setItem, Effects.removeItem, Effects.Date_now,
    Effects.try_catch, Effects.throw, Effects.read, Effects.write,
    mbind, Effects.M_bind, mret, Effects.M_ret in *;
  cbn in *.

(** X27. A cached fingerprint is served for five minutes from the
    moment it was written, and serving it does not renew it. When the
    storage holds an entry that parses, with a fingerprint that is not
    empty, and the clock is at most 300000 ms past its timestamp,
    [generate] returns that fingerprint without collecting anything: it
    only reads the clock once and sets the signal, and the storage is
    as it was. When the clock is further, the entry is removed and
    [generate] goes on as it does on a storage without entry. *)
Theorem generate_cache_window
    (P : Effects.Platform) (w : Effects.World) (text : string)
    (entry : Effects.FingerprintCache) :
  Effects.sessionStorage w !! FingerprintService.CACHE_KEY = Some text ->
  JS.falsy text = false ->
  Effects.JSON_parse_FingerprintCache P text = Some entry ->
  JS.falsy (Effects.fc_fingerprint entry) = false ->
  let now := Effects.Date_now_at P (Effects.clock_reads w) in
  (now - Effects.fc_timestamp entry <= FingerprintService.CACHE_DURATION ->
   FingerprintService.generate P w
   = Effects.Ok (Effects.fc_fingerprint entry)
       (Effects.set_fingerprint (Effects.fc_fingerprint entry)
          (Effects.set_clock_reads (S (Effects.clock_reads w)) w)))
  /\ (FingerprintService.CACHE_DURATION < now - Effects.fc_timestamp entry ->
      FingerprintService.generate P w = FingerprintService.generate P (expired w)
      /\ Effects.sessionStorage (expired w) !! FingerprintService.CACHE_KEY = None).
Proof.
  intros Hst Htext Hparse Hfp now. subst now. destruct w as [st c f cr rr]. cbn in *.
  split.
  - intros Hin. run_fingerprint. rewrite Hst. cbn. rewrite Htext, Hparse. cbn.
    destruct (Z.ltb_spec FingerprintService.CACHE_DURATION
                (Effects.Date_now_at P cr - Effects.fc_timestamp entry)); [lia|].
    cbn. rewrite Hfp. reflexivity.
  - intros Hout. split; [|apply lookup_delete_eq].
    unfold expired. run_fingerprint. rewrite Hst, lookup_delete_eq. cbn.
    rewrite Htext, Hparse. cbn.
    destruct (Z.ltb_spec FingerprintService.CACHE_DURATION
                (Effects.Date_now_at P cr - Effects.fc_timestamp entry)); [|lia].
    reflexivity.
Qed.

Lemma generate_cache_window_witness :
  FingerprintService.generate caching_platform (cached_world 1000)
  = Effects.Ok "9f86d081"
      (Effects.set_fingerprint "9f86d081" (Effects.set_clock_reads 1001 (cached_world 1000))).
Proof.
  apply (proj1 (generate_cache_window caching_platform (cached_world 1000) "9f86d081"
                  {| Effects.fc_fingerprint := "9f86d081";
                     Effects.fc_timestamp := 1700000000000 |}
                  eq_refl eq_refl eq_refl eq_refl)).
  vm_compute. discriminate.
Defined.

(** X28. On a storage without entry, [generate] returns the digest
    of the collected components and sets the signal; it caches the
    digest with the clock reading when the storage takes the write, and
    returns it all the same when the storage refuses. When the
    components cannot be collected or there is no digest, it returns
    the empty string and leaves no trace: nothing is cached, the signal
    and the clock are as they were, so the next call tries again. *)
Theorem generate_without_cache (P : Effects.Platform) (w : Effects.World) :
  Effects.sessionStorage w !! FingerprintService.CACHE_KEY = None ->
  let digest := match Effects.collected_components P with
                | Some components => default "" (Effects.sha256_hex P components)
                | None => ""
                end in
  let now := Effects.Date_now_at P (Effects.clock_reads w) in
  let text := Effects.JSON_stringify_FingerprintCache P
                {| Effects.fc_fingerprint := digest; Effects.fc_timestamp := now |} in
  (JS.falsy digest = true -> FingerprintService.generate P w = Effects.Ok "" w)
  /\ (JS.falsy digest = false ->
      exists w',
        FingerprintService.generate P w = Effects.Ok digest w'
        /\ Effects.fingerprint w' = digest
        /\ Effects.cart w' = Effects.cart w
        /\ Effects.sessionStorage w'
           = if Effects.setItem_accepts P (Effects.sessionStorage w)
                  FingerprintService.CACHE_KEY text
             then <[FingerprintService.CACHE_KEY := text]> (Effects.sessionStorage w)
             else Effects.sessionStorage w).
Proof.
  intros Hst digest now text. subst digest now text. destruct w as [st c f cr rr].
  cbn in *. run_fingerprint. rewrite Hst. cbn.
  destruct (Effects.collected_components P) as [components|]; cbn.
  2: { split; [reflexivity | discriminate]. }
  destruct (Effects.sha256_hex P components) as [digest|]; cbn.
  2: { split; [reflexivity | discriminate]. }
  destruct (JS.falsy digest) eqn:Hd; cbn.
  { split; [|discriminate]. intros _. now destruct digest. }
  split; [discriminate|]. intros _.
  destruct (Effects.setItem_accepts P st _ _); cbn; eexists; repeat split.
Qed.

Lemma generate_without_cache_witness :
  FingerprintService.generate caching_platform empty_world = Effects.Ok "" empty_world.
Proof.
  exact (proj1 (generate_without_cache caching_platform empty_world eq_refl) eq_refl).
Defined.

(** ** Error modal *)

(** X29. [handleHttpError] shows the modal, and returns [true],
    exactly for a failure that carries an envelope whose type is one of
    error, warning, alert and info; for any other failure it returns
    [false] and leaves the modal as it was. The modal then has the type
    of the envelope with the code and the message of the envelope, also
    when the envelope has none: the default texts of the type are not
    used. The button and the way out are those of the type, so closing
    the modal leads to the main page exactly for the type error. *)
Theorem handleHttpError_envelope (e : Async.Thrown) (m : ErrorModal.t) :
  let handled := fst (ErrorModal.handleHttpError e m) in
  let m' := snd (ErrorModal.handleHttpError e m) in
  let recognised :=
    match ErrorModalRouter.envelope e with
    | Some body => ErrorModal.error_type_of (Async.err_type body)
    | None => None
    end in
  handled = bool_decide (is_Some recognised)
  /\ match ErrorModalRouter.envelope e, recognised with
     | Some body, Some ty =>
         ErrorModal.isVisible m' = true
         /\ ErrorModal.type (ErrorModal.config m') = ty
         /\ ErrorModal.code (ErrorModal.config m') = Async.err_code body
         /\ ErrorModal.message (ErrorModal.config m') = Async.err_message body
         /\ ErrorModal.details (ErrorModal.config m')
            = Obj.spread [] (default [] (Async.err_details body))
         /\ ErrorModal.buttonText (ErrorModal.config m')
            = ErrorModal.buttonText (ErrorModal.DEFAULT_CONFIGS ty)
         /\ (snd (ErrorModalRouter.hide m') = Some ["/"] <-> ty = ErrorModal.error)
         /\ (snd (ErrorModalRouter.hide m') = None <-> ty <> ErrorModal.error)
     | _, _ => m' = m
     end.
Proof.
  intros handled m' recognised. subst handled m' recognised.
  unfold ErrorModal.handleHttpError, ErrorModal.extractApiError, ErrorModal.isApiError,
    ErrorModalRouter.envelope.
  destruct e as [[body|]|body|]; cbn; try (split; reflexivity).
  - destruct (ErrorModal.error_type_of (Async.err_type body)) as [ty|] eqn:Hty; cbn;
      [|split; reflexivity].
    rewrite Hty. cbn. split; [reflexivity|].
    destruct ty; cbn; repeat split; try reflexivity; try discriminate;
      try (intros H; now contradiction H).
  - destruct (ErrorModal.error_type_of (Async.err_type body)) as [ty|] eqn:Hty; cbn;
      [|split; reflexivity].
    rewrite Hty. cbn. split; [reflexivity|].
    destruct ty; cbn; repeat split; try reflexivity; try discriminate;
      try (intros H; now contradiction H).
Qed.

(** ** Confirmation modal *)

Section ConfirmationInvariant.
  Import ConfirmationModal.

(** The dialog is on screen exactly when a resolver is held. *)
Lemma awaiting_step (m : ConfirmationModal.t) (e : Event) :
  (isVisible m = true <-> is_Some (resolveCallback m)) ->
  (isVisible (step m e) = true <-> is_Some (resolveCallback (step m e))).
Proof.
  intros H. destruct e as [c| |]; cbn.
  - split; [eauto | reflexivity].
  - unfold handleConfirm. destruct (resolveCallback m) as [p|] eqn:Hr; cbn.
    + split; [discriminate | intros [? [=]]].
    + rewrite Hr. split; [discriminate | intros [? [=]]].
  - unfold handleCancel. destruct (resolveCallback m) as [p|] eqn:Hr; cbn.
    + split; [discriminate | intros [? [=]]].
    + rewrite Hr. split; [discriminate | intros [? [=]]].
Qed.

Lemma settled_step (m : ConfirmationModal.t) (e : Event) p v :
  outcome p m = Some v -> outcome p (step m e) = Some v.
Proof.
  unfold outcome. intros H. destruct e as [c| |]; cbn; [exact H | |].
  - unfold handleConfirm. destruct (resolveCallback m) as [q|]; cbn; [|exact H].
    destruct (settled m !! q) eqn:Hq; [exact H|].
    rewrite lookup_insert_ne; [exact H | congruence].
  - unfold handleCancel. destruct (resolveCallback m) as [q|]; cbn; [|exact H].
    destruct (settled m !! q) eqn:Hq; [exact H|].
    rewrite lookup_insert_ne; [exact H | congruence].
Qed.
End ConfirmationInvariant.

(** X30. Whatever calls and clicks follow each other from the start
    of the page, the confirmation dialog is on screen exactly while a
    resolver is held, so a click on a hidden dialog settles nothing;
    and a promise, once settled, keeps its value through every later
    call and click. *)
Theorem confirmation_modal_invariants (es : list ConfirmationModal.Event) :
  let m := ConfirmationModal.steps ConfirmationModal.initial es in
  (ConfirmationModal.isVisible m = true <-> is_Some (ConfirmationModal.resolveCallback m))
  /\ (ConfirmationModal.isVisible m = false ->
      ConfirmationModal.settled (ConfirmationModal.handleConfirm m)
      = ConfirmationModal.settled m
      /\ ConfirmationModal.settled (ConfirmationModal.handleCancel m)
         = ConfirmationModal.settled m)
  /\ (forall p v later,
         ConfirmationModal.outcome p m = Some v ->
         ConfirmationModal.outcome p (ConfirmationModal.steps m later) = Some v).
Proof.
  intros m.
  assert (Hinv : ConfirmationModal.isVisible m = true
                 <-> is_Some (ConfirmationModal.resolveCallback m)).
  { subst m. unfold ConfirmationModal.steps. rewrite <- fold_left_rev_right.
    induction (rev es) as [|e l IH]; cbn.
    - split; [discriminate | intros [? [=]]].
    - apply awaiting_step. exact IH. }
  split; [exact Hinv|]. split.
  - intros Hhidden.
    destruct (ConfirmationModal.resolveCallback m) as [p|] eqn:Hr.
    + assert (ConfirmationModal.isVisible m = true) by (apply Hinv; eauto). congruence.
    + unfold ConfirmationModal.handleConfirm, ConfirmationModal.handleCancel.
      rewrite Hr. split; reflexivity.
  - intros p v later. generalize m. unfold ConfirmationModal.steps.
    induction later as [|e later IH]; intros m0 H; cbn; [exact H|].
    apply IH. now apply settled_step.
Qed.

Lemma confirmation_modal_invariants_witness :
  let m := ConfirmationModal.steps ConfirmationModal.initial
             [ConfirmationModal.Confirm duplicate_dialog; ConfirmationModal.ClickCancel] in
  ConfirmationModal.outcome 0%nat
    (ConfirmationModal.steps m
       [ConfirmationModal.Confirm duplicate_dialog; ConfirmationModal.ClickConfirm])
  = Some false.
Proof.
  intros m.
  apply (proj2 (proj2 (confirmation_modal_invariants
                         [ConfirmationModal.Confirm duplicate_dialog;
                          ConfirmationModal.ClickCancel]))).
  reflexivity.
Defined.
